(** * SmartSec-Eval: the normalisation, scoring and retest-decision chain

    A shallow embedding of the decision scripts of the repository,

      - [scripts/security_score.py]    (module [SecurityScore]),
      - [scripts/retest_manager.py]    (module [RetestManager]),
      - [scripts/aggregate_metrics.py] (module [AggregateMetrics]),
      - [scripts/plot_metrics.py]      (module [PlotMetrics]),

    together with the slice of Python they rest on: [str] methods
    (module [PyStr]), the values [json.load] builds and Python's exceptions
    (module [Py]), and binary64 arithmetic (module [PyFloat]).  Module
    [Spec] holds the vocabulary of the properties; the lemmas follow it.

    Conventions.
      - A Python [str] is a Rocq [string]; the case and white-space
        functions are Python's on ASCII text, and leave every character
        above code 127 alone.
      - A function that can raise returns [result]; [Raise e] is an
        exception that leaves the function.
      - The clock ([now_utc], [TS]) and the file system are arguments: a
        file is the text read from it, [None] when it cannot be read.
      - [os.path] is the POSIX one.
      - A pandas table is the list of its rows.  [groupby] files the
        cells of a column as Python objects, by [==]; where pandas keeps
        a column of numbers in a numeric dtype, the label of a group is
        shown here as the cell the report gave. *)

From Stdlib Require Import ZArith String Ascii List Bool Lia.
From Stdlib Require Import OrderedTypeEx Sorted.
From Stdlib Require Import Floats.SpecFloat.
From stdpp Require Import base option list gmap strings pretty sorting.

Set Warnings "-register-all".
Local Open Scope Z_scope.

(* ===================================================================== *)
(** ** Python strings *)
(* ===================================================================== *)

Module PyStr.

Definition code (c : ascii) : nat := nat_of_ascii c.

Definition is_upper (c : ascii) : bool :=
  (65 <=? code c)%nat && (code c <=? 90)%nat.

Definition is_lower (c : ascii) : bool :=
  (97 <=? code c)%nat && (code c <=? 122)%nat.

Definition is_digit (c : ascii) : bool :=
  (48 <=? code c)%nat && (code c <=? 57)%nat.

(** [str.isspace] on one character: TAB..CR, FS..US and the blank. *)
Definition isspace (c : ascii) : bool :=
  ((9 <=? code c)%nat && (code c <=? 13)%nat)
  || ((28 <=? code c)%nat && (code c <=? 32)%nat).

Definition char_lower (c : ascii) : ascii :=
  if is_upper c then ascii_of_nat (code c + 32) else c.

Definition char_upper (c : ascii) : ascii :=
  if is_lower c then ascii_of_nat (code c - 32) else c.

(** [s.lower()] *)
Fixpoint lower (s : string) : string :=
  match s with
  | EmptyString => EmptyString
  | String c r => String (char_lower c) (lower r)
  end.

(** [s.capitalize()]: first character upper-cased, the rest lower-cased. *)
Definition capitalize (s : string) : string :=
  match s with
  | EmptyString => EmptyString
  | String c r => String (char_upper c) (lower r)
  end.

Fixpoint lstrip (s : string) : string :=
  match s with
  | EmptyString => EmptyString
  | String c r => if isspace c then lstrip r else s
  end.

Fixpoint rstrip (s : string) : string :=
  match s with
  | EmptyString => EmptyString
  | String c r =>
      match rstrip r with
      | EmptyString => if isspace c then EmptyString else String c EmptyString
      | r' => String c r'
      end
  end.

(** [s.strip()] *)
Definition strip (s : string) : string := lstrip (rstrip s).

(** [s.startswith(p)] *)
Fixpoint startswith (p s : string) : bool :=
  match p, s with
  | EmptyString, _ => true
  | String _ _, EmptyString => false
  | String a p', String b s' => Ascii.eqb a b && startswith p' s'
  end.

(** [k in s] *)
Fixpoint contains (k s : string) : bool :=
  startswith k s
  || match s with
     | EmptyString => false
     | String _ s' => contains k s'
     end.

(** [s[n:]] *)
Fixpoint drop_chars (n : nat) (s : string) : string :=
  match n, s with
  | O, _ => s
  | S _, EmptyString => EmptyString
  | S n', String _ r => drop_chars n' r
  end.

Definition is_empty (s : string) : bool :=
  match s with EmptyString => true | _ => false end.

(** A line boundary of [str.splitlines]: LF, VT, FF, CR, FS, GS, RS. *)
Definition is_linebreak (c : ascii) : bool :=
  ((10 <=? code c)%nat && (code c <=? 13)%nat)
  || ((28 <=? code c)%nat && (code c <=? 30)%nat).

(** [s.splitlines()]: the lines without their terminators, CR LF counted
    once, and no empty last line after a final terminator.  [cur] holds
    the current line in reverse. *)
Fixpoint splitlines_go (cur : string) (s : string) : list string :=
  match s with
  | EmptyString =>
      if is_empty cur then [] else [String.rev cur]
  | String c r =>
      if Ascii.eqb c "013"%char then
        match r with
        | String "010"%char r' => String.rev cur :: splitlines_go EmptyString r'
        | _ => String.rev cur :: splitlines_go EmptyString r
        end
      else if is_linebreak c then String.rev cur :: splitlines_go EmptyString r
      else splitlines_go (String c cur) r
  end.

Definition splitlines (s : string) : list string := splitlines_go EmptyString s.

(** The text after the last occurrence of [sep] ([s[s.rfind(sep)+1:]]),
    the whole of [s] when there is none. *)
Fixpoint after_last (sep : ascii) (s : string) : string :=
  match s with
  | EmptyString => EmptyString
  | String c r =>
      if contains (String sep EmptyString) r then after_last sep r
      else if Ascii.eqb c sep then r
      else s
  end.

(** [os.path.basename(p)] *)
Definition basename (p : string) : string := after_last "/"%char p.

(** The text before the last occurrence of [sep] ([s[:s.rfind(sep)]]),
    for an [s] that has one. *)
Fixpoint before_last (sep : ascii) (s : string) : string :=
  match s with
  | EmptyString => EmptyString
  | String c r =>
      if contains (String sep EmptyString) r then String c (before_last sep r)
      else EmptyString
  end.

Fixpoint all_chars (f : ascii -> bool) (s : string) : bool :=
  match s with
  | EmptyString => true
  | String c r => f c && all_chars f r
  end.

(** [os.path.splitext(p)[0]]: the extension starts at the last dot of the
    last path component; leading dots of that component do not count. *)
Definition splitext_root (p : string) : string :=
  let name := after_last "/"%char p in
  if contains "." name then
    let stem := before_last "."%char name in
    if all_chars (Ascii.eqb "."%char) stem then p
    else before_last "."%char p
  else p.


(** [s.upper()] *)
Fixpoint upper (s : string) : string :=
  match s with
  | EmptyString => EmptyString
  | String c r => String (char_upper c) (upper r)
  end.

(** [s.endswith(suffix)] *)
Definition endswith (suffix s : string) : bool :=
  startswith (String.rev suffix) (String.rev s).

(** [os.path.isabs(p)] *)
Definition isabs (p : string) : bool := startswith "/" p.

(** [os.path.join(a, b)] *)
Definition join (a b : string) : string :=
  if startswith "/" b then b
  else if is_empty a || endswith "/" a then a +:+ b
  else a +:+ "/" +:+ b.

(** [sorted(l)] on strings: ascending by code points. *)
Fixpoint insert_sorted (x : string) (l : list string) : list string :=
  match l with
  | [] => [x]
  | y :: r => if String.leb x y then x :: l else y :: insert_sorted x r
  end.

Definition py_sorted (l : list string) : list string :=
  fold_right insert_sorted [] l.

(** [str(n)] on an [int]. *)
Definition str_of_int (n : Z) : string := pretty n.

(** [(s[:n], s[n:])] when [s] has [n] characters at least. *)
Fixpoint split_at (n : nat) (s : string) : option (string * string) :=
  match n, s with
  | O, _ => Some (EmptyString, s)
  | S _, EmptyString => None
  | S n', String c r =>
      match split_at n' r with
      | Some (a, b) => Some (String c a, b)
      | None => None
      end
  end.

End PyStr.

(* ===================================================================== *)
(** ** Python values and exceptions *)
(* ===================================================================== *)

Module Py.

Inductive exn : Set :=
  | AttributeError
  | TypeError
  | KeyError
  | ValueError
  | OverflowError
  | ZeroDivisionError.

(** The outcome of a call: a value, or an exception that escapes it. *)
Inductive result (A : Type) : Type :=
  | Ok (a : A)
  | Raise (e : exn).

Arguments Ok {A} a.
Arguments Raise {A} e.

#[global] Instance result_ret : MRet result := fun A a => Ok a.

#[global] Instance result_bind : MBind result := fun A B f m =>
  match m with
  | Ok a => f a
  | Raise e => Raise e
  end.

#[global] Instance result_fmap : FMap result := fun A B f m =>
  match m with
  | Ok a => Ok (f a)
  | Raise e => Raise e
  end.

Definition is_ok {A} (m : result A) : bool :=
  match m with Ok _ => true | Raise _ => false end.

(** [for x in xs: acc = step(acc, x)], leaving at the first exception. *)
Fixpoint for_each {A S} (step : S -> A -> result S) (xs : list A) (acc : S)
  : result S :=
  match xs with
  | [] => Ok acc
  | x :: xs' => acc' ← step acc x; for_each step xs' acc'
  end.

(** What [json.load] returns.  A [dict] keeps its items in insertion
    order, one item per key. *)
Inductive pyval : Type :=
  | PNone
  | PBool (b : bool)
  | PInt (n : Z)
  | PFloat (x : spec_float)
  | PStr (s : string)
  | PList (l : list pyval)
  | PDict (d : list (string * pyval)).

(** [bool(v)] *)
Definition truthy (v : pyval) : bool :=
  match v with
  | PNone => false
  | PBool b => b
  | PInt n => negb (n =? 0)
  | PFloat (S754_zero _) => false
  | PFloat _ => true
  | PStr s => negb (PyStr.is_empty s)
  | PList l => match l with [] => false | _ => true end
  | PDict d => match d with [] => false | _ => true end
  end.

(** [a or b] for operands that are already values. *)
Definition py_or (a b : pyval) : pyval := if truthy a then a else b.

Fixpoint dict_get {V} (k : string) (d : list (string * V)) : option V :=
  match d with
  | [] => None
  | (k', v) :: r => if String.eqb k' k then Some v else dict_get k r
  end.

(** [k in d] *)
Definition dict_mem {V} (k : string) (d : list (string * V)) : bool :=
  match dict_get k d with Some _ => true | None => false end.

(** [d[k] = v]: an existing key keeps its place. *)
Fixpoint dict_set {V} (k : string) (v : V) (d : list (string * V))
  : list (string * V) :=
  match d with
  | [] => [(k, v)]
  | (k', v') :: r =>
      if String.eqb k' k then (k', v) :: r else (k', v') :: dict_set k v r
  end.

(** [d.update(new)] *)
Definition dict_update {V} (d new : list (string * V)) : list (string * V) :=
  fold_left (fun acc kv => dict_set (fst kv) (snd kv) acc) new d.

(** [v.get(k, dflt)]: only a [dict] has the method. *)
Definition py_get_default (v : pyval) (k : string) (dflt : pyval)
  : result pyval :=
  match v with
  | PDict d => Ok (default dflt (dict_get k d))
  | _ => Raise AttributeError
  end.

(** [v.get(k)] *)
Definition py_get (v : pyval) (k : string) : result pyval :=
  py_get_default v k PNone.

(** [v.keys()] *)
Definition py_keys (v : pyval) : result (list string) :=
  match v with
  | PDict d => Ok (map fst d)
  | _ => Raise AttributeError
  end.

Fixpoint chars (s : string) : list string :=
  match s with
  | EmptyString => []
  | String c r => String c EmptyString :: chars r
  end.

(** [for x in v]: the items of a list, the keys of a dict, the characters
    of a string; nothing else can be iterated. *)
Definition py_iter (v : pyval) : result (list pyval) :=
  match v with
  | PList l => Ok l
  | PDict d => Ok (map (fun kv => PStr (fst kv)) d)
  | PStr s => Ok (map PStr (chars s))
  | _ => Raise TypeError
  end.

Definition is_dict (v : pyval) : bool :=
  match v with PDict _ => true | _ => false end.

(** [v == s] for a string literal [s]. *)
Definition eq_str (v : pyval) (s : string) : bool :=
  match v with PStr t => String.eqb t s | _ => false end.

(** Structural equality of values is decidable; on strings it is Python's
    [==]. *)
Fixpoint pyval_eq_dec (x y : pyval) {struct x} : {x = y} + {x <> y}.
Proof.
  refine (
    match x, y with
    | PNone, PNone => left eq_refl
    | PBool a, PBool b => if decide (a = b) then left _ else right _
    | PInt a, PInt b => if decide (a = b) then left _ else right _
    | PFloat a, PFloat b =>
        if (_ : {a = b} + {a <> b}) then left _ else right _
    | PStr a, PStr b => if decide (a = b) then left _ else right _
    | PList a, PList b =>
        if list_eq_dec (dec := pyval_eq_dec) a b then left _ else right _
    | PDict a, PDict b =>
        if list_eq_dec
             (dec := fun p q : string * pyval =>
                match decide (fst p = fst q), pyval_eq_dec (snd p) (snd q) with
                | left _, left _ => left _
                | _, _ => right _
                end) a b
        then left _ else right _
    | _, _ => right _
    end); try congruence.
  all: try (destruct p, q; simpl in *; congruence).
  decide equality; solve [apply Z.eq_dec | apply Pos.eq_dec | apply Bool.bool_dec].
Defined.

#[global] Instance pyval_eq_decision : EqDecision pyval := pyval_eq_dec.


(** One row of [csv.DictReader], for a header of distinct column names
    and a line no longer than the header: the cell of each column,
    [None] where the line is too short to have it. *)
Definition csv_row : Type := list (string * option string).

(** [row.get(k)] *)
Definition csv_get (row : csv_row) (k : string) : option string :=
  match dict_get k row with
  | Some v => v
  | None => None
  end.

(** [row.get(k, dflt)] *)
Definition csv_get_default (row : csv_row) (k dflt : string) : option string :=
  match dict_get k row with
  | Some v => v
  | None => Some dflt
  end.

(** [v or ""] on a cell. *)
Definition cell_or_empty (v : option string) : string :=
  match v with
  | Some s => s
  | None => EmptyString
  end.

End Py.

(* ===================================================================== *)
(** ** Python floats: IEEE 754 binary64 *)
(* ===================================================================== *)

Module PyFloat.
Import Py.

Definition prec : Z := 53.
Definition emax : Z := 1024.

(** An integer as an exact (not yet rounded) binary number. *)
Definition of_int (a : Z) : spec_float :=
  match a with
  | Z0 => S754_zero false
  | Zpos p => S754_finite false p 0
  | Zneg p => S754_finite true p 0
  end.

(** [float(n)] for an integer in range. *)
Definition float_of_int (n : Z) : spec_float := binary_normalize prec emax n 0 false.

(** The double nearest to [a / b], ties to even. *)
Definition nearest_quotient (a b : Z) : spec_float :=
  SFdiv prec emax (of_int a) (of_int b).

(** [a / b] on two [int]s: the correctly rounded quotient;
    [ZeroDivisionError] on a zero divisor, [OverflowError] when the
    quotient is beyond the doubles. *)
Definition int_truediv (a b : Z) : result spec_float :=
  if b =? 0 then Raise ZeroDivisionError
  else
    match nearest_quotient a b with
    | S754_infinity _ => Raise OverflowError
    | q => Ok q
    end.

(** [x * y] on two floats. *)
Definition fmul (x y : spec_float) : spec_float := SFmul prec emax x y.

(** The integer nearest to [num / den], ties to even ([0 <= num], [0 < den]). *)
Definition round_half_even (num den : Z) : Z :=
  let q := num / den in
  match 2 * (num mod den) ?= den with
  | Lt => q
  | Gt => q + 1
  | Eq => if Z.even q then q else q + 1
  end.

(** [round(x, 2)]: the exact value of [x] rounded to hundredths, ties to
    even, then the double nearest to that decimal; infinities and NaN
    round to themselves. *)
Definition round2 (x : spec_float) : spec_float :=
  match x with
  | S754_finite s m e =>
      let h :=
        if 0 <=? e then Zpos m * 2 ^ e * 100
        else round_half_even (Zpos m * 100) (2 ^ (- e)) in
      match h with
      | Zpos p => SFdiv prec emax (S754_finite s p 0) (of_int 100)
      | _ => S754_zero s
      end
  | _ => x
  end.

Definition digit_value (c : ascii) : Z := Z.of_nat (PyStr.code c - 48).

Fixpoint digits_value (acc : Z) (s : string) : Z :=
  match s with
  | EmptyString => acc
  | String c r => digits_value (10 * acc + digit_value c) r
  end.

Fixpoint take_digits (s : string) : string * string :=
  match s with
  | EmptyString => (EmptyString, EmptyString)
  | String c r =>
      if PyStr.is_digit c then
        let '(d, rest) := take_digits r in (String c d, rest)
      else (EmptyString, s)
  end.

(** [float(s)] on a decimal numeral [digits] or [digits.digits], the only
    shapes the coverage patterns capture: the nearest double.  [None] is
    [ValueError]. *)
Definition float_of_str (s : string) : option spec_float :=
  let '(d1, rest) := take_digits s in
  if PyStr.is_empty d1 then None
  else
    match rest with
    | EmptyString => Some (nearest_quotient (digits_value 0 d1) 1)
    | String "."%char frac =>
        let '(d2, rest') := take_digits frac in
        if PyStr.is_empty d2 || negb (PyStr.is_empty rest') then None
        else
          Some (nearest_quotient (digits_value (digits_value 0 d1) d2)
                                 (10 ^ Z.of_nat (String.length d2)))
    | _ => None
    end.

(** [int(s)] in base ten: optional sign, digits, single underscores
    between digits, blanks around, 4300 digits at most.  [None] is
    [ValueError]. *)
Fixpoint int_digits (acc : Z) (after_digit : bool) (s : string) : option Z :=
  match s with
  | EmptyString => if after_digit then Some acc else None
  | String c r =>
      if PyStr.is_digit c then int_digits (10 * acc + digit_value c) true r
      else if Ascii.eqb c "_"%char && after_digit then int_digits acc false r
      else None
  end.

(** The digits of a numeral, its underscores left out. *)
Fixpoint digit_count (s : string) : nat :=
  match s with
  | EmptyString => O
  | String c r => if PyStr.is_digit c then S (digit_count r) else digit_count r
  end.

(** [sys.get_int_max_str_digits()], as Python 3.11 sets it. *)
Definition max_str_digits : nat := 4300.

(** A numeral without its sign: [int] refuses one of more than
    [max_str_digits] digits, leading zeros counted. *)
Definition int_numeral (t : string) : option Z :=
  match int_digits 0 false t with
  | Some n => if (digit_count t <=? max_str_digits)%nat then Some n else None
  | None => None
  end.

Definition int_of_str (s : string) : option Z :=
  match PyStr.strip s with
  | String "-"%char r => Z.opp <$> int_numeral r
  | String "+"%char r => int_numeral r
  | t => int_numeral t
  end.

End PyFloat.

(* ===================================================================== *)
(** ** scripts/security_score.py *)
(* ===================================================================== *)

Module SecurityScore.
Import Py.

(** One row of the normalised issues table, columns
    [timestamp, tool, contract, issue_type, severity, description].  The
    parsers copy [contract], [issue_type] and [description] from the
    report as they find them, so these hold any JSON value. *)
Record Finding : Type := {
  timestamp : string;
  tool : string;
  contract : pyval;
  issue_type : pyval;
  severity : string;
  description : pyval
}.

(** [load_weights].  The argument is the weights file: [None] when it does
    not exist, else the items of its JSON object, each value through
    [int].  (A file that is no JSON object of integers raises and
    [main] ends without a table.) *)
Definition load_weights (file : option (list (string * Z))) : list (string * Z) :=
  let default := [("Critical", 5); ("High", 3); ("Medium", 1)] in
  match file with
  | Some data => dict_update default data
  | None => default
  end.

(** [s in (a, b, ...)] *)
Definition in_tuple (s : string) (t : list string) : bool :=
  existsb (String.eqb s) t.

(** [norm_sev] *)
Definition norm_sev (s : pyval) : result string :=
  if negb (truthy s) then Ok "Unknown"
  else
    match s with
    | PStr raw =>
        let s := PyStr.lower (PyStr.strip raw) in
        if in_tuple s ["critical"; "very high"] then Ok "Critical"
        else if in_tuple s ["high"] then Ok "High"
        else if in_tuple s ["medium"] then Ok "Medium"
        else if in_tuple s ["low"; "info"; "informational"; "warning"]
             then Ok (PyStr.capitalize s)
        else Ok (PyStr.capitalize s)
    | _ => Raise AttributeError
    end.

(** [extract_contract_from_path]: [os.path] takes a [str] only. *)
Definition extract_contract_from_path (path : pyval) : result string :=
  match path with
  | PStr p => Ok (PyStr.splitext_root (PyStr.basename p))
  | _ => Raise TypeError
  end.

(** The contract of one element in [parse_slither]:
    [(e.get("source_mapping") or {}).get("contract") or e.get("contract")
     or extract_contract_from_path(
          (e.get("source_mapping") or {}).get("filename", ""))
     or "Unknown"], each operand evaluated only when the ones before it
    are falsy. *)
Definition slither_contract (e : pyval) : result pyval :=
  sm ← py_get e "source_mapping";
  c1 ← py_get (py_or sm (PDict [])) "contract";
  if truthy c1 then Ok c1
  else
    c2 ← py_get e "contract";
    if truthy c2 then Ok c2
    else
      filename ← py_get_default (py_or sm (PDict [])) "filename" (PStr "");
      name ← extract_contract_from_path filename;
      Ok (py_or (PStr name) (PStr "Unknown")).

Definition slither_row (ts : string) (contract issue : pyval) (sev : string)
    (desc : pyval) : Finding :=
  {| timestamp := ts; tool := "slither"; contract := contract;
     issue_type := issue; severity := sev; description := desc |}.

(** The body of [for d in detectors] in [parse_slither]. *)
Definition slither_detector (ts : string) (rows : list Finding) (d : pyval)
  : result (list Finding) :=
  check ← py_get d "check";
  title ← py_get d "title";
  let issue := py_or check (py_or title (PStr "Slither finding")) in
  impact ← py_get d "impact";
  severity ← py_get d "severity";
  let sev := py_or impact (py_or severity (PStr "Unknown")) in
  description ← py_get d "description";
  let desc := py_or description (PStr "") in
  elements ← py_get d "elements";
  let elements := py_or elements (PList []) in
  if truthy elements then
    es ← py_iter elements;
    for_each
      (fun rows e =>
         contract ← slither_contract e;
         sev' ← norm_sev sev;
         Ok (rows ++ [slither_row ts contract issue sev' desc]))
      es rows
  else
    sev' ← norm_sev sev;
    Ok (rows ++ [slither_row ts (PStr "Unknown") issue sev' desc]).

(** [parse_slither].  [file] is what [json.load] gives for the path,
    [None] when opening or decoding fails (the [except] returns the empty
    table). *)
Definition parse_slither (ts : string) (file : option pyval)
  : result (list Finding) :=
  match file with
  | None => Ok []
  | Some data =>
      results ← py_get data "results";
      detectors ← py_get (py_or results (PDict [])) "detectors";
      ds ← py_iter (py_or detectors (PList []));
      for_each (slither_detector ts) ds []
  end.

(** The body of [for i in ...] in [parse_mythril]. *)
Definition mythril_issue (ts : string) (rows : list Finding) (i : pyval)
  : result (list Finding) :=
  title ← py_get i "title";
  swc ← py_get i "swc-id";
  let issue := py_or title (py_or swc (PStr "Mythril issue")) in
  severity ← py_get i "severity";
  let sev := py_or severity (PStr "Unknown") in
  description ← py_get i "description";
  let desc := py_or description (PStr "") in
  contract ← py_get i "contract";
  filename ← py_get i "filename";
  let contract := py_or contract (py_or filename (PStr "Unknown")) in
  contract ← extract_contract_from_path contract;
  sev' ← norm_sev sev;
  Ok (rows ++ [{| timestamp := ts; tool := "mythril"; contract := PStr contract;
                  issue_type := issue; severity := sev'; description := desc |}]).

(** [parse_mythril] *)
Definition parse_mythril (ts : string) (file : option pyval)
  : result (list Finding) :=
  match file with
  | None => Ok []
  | Some data =>
      issues ← py_get_default data "issues" (PList []);
      items ← py_iter (py_or issues (PList []));
      for_each (mythril_issue ts) items []
  end.

Section Echidna.

(** [json.loads]: [None] when it raises [JSONDecodeError]. *)
Variable json_loads : string -> option pyval.

(** The first [try] of [parse_echidna]: the whole content as one JSON
    value or, failing that, its last non-blank line; [{}] when there is no
    such line.  [None] when the line does not decode either, which the
    outer [except] catches. *)
Definition echidna_data (content : string) : option pyval :=
  match json_loads content with
  | Some data => Some data
  | None =>
      let lines :=
        List.filter (fun ln => negb (PyStr.is_empty (PyStr.strip ln)))
                    (PyStr.splitlines (PyStr.strip content)) in
      match last lines with
      | Some ln => json_loads ln
      | None => Some (PDict [])
      end
  end.

(** [isinstance(v, dict) and
     (v.get("status") == "FAIL" or v.get("foundCounterexample"))] *)
Definition echidna_test_failed (v : pyval) : bool :=
  match v with
  | PDict t =>
      eq_str (default PNone (dict_get "status" t)) "FAIL"
      || truthy (default PNone (dict_get "foundCounterexample" t))
  | _ => false
  end.

(** The "heuristic parsing" of [parse_echidna], which stands outside its
    [try]. *)
Definition echidna_failures (data : pyval) : result (list string) :=
  match data with
  | PDict d =>
      if dict_mem "failedTests" d then
        failed ← py_get data "failedTests";
        py_keys (py_or failed (PDict []))
      else if dict_mem "tests" d
              && is_dict (default PNone (dict_get "tests" d)) then
        match dict_get "tests" d with
        | Some (PDict tests) =>
            Ok (map fst (List.filter (fun kv => echidna_test_failed (snd kv)) tests))
        | _ => Ok []
        end
      else Ok []
  | _ => Ok []
  end.

Definition echidna_row (ts prop : string) : Finding :=
  {| timestamp := ts; tool := "echidna"; contract := PStr "Invariants";
     issue_type := PStr prop; severity := "Medium";
     description := PStr "Property failed under fuzzing" |}.

(** [parse_echidna].  [file] is the text of the file, [None] when it
    cannot be read. *)
Definition parse_echidna (ts : string) (file : option string)
  : result (list Finding) :=
  match file with
  | None => Ok []
  | Some content =>
      match echidna_data content with
      | None => Ok []
      | Some data =>
          failures ← echidna_failures data;
          Ok (map (echidna_row ts) failures)
      end
  end.

End Echidna.

(** One row of the score table. *)
Record ScoreRow : Type := {
  row_contract : pyval;
  Critical : Z;
  High : Z;
  Medium : Z;
  SecurityScore : Z
}.

(** [sev_map = {k.capitalize(): int(v) for k, v in weights.items()}] *)
Definition sev_map_of (weights : list (string * Z)) : list (string * Z) :=
  fold_left (fun acc kv => dict_set (PyStr.capitalize (fst kv)) (snd kv) acc)
            weights [].

(** [df[df["severity"].isin(sev_map.keys())]] *)
Definition of_interest (sev_map : list (string * Z)) (df : list Finding)
  : list Finding :=
  List.filter (fun f => dict_mem (severity f) sev_map) df.

(** The key of a cell of the [contract] column when pandas groups the
    rows: two cells are one group when they are [==] (and so hash alike).
    Numbers are equal by value, whatever their type ([1 == True == 1.0]);
    the value of a finite number is kept as [m * 2^e] with [m] odd.  A
    string equals itself only. *)
Inductive group_key : Type :=
  | KNum (m e : Z)
  | KInf (neg : bool)
  | KStr (s : string).

#[global] Instance group_key_eq_decision : EqDecision group_key.
Proof. solve_decision. Defined.

(** [m * 2^e] with the factors 2 of [m] moved into the exponent. *)
Fixpoint odd_part (m : positive) (e : Z) : positive * Z :=
  match m with
  | xO q => odd_part q (e + 1)
  | _ => (m, e)
  end.

Definition num_key (neg : bool) (m : positive) (e : Z) : group_key :=
  let '(q, e') := odd_part m e in
  KNum (if neg then Zneg q else Zpos q) e'.

(** The key of one cell.  [None] and NaN are null: [groupby] leaves
    their rows out ([dropna=True]).  A list or an object cannot be
    hashed, and [groupby] raises [TypeError]. *)
Definition key_of (c : pyval) : result (option group_key) :=
  match c with
  | PNone => Ok None
  | PBool b => Ok (Some (KNum (if b then 1 else 0) 0))
  | PInt Z0 => Ok (Some (KNum 0 0))
  | PInt (Zpos p) => Ok (Some (num_key false p 0))
  | PInt (Zneg p) => Ok (Some (num_key true p 0))
  | PFloat (S754_zero _) => Ok (Some (KNum 0 0))
  | PFloat (S754_infinity neg) => Ok (Some (KInf neg))
  | PFloat S754_nan => Ok None
  | PFloat (S754_finite neg m e) => Ok (Some (num_key neg m e))
  | PStr s => Ok (Some (KStr s))
  | PList _ => Raise TypeError
  | PDict _ => Raise TypeError
  end.

(** Two cells fall in one group. *)
Definition same_key (a b : pyval) : bool :=
  match key_of a, key_of b with
  | Ok (Some ka), Ok (Some kb) => bool_decide (ka = kb)
  | _, _ => false
  end.

(** The order of the rows of a grouped table ([sort=True]): numbers by
    value, then strings by code points. *)
Definition key_leb (a b : group_key) : bool :=
  match a, b with
  | KStr s, KStr t => String.leb s t
  | KStr _, _ => false
  | _, KStr _ => true
  | KInf neg, KInf neg' => neg || negb neg'
  | KInf neg, KNum _ _ => neg
  | KNum _ _, KInf neg => negb neg
  | KNum m1 e1, KNum m2 e2 =>
      let e := Z.min e1 e2 in
      m1 * 2 ^ (e1 - e) <=? m2 * 2 ^ (e2 - e)
  end.

(** The cells that are not null, each with its key. *)
Fixpoint keyed (cells : list pyval) : result (list (group_key * pyval)) :=
  match cells with
  | [] => Ok []
  | c :: rest =>
      k ← key_of c;
      r ← keyed rest;
      Ok (match k with
          | Some k => (k, c) :: r
          | None => r
          end)
  end.

(** The first cell of every key. *)
Fixpoint uniques (l : list (group_key * pyval)) : list (group_key * pyval) :=
  match l with
  | [] => []
  | (k, c) :: r =>
      (k, c) :: List.filter (fun kc => negb (bool_decide (fst kc = k))) (uniques r)
  end.

Fixpoint insert_key (x : group_key * pyval) (l : list (group_key * pyval))
  : list (group_key * pyval) :=
  match l with
  | [] => [x]
  | y :: r => if key_leb (fst x) (fst y) then x :: l else y :: insert_key x r
  end.

Definition sort_keys (l : list (group_key * pyval)) : list (group_key * pyval) :=
  fold_right insert_key [] l.

(** [.groupby(["contract", "severity"]).size()] at one group. *)
Definition group_size (df : list Finding) (c : pyval) (sev : string) : Z :=
  Z.of_nat
    (length (List.filter
               (fun f => same_key (contract f) c && String.eqb (severity f) sev)
               df)).

(** The index of the unstacked table: one label per group of the counted
    rows, in the order of the keys; the label is the first cell of its
    group. *)
Definition contracts_of (df : list Finding) : result (list pyval) :=
  cells ← keyed (map contract df);
  Ok (map snd (sort_keys (uniques cells))).

(** Its columns: the severities of the counted rows, then
    [for col in ["Critical", "High", "Medium"]:
       if col not in counts.columns: counts[col] = 0]. *)
Definition columns_of (df : list Finding) : list string :=
  fold_left
    (fun cols col => if bool_decide (col ∈ cols) then cols else cols ++ [col])
    ["Critical"; "High"; "Medium"]
    (remove_dups (map severity df)).

(** The row of contract [c]: one count per column, [0] where the group is
    empty ([fill_value=0]). *)
Definition count_row (df : list Finding) (columns : list string) (c : pyval)
  : list (string * Z) :=
  map (fun col => (col, group_size df c col)) columns.

(** [row.get(sev, 0)] *)
Definition row_get (row : list (string * Z)) (sev : string) : Z :=
  default 0 (dict_get sev row).

(** [score_row] *)
Definition score_row (sev_map : list (string * Z)) (row : list (string * Z)) : Z :=
  let penalty :=
    fold_left (fun penalty sw => penalty + row_get row (fst sw) * snd sw)
              sev_map 0 in
  Z.max 0 (100 - penalty).

(** [aggregate_scores].  The table has one row per contract of the counted
    findings, in the order of the contracts.  When no finding is counted
    the grouped table is empty: [counts.apply(score_row, axis=1)] then
    gives back a table, not a column, and the assignment to
    [counts["SecurityScore"]] raises [ValueError].

    The cells are grouped as Python objects.  (Where a parser's
    [contract] column holds numbers only, pandas keeps it in a numeric
    dtype and shows the label in that dtype, [1] as [1.0] beside a float;
    the label here is the cell as the report gave it.) *)
Definition aggregate_scores (df : list Finding) (weights : list (string * Z))
  : result (list ScoreRow) :=
  let sev_map := sev_map_of weights in
  let counted := of_interest sev_map df in
  index ← contracts_of counted;
  let columns := columns_of counted in
  match index with
  | [] => Raise ValueError
  | _ :: _ =>
      Ok (map (fun c =>
                 let row := count_row counted columns c in
                 {| row_contract := c;
                    Critical := row_get row "Critical";
                    High := row_get row "High";
                    Medium := row_get row "Medium";
                    SecurityScore := score_row sev_map row |})
              index)
  end.

(** The score table of [main]: two default rows when no issue was parsed
    at all, the aggregate otherwise. *)
Definition main_scores (weights : list (string * Z)) (all_issues : list Finding)
  : result (list ScoreRow) :=
  if (length all_issues =? 0)%nat then
    Ok [ {| row_contract := PStr "ProductRegistry";
            Critical := 0; High := 0; Medium := 0; SecurityScore := 100 |};
         {| row_contract := PStr "ProductRegistryImproved";
            Critical := 0; High := 0; Medium := 0; SecurityScore := 100 |} ]
  else aggregate_scores all_issues weights.


(** A value of the dict [read_metrics_summary] builds. *)
Record metric : Type := {
  median_tte_s : option string;
  coverage_pct : option string
}.

(** [out[k] = v] on a dict whose keys are cells. *)
Fixpoint metrics_set (k : option string) (v : metric)
    (out : list (option string * metric)) : list (option string * metric) :=
  match out with
  | [] => [(k, v)]
  | (k', v') :: r =>
      if bool_decide (k' = k) then (k', v) :: r else (k', v') :: metrics_set k v r
  end.

(** [read_metrics_summary].  [file] is [None] when the summary is no
    file; else it holds the rows the reader yields (an exception on the
    way ends the loop, and what was read stays). *)
Definition read_metrics_summary (file : option (list csv_row))
  : list (option string * metric) :=
  match file with
  | None => []
  | Some rows =>
      fold_left
        (fun out row =>
           metrics_set (csv_get_default row "contract" "")
             {| median_tte_s := csv_get row "median_tte_s";
                coverage_pct := csv_get row "coverage_pct" |}
             out)
        rows []
  end.

(** [get_metric] of [main]: the value of the first key that contains
    [name_frag]; [name_frag in k] raises on the key [None]. *)
Fixpoint get_metric (metrics : list (option string * metric)) (name_frag : string)
  : result metric :=
  match metrics with
  | [] => Ok {| median_tte_s := Some "N/A"; coverage_pct := Some "N/A" |}
  | (k, v) :: rest =>
      match k with
      | Some k =>
          if PyStr.contains name_frag k then Ok v else get_metric rest name_frag
      | None => Raise TypeError
      end
  end.

(** [get_score] of [main], on a table whose contracts are strings:
    [scores[scores["contract"].str.contains(name, case=False, regex=False)]],
    then the score of the first row left, as text.  pandas compares the
    upper-cased texts.  (It refuses the mask when a contract is no
    string; [ValueError] stands for its exception.) *)
Definition get_score (scores : list ScoreRow) (contract_name : string)
  : result string :=
  if forallb (fun r => match row_contract r with PStr _ => true | _ => false end)
             scores
  then
    let row :=
      List.filter
        (fun r =>
           match row_contract r with
           | PStr c => PyStr.contains (PyStr.upper contract_name) (PyStr.upper c)
           | _ => false
           end)
        scores in
    match row with
    | [] => Ok "N/A"
    | r :: _ => Ok (PyStr.str_of_int (SecurityScore r))
    end
  else Raise ValueError.

(** [re.search(r"retest_summary_(\d{8}T\d{6}Z)\.txt$", path)] at the
    start of [s]: the group.  [$] stands at the end of the text, or
    before a line feed that ends it. *)
Definition retest_ts_here (s : string) : option string :=
  if PyStr.startswith "retest_summary_" s then
    match PyStr.split_at 8 (PyStr.drop_chars 15 s) with
    | Some (date, String "T"%char r) =>
        match PyStr.split_at 6 r with
        | Some (time, String "Z"%char tail) =>
            if PyStr.all_chars PyStr.is_digit date
               && PyStr.all_chars PyStr.is_digit time
               && (String.eqb tail ".txt"
                   || String.eqb tail (".txt" +:+ String "010"%char EmptyString))
            then Some (date +:+ "T" +:+ time +:+ "Z")
            else None
        | _ => None
        end
    | _ => None
    end
  else None.

(** The group of the leftmost match. *)
Fixpoint retest_ts_search (s : string) : option string :=
  match retest_ts_here s with
  | Some g => Some g
  | None =>
      match s with
      | EmptyString => None
      | String _ r => retest_ts_search r
      end
  end.

(** "Auto Retest metadata" of [main]: [(last_retest_ts, retest_count)]
    from the paths that match [retest_summary_*.txt]. *)
Definition retest_metadata (matches : list string) : string * nat :=
  let retest_summaries := PyStr.py_sorted matches in
  let retest_count := length retest_summaries in
  let last_retest_ts :=
    match last retest_summaries with
    | Some p =>
        match retest_ts_search p with
        | Some g => g
        | None => "(unknown)"
        end
    | None => "N/A"
    end in
  (last_retest_ts, retest_count).

End SecurityScore.

(* ===================================================================== *)
(** ** scripts/retest_manager.py *)
(* ===================================================================== *)

Module RetestManager.
Import Py.

Definition CRITICAL_KEYWORDS : list string :=
  ["reentrancy"; "access control"; "authorization"; "authoriz"; "overflow";
   "underflow"; "auth bypass"; "ownership"; "unauthorized"].

Definition MEDIUM_KEYWORDS : list string :=
  ["timestamp"; "equality"; "pragma"; "version"; "block.timestamp";
   "== 0"; "!= 0"].

(** [any(k in s for k in keywords)] *)
Definition any_in (keywords : list string) (s : string) : bool :=
  existsb (fun k => PyStr.contains k s) keywords.

(** [classify_issue] *)
Definition classify_issue (msg : string) : string :=
  let s := PyStr.lower msg in
  if any_in CRITICAL_KEYWORDS s then "CRITICAL"
  else if any_in MEDIUM_KEYWORDS s then "MEDIUM"
  else "MINOR".

(** One path matched by [vuln_reports/*.json]: its name, and what
    [json.load] gives for it, [None] when opening or decoding raises. *)
Record report_file : Type := {
  path : string;
  loaded : option pyval
}.

(** [summary[k].append(x)]; [None] is the [KeyError] of a missing key. *)
Definition bucket_append (summary : gmap string (list string)) (k x : string)
  : option (gmap string (list string)) :=
  files ← summary !! k;
  Some (<[k := files ++ [x]]> summary).

Section Analyze.

(** [json.dumps] *)
Variable json_dumps : pyval -> string.

(** The body of [for p in paths] in [analyze_reports]: the [try] part,
    and the [except Exception] part that files the report under MINOR. *)
Definition analyze_step (summary : gmap string (list string)) (p : report_file)
  : result (gmap string (list string)) :=
  let tried :=
    data ← loaded p;
    let content := json_dumps data in
    let sev := classify_issue content in
    bucket_append summary sev (PyStr.basename (path p)) in
  match tried with
  | Some summary' => Ok summary'
  | None =>
      match bucket_append summary "MINOR" (PyStr.basename (path p)) with
      | Some summary' => Ok summary'
      | None => Raise KeyError
      end
  end.

(** [analyze_reports], on the paths the glob found. *)
Definition analyze_reports (paths : list report_file)
  : result (gmap string (list string)) :=
  let summary : gmap string (list string) :=
    <["CRITICAL" := []]> (<["MEDIUM" := []]> (<["MINOR" := []]> ∅)) in
  for_each analyze_step paths summary.

End Analyze.

(** The plan [write_retest_plan] dumps to [retest_plan_<TS>.json]. *)
Record RetestPlan : Type := {
  plan_timestamp : string;
  results_dir : string;
  severity_counts : gmap string nat;
  files : gmap string (list string);
  recommended_actions : list string
}.

Definition FULL_ACTIONS : list string :=
  ["run_slither"; "run_mythril"; "forge_test"; "measure_tte";
   "measure_tte_improved"; "aggregate_metrics"; "plot_metrics"].

Definition ANALYSIS_ACTIONS : list string :=
  ["run_slither"; "run_mythril"; "aggregate_metrics"].

(** [summary[k]] *)
Definition subscript (summary : gmap string (list string)) (k : string)
  : result (list string) :=
  match summary !! k with
  | Some v => Ok v
  | None => Raise KeyError
  end.

Definition nonempty (l : list string) : bool :=
  match l with [] => false | _ => true end.

(** [write_retest_plan]: the plan it writes. *)
Definition write_retest_plan (TS dir : string) (summary : gmap string (list string))
  : result RetestPlan :=
  let plan actions :=
    {| plan_timestamp := TS;
       results_dir := dir;
       severity_counts := length <$> summary;
       files := summary;
       recommended_actions := actions |} in
  critical ← subscript summary "CRITICAL";
  if nonempty critical then Ok (plan FULL_ACTIONS)
  else
    medium ← subscript summary "MEDIUM";
    if nonempty medium then Ok (plan ANALYSIS_ACTIONS)
    else Ok (plan []).


Definition CONTRACT_TO_DIR : list (string * string) :=
  [("BatchRegistry", "batchregistryresults");
   ("RegistrationRegistry", "registrationregistryresults");
   ("ProductRegistry", "productregistryresults");
   ("ShipmentRegistry", "shipmentregistryresults");
   ("ShipmentSegmentAcceptance", "shipmentsegmentacceptanceresults")].

(** [bool(s)] for an optional text: [None] and the empty text are falsy. *)
Definition given (s : option string) : option string :=
  match s with
  | Some t => if PyStr.is_empty t then None else Some t
  | None => None
  end.

Section Paths.

(** [ROOT], the directory above the one of the script. *)
Variable ROOT : string.

Definition RESULTS_ROOT : string := PyStr.join ROOT "results".

(** [resolve_results_dir] *)
Definition resolve_results_dir (contract outdir : option string) : string :=
  match given outdir with
  | Some path =>
      if negb (PyStr.isabs path) then PyStr.join ROOT path else path
  | None =>
      let contract := default "BatchRegistry" (given contract) in
      let folder := default contract (dict_get contract CONTRACT_TO_DIR) in
      if PyStr.isabs folder then folder
      else PyStr.join RESULTS_ROOT folder
  end.

End Paths.

(** The path [write_summary] writes to. *)
Definition summary_path (TS results_dir : string) : string :=
  PyStr.join results_dir ("retest_summary_" +:+ TS +:+ ".txt").

(** The commands of [main]. *)
Definition FULL_CMDS : list string :=
  ["bash scripts/run_slither.sh"; "bash scripts/run_mythril.sh"; "forge test";
   "bash scripts/measure_tte.sh 3"; "bash scripts/measure_tte_improved.sh 3";
   "python3 scripts/aggregate_metrics.py"; "python3 scripts/plot_metrics.py"].

Definition ANALYSIS_CMDS : list string :=
  ["bash scripts/run_slither.sh"; "bash scripts/run_mythril.sh";
   "python3 scripts/aggregate_metrics.py"].

(** What a run of [main] leaves: the plan and the summary it wrote, and
    its exit status. *)
Record Retest : Type := {
  retest_plan : RetestPlan;
  summ_path : string;
  label : string;
  executed : list (string * Z);
  exit_status : Z
}.

Section Main.

Variable json_dumps : pyval -> string.

(** [subprocess.run(cmd, shell=True, check=False).returncode], [None]
    when it raises. *)
Variable shell : string -> option Z.

Variable ROOT : string.

(** [run_cmd] *)
Definition run_cmd (cmd : string) : Z :=
  match shell cmd with
  | Some returncode => returncode
  | None => 1
  end.

(** [main], for the arguments [--contract] (which defaults to
    ["BatchRegistry"]) and [--outdir]; [paths] are the reports the glob
    finds under the folder it resolves. *)
Definition main (TS : string) (contract : string) (outdir : option string)
    (paths : list report_file) : result Retest :=
  let results_dir := resolve_results_dir ROOT (Some contract) outdir in
  let contract_label :=
    if PyStr.is_empty contract then PyStr.basename results_dir else contract in
  summary ← analyze_reports json_dumps paths;
  plan ← write_retest_plan TS results_dir summary;
  critical ← subscript summary "CRITICAL";
  cmds ←
    (if nonempty critical then Ok FULL_CMDS
     else
       medium ← subscript summary "MEDIUM";
       if nonempty medium then Ok ANALYSIS_CMDS else Ok []);
  let rcodes := map run_cmd cmds in
  Ok {| retest_plan := plan;
        summ_path := summary_path TS results_dir;
        label := contract_label;
        executed := zip cmds rcodes;
        exit_status := 0 |}.

End Main.

End RetestManager.

(* ===================================================================== *)
(** ** scripts/aggregate_metrics.py *)
(* ===================================================================== *)

Module AggregateMetrics.
Import Py.

(** [for line in f]: the lines of a text as Python reads it (every line
    end is a line feed), each with its newline. *)
Fixpoint file_lines_go (cur : string) (s : string) : list string :=
  match s with
  | EmptyString => if PyStr.is_empty cur then [] else [String.rev cur]
  | String c r =>
      if Ascii.eqb c "010"%char
      then String.rev (String c cur) :: file_lines_go EmptyString r
      else file_lines_go (String c cur) r
  end.

Definition file_lines (content : string) : list string :=
  file_lines_go EmptyString content.

(** [int(line.split(":", 1)[1].strip())] for a line that starts with a
    three-character tag ending in the colon. *)
Definition counter_value (line : string) : option Z :=
  PyFloat.int_of_str (PyStr.strip (PyStr.drop_chars 3 line)).

(** The loop of [parse_coverage_lcov] over one line; a value that does not
    parse is passed over. *)
Definition lcov_step (totals : Z * Z) (line : string) : Z * Z :=
  let '(total_lf, total_lh) := totals in
  if PyStr.startswith "LF:" line then
    match counter_value line with
    | Some n => (total_lf + n, total_lh)
    | None => totals
    end
  else if PyStr.startswith "LH:" line then
    match counter_value line with
    | Some n => (total_lf, total_lh + n)
    | None => totals
    end
  else totals.

(** The totals [(total_lf, total_lh)] after the loop. *)
Definition lcov_totals (content : string) : Z * Z :=
  fold_left lcov_step (file_lines content) (0, 0).

(** [round((total_lh / total_lf) * 100.0, 2)] *)
Definition percent (total_lh total_lf : Z) : result spec_float :=
  q ← PyFloat.int_truediv total_lh total_lf;
  Ok (PyFloat.round2 (PyFloat.fmul q (PyFloat.float_of_int 100))).

(** [parse_coverage_lcov] on the text of an existing trace. *)
Definition parse_coverage_lcov (content : string) : result (option spec_float) :=
  let '(total_lf, total_lh) := lcov_totals content in
  if 0 <? total_lf then Some <$> percent total_lh total_lf
  else Ok None.

(** The four patterns of [parse_coverage_summary].  Each is a word, read
    without regard to case, then a gap, then the group
    [([0-9]+(?:\.[0-9]+)?)] and a percent sign.  The gap is [\s*] in the
    first three and the lazy [.*?] in the last. *)
Inductive gap : Set := Blanks | LazyAny.

Definition patterns : list (string * gap) :=
  [("Statements:", Blanks); ("Lines:", Blanks); ("Coverage:", Blanks);
   ("Overall", LazyAny)].

(** [([0-9]+(?:\.[0-9]+)?)%] at the start of [s]: the group.  Digits and
    the two punctuation marks exclude each other, so the longest run of
    digits is the only one that can lead to a match. *)
Definition match_number (s : string) : option string :=
  let '(d1, rest) := PyFloat.take_digits s in
  if PyStr.is_empty d1 then None
  else
    match rest with
    | String "%"%char _ => Some d1
    | String "."%char frac =>
        let '(d2, rest') := PyFloat.take_digits frac in
        match rest' with
        | String "%"%char _ =>
            if PyStr.is_empty d2 then None else Some (d1 +:+ "." +:+ d2)
        | _ => None
        end
    | _ => None
    end.

(** [.*?] then the number: the first place on the line where the number
    matches. *)
Fixpoint match_lazy (s : string) : option string :=
  match match_number s with
  | Some g => Some g
  | None =>
      match s with
      | EmptyString => None
      | String c r => if Ascii.eqb c "010"%char then None else match_lazy r
      end
  end.

(** The pattern at the start of [s]. *)
Definition match_here (pat : string * gap) (s : string) : option string :=
  let '(word, g) := pat in
  if PyStr.startswith (PyStr.lower word) (PyStr.lower s) then
    let rest := PyStr.drop_chars (String.length word) s in
    match g with
    | Blanks => match_number (PyStr.lstrip rest)
    | LazyAny => match_lazy rest
    end
  else None.

(** [re.search(pat, content, flags=re.IGNORECASE)]: the group of the
    leftmost match. *)
Fixpoint re_search (pat : string * gap) (content : string) : option string :=
  match match_here pat content with
  | Some g => Some g
  | None =>
      match content with
      | EmptyString => None
      | String _ r => re_search pat r
      end
  end.

(** [for pat in patterns: ...]: the first pattern that matches and whose
    group [float] accepts. *)
Fixpoint first_match (pats : list (string * gap)) (content : string)
  : option spec_float :=
  match pats with
  | [] => None
  | pat :: pats' =>
      match re_search pat content with
      | Some g =>
          match PyFloat.float_of_str g with
          | Some x => Some x
          | None => first_match pats' content
          end
      | None => first_match pats' content
      end
  end.

(** [parse_coverage_summary] on the text of an existing summary. *)
Definition parse_coverage_summary (content : string) : option spec_float :=
  first_match patterns content.

(** The coverage of [main]: [latest_lcov] and [latest_cov] are the texts
    of the newest trace and summary, [None] where the glob finds no
    file. *)
Definition coverage_pct (latest_lcov latest_cov : option string)
  : result (option spec_float) :=
  coverage_pct ←
    match latest_lcov with
    | Some lcov => parse_coverage_lcov lcov
    | None => Ok None
    end;
  match coverage_pct with
  | None =>
      match latest_cov with
      | Some cov => Ok (parse_coverage_summary cov)
      | None => Ok None
      end
  | Some _ => Ok coverage_pct
  end.


Section Latest.

(** [os.path.getmtime], and [>] on what it returns. *)
Context {T : Type} (getmtime : string -> T) (gt : T -> T -> bool).

(** [max(paths, key=os.path.getmtime)] on a list with a first item: a
    later path replaces the best one only when its key is greater. *)
Definition max_by_mtime (first : string) (rest : list string) : string :=
  fold_left (fun best p => if gt (getmtime p) (getmtime best) then p else best)
            rest first.

(** [latest_file], on the paths the glob matches. *)
Definition latest_file (paths : list string) : option string :=
  match paths with
  | [] => None
  | p :: rest => Some (max_by_mtime p rest)
  end.

End Latest.

(** The dict [parse_tte_generic] returns; [main] starts from one with
    [median], [trials], [passes] and [fails] only, where the other keys
    read as [None] too. *)
Record tte_stats (F : Type) : Type := {
  trials : Z;
  passes : Z;
  fails : Z;
  mean : option F;
  median : option F;
  min_v : option F;
  max_v : option F
}.

Arguments trials {F} _.
Arguments passes {F} _.
Arguments fails {F} _.
Arguments mean {F} _.
Arguments median {F} _.
Arguments min_v {F} _.
Arguments max_v {F} _.

(** One row of [metrics_summary.csv] as [main] hands it to the writer:
    the cells [median_tte_s] and [coverage_pct] are [""] or a float. *)
Record summary_row (F : Type) : Type := {
  generated_at : string;
  contract : string;
  median_tte_s : option F;
  coverage : option spec_float;
  notes : string
}.

Arguments generated_at {F} _.
Arguments contract {F} _.
Arguments median_tte_s {F} _.
Arguments coverage {F} _.
Arguments notes {F} _.

Section Tte.

(** The floats of the durations; [float(val)], [None] when it raises
    [ValueError]; and [round(statistics.mean(d), 6)],
    [round(statistics.median(d), 6)], [round(min(d), 6)] and
    [round(max(d), 6)] on a list that is not empty. *)
Variable F : Type.
Variable float_of : string -> option F.
Variable mean_of median_of min_of max_of : list F -> F.

(** The loop of [parse_tte_generic] over one row:
    [(trials, passes, fails, durations)]. *)
Definition tte_step (duration_field : string)
    (acc : Z * Z * Z * list F) (row : csv_row) : Z * Z * Z * list F :=
  let '(trials, passes, fails, durations) := acc in
  let val := PyStr.strip (cell_or_empty (csv_get row duration_field)) in
  let durations :=
    match float_of val with
    | Some x => durations ++ [x]
    | None => durations
    end in
  let status := PyStr.upper (PyStr.strip (cell_or_empty (csv_get row "status"))) in
  if String.eqb status "PASS" then (trials + 1, passes + 1, fails, durations)
  else if String.eqb status "FAIL" then (trials + 1, passes, fails + 1, durations)
  else (trials + 1, passes, fails, durations).

(** [parse_tte_generic], on the rows of the CSV file. *)
Definition parse_tte_generic (rows : list csv_row) (duration_field : string)
  : tte_stats F :=
  let '(trials, passes, fails, durations) :=
    fold_left (tte_step duration_field) rows (0, 0, 0, []) in
  let stat (f : list F -> F) : option F :=
    match durations with
    | [] => None
    | _ => Some (f durations)
    end in
  {| trials := trials; passes := passes; fails := fails;
     mean := stat mean_of; median := stat median_of;
     min_v := stat min_of; max_v := stat max_of |}.

Definition parse_baseline_tte (rows : list csv_row) : tte_stats F :=
  parse_tte_generic rows "elapsed_seconds".

Definition parse_improved_tte (rows : list csv_row) : tte_stats F :=
  parse_tte_generic rows "duration".

(** [baseline] and [improved] of [main]: the statistics of the newest
    CSV file, the initial dict where there is none. *)
Definition tte_or_initial (parse : list csv_row -> tte_stats F)
    (latest : option (list csv_row)) : tte_stats F :=
  match latest with
  | Some rows => parse rows
  | None =>
      {| trials := 0; passes := 0; fails := 0; mean := None; median := None;
         min_v := None; max_v := None |}
  end.

(** The two rows [main] writes below the header of
    [metrics_summary.csv]. *)
Definition summary_rows (generated_at : string)
    (latest_baseline latest_improved : option (list csv_row))
    (coverage_pct : option spec_float) : list (summary_row F) :=
  let baseline := tte_or_initial parse_baseline_tte latest_baseline in
  let improved := tte_or_initial parse_improved_tte latest_improved in
  let notes_b := "Baseline vulnerable" in
  let notes_i :=
    if fails improved =? 0 then "Improved secure – no overwrite detected"
    else "Improved reported failures" in
  [ {| generated_at := generated_at;
       contract := "ShipmentSegmentAcceptance (Baseline)";
       median_tte_s := median baseline;
       coverage := coverage_pct;
       notes := notes_b |};
    {| generated_at := generated_at;
       contract := "ShipmentSegmentAcceptanceImproved";
       median_tte_s := median improved;
       coverage := coverage_pct;
       notes := notes_i |} ].

End Tte.

End AggregateMetrics.

(* ===================================================================== *)
(** ** scripts/plot_metrics.py *)
(* ===================================================================== *)

Module PlotMetrics.
Import Py.

(** [next((r for r in rows if frag in r.get("contract", "")), None)];
    [frag in None] raises. *)
Fixpoint first_row_with (frag : string) (rows : list csv_row)
  : result (option csv_row) :=
  match rows with
  | [] => Ok None
  | r :: rest =>
      match csv_get_default r "contract" "" with
      | Some name =>
          if PyStr.contains frag name then Ok (Some r)
          else first_row_with frag rest
      | None => Raise TypeError
      end
  end.

(** [bool(row)] for what [next] gave. *)
Definition found (row : option csv_row) : bool :=
  match row with
  | Some (_ :: _) => true
  | _ => false
  end.

(** The start of [main]: [inl] is the status it returns before any plot
    (1 without [matplotlib], 2 without the metrics file, 3 without both
    rows), [inr] the baseline and the improved row it goes on with. *)
Definition select_rows (matplotlib : bool) (metrics : option (list csv_row))
  : result (Z + csv_row * csv_row) :=
  if negb matplotlib then Ok (inl 1)
  else
    match metrics with
    | None => Ok (inl 2)
    | Some rows =>
        baseline ← first_row_with "Baseline" rows;
        improved ← first_row_with "Improved" rows;
        if negb (found baseline) || negb (found improved) then Ok (inl 3)
        else
          match baseline, improved with
          | Some b, Some i => Ok (inr (b, i))
          | _, _ => Ok (inl 3)
          end
    end.

(** The loop over [rows_scores] in the security scores chart:
    [(b_row, i_row)]. *)
Definition score_rows (rows_scores : list csv_row)
  : result (option csv_row * option csv_row) :=
  for_each
    (fun (acc : option csv_row * option csv_row) r =>
       match csv_get_default r "contract" "" with
       | Some name =>
           if PyStr.contains "Improved" name then Ok (fst acc, Some r)
           else Ok (Some r, snd acc)
       | None => Raise TypeError
       end)
    rows_scores (None, None).

End PlotMetrics.

(* ===================================================================== *)
(** ** Vocabulary of the properties *)
(* ===================================================================== *)

Module Spec.
Import Py.

(** [k] occurs in [s]. *)
Definition occurs_in (k s : string) : Prop :=
  exists pre post : string, s = pre +:+ k +:+ post.

(** The lower-cased [text] contains one of [keywords]. *)
Definition has_keyword (keywords : list string) (text : string) : Prop :=
  exists k, In k keywords /\ occurs_in k (PyStr.lower text).

(** The triage bucket of one report file in [analyze_reports]. *)
Definition bucket_of (json_dumps : pyval -> string) (p : RetestManager.report_file)
  : string :=
  match RetestManager.loaded p with
  | Some data => RetestManager.classify_issue (json_dumps data)
  | None => "MINOR"
  end.

(** The file names of the reports that fall in [bucket], in glob order. *)
Definition names_in (json_dumps : pyval -> string) (bucket : string)
    (paths : list RetestManager.report_file) : list string :=
  map (fun p => PyStr.basename (RetestManager.path p))
      (List.filter (fun p => String.eqb (bucket_of json_dumps p) bucket) paths).

(** [l] after the loop of [analyze_reports] has passed [p]: the name of
    [p] is appended when [bucket] is its bucket. *)
Definition appended (bucket : string) (json_dumps : pyval -> string)
    (p : RetestManager.report_file) (l : list string) : list string :=
  if String.eqb (bucket_of json_dumps p) bucket
  then l ++ [PyStr.basename (RetestManager.path p)] else l.

(** A summary with the three buckets. *)
Definition buckets (critical medium minor : list string)
  : gmap string (list string) :=
  <["CRITICAL" := critical]> (<["MEDIUM" := medium]> (<["MINOR" := minor]> ∅)).

(* Scoring *)

(** [sum over (sev, w) of count[sev] * w] *)
Fixpoint weighted_sum (sev_map : list (string * Z)) (count : string -> Z) : Z :=
  match sev_map with
  | [] => 0
  | (sev, w) :: rest => count sev * w + weighted_sum rest count
  end.

(** The score the way the header of the script words it,
    [100 - (wC*Critical + wH*High + wM*Medium)], kept at 0 or more. *)
Definition documented_score (weights : list (string * Z))
    (r : SecurityScore.ScoreRow) : Z :=
  let w sev := default 0 (dict_get sev weights) in
  Z.max 0 (100 - (w "Critical" * SecurityScore.Critical r
                  + w "High" * SecurityScore.High r
                  + w "Medium" * SecurityScore.Medium r)).

(** A finding of contract [c] with severity [sev]. *)
Definition finding (c sev : string) : SecurityScore.Finding :=
  {| SecurityScore.timestamp := "2025-01-01T00:00:00Z";
     SecurityScore.tool := "slither";
     SecurityScore.contract := PStr c;
     SecurityScore.issue_type := PStr "Slither finding";
     SecurityScore.severity := sev;
     SecurityScore.description := PStr "" |}.

(* The scanner-A parser *)

(** [d.get(k)] on the items of a dict. *)
Definition field (d : list (string * pyval)) (k : string) : pyval :=
  default PNone (dict_get k d).

Definition falsy (v : pyval) : bool := negb (truthy v).

Definition is_str (v : pyval) : bool :=
  match v with PStr _ => true | _ => false end.

(** The first non-empty (truthy) candidate, [dflt] when there is none. *)
Definition first_nonempty (candidates : list pyval) (dflt : pyval) : pyval :=
  match List.find truthy candidates with
  | Some v => v
  | None => dflt
  end.

(** The stem of a file name: its last path component without extension. *)
Definition stem (filename : pyval) : pyval :=
  match filename with
  | PStr p => PStr (PyStr.splitext_root (PyStr.basename p))
  | _ => PNone
  end.

(** The [source_mapping] of an element, empty when it has none. *)
Definition source_mapping_of (e : list (string * pyval)) : list (string * pyval) :=
  match field e "source_mapping" with
  | PDict sm => sm
  | _ => []
  end.

(** The contract of an element the way the specification words it: the
    first non-empty of [source_mapping.contract], the element's own
    [contract], the stem of [source_mapping.filename]; else "Unknown". *)
Definition element_contract (e : pyval) : pyval :=
  match e with
  | PDict fields =>
      let sm := source_mapping_of fields in
      first_nonempty
        [field sm "contract";
         field fields "contract";
         stem (default (PStr "") (dict_get "filename" sm))]
        (PStr "Unknown")
  | _ => PStr "Unknown"
  end.

(** The elements of a detector, none when the field is absent or empty. *)
Definition elements_of (d : list (string * pyval)) : list pyval :=
  match field d "elements" with
  | PList es => es
  | _ => []
  end.

(** The normalised severity of a detector. *)
Definition detector_severity (d : list (string * pyval)) : string :=
  match SecurityScore.norm_sev
          (py_or (field d "impact") (py_or (field d "severity") (PStr "Unknown"))) with
  | Ok s => s
  | Raise _ => ""
  end.

(** The findings of one detector the way the specification words them:
    one per element, or a single one with contract "Unknown". *)
Definition detector_findings (ts : string) (d : pyval) : list SecurityScore.Finding :=
  match d with
  | PDict fields =>
      let issue :=
        py_or (field fields "check")
              (py_or (field fields "title") (PStr "Slither finding")) in
      let desc := py_or (field fields "description") (PStr "") in
      let row c :=
        SecurityScore.slither_row ts c issue (detector_severity fields) desc in
      match elements_of fields with
      | [] => [row (PStr "Unknown")]
      | es => map (fun e => row (element_contract e)) es
      end
  | _ => []
  end.

(** The list [results.detectors] of a report. *)
Definition detectors_of (data : pyval) : list pyval :=
  match data with
  | PDict top =>
      match field top "results" with
      | PDict results =>
          match field results "detectors" with
          | PList ds => ds
          | _ => []
          end
      | _ => []
      end
  | _ => []
  end.

(** The reports of the scanner-A schema,
    [{results: {detectors: [{check|title, impact|severity, description,
       elements: [{source_mapping: {contract, filename}, contract}]}]}}],
    on which [parse_slither] does not raise: objects where objects stand,
    lists where lists stand, a severity that is a string, and a file name
    that is a string wherever a [source_mapping] has the key [filename].
    Any other field may be absent, null or empty, and the key [filename]
    may be absent; a [filename] that is null is outside. *)
Definition element_shaped (e : pyval) : bool :=
  match e with
  | PDict fields =>
      match field fields "source_mapping" with
      | PDict sm =>
          match dict_get "filename" sm with
          | Some v => is_str v
          | None => true
          end
      | v => falsy v
      end
  | _ => false
  end.

Definition detector_shaped (d : pyval) : bool :=
  match d with
  | PDict fields =>
      is_str (py_or (field fields "impact")
                    (py_or (field fields "severity") (PStr "Unknown")))
      && match field fields "elements" with
         | PList es => forallb element_shaped es
         | v => falsy v
         end
  | _ => false
  end.

Definition report_shaped (data : pyval) : bool :=
  match data with
  | PDict top =>
      match field top "results" with
      | PDict results =>
          match field results "detectors" with
          | PList ds => forallb detector_shaped ds
          | v => falsy v
          end
      | v => falsy v
      end
  | _ => false
  end.

(** Scenario A: one detector of impact High with one element in Token.sol. *)
Definition scenario_a : pyval :=
  PDict [("results",
          PDict [("detectors",
                  PList [PDict [("impact", PStr "High");
                                ("elements",
                                 PList [PDict [("source_mapping",
                                                PDict [("filename", PStr "Token.sol")])]])]])])].

(* Coverage *)

(** The values of the counters tagged [tag] in an LCOV trace, line by
    line; a value that is no integer is left out. *)
Definition counter_values (tag : string) (content : string) : list Z :=
  flat_map
    (fun line =>
       if PyStr.startswith tag line
       then match AggregateMetrics.counter_value line with
            | Some n => [n]
            | None => []
            end
       else [])
    (AggregateMetrics.file_lines content).

Definition sum_Z (l : list Z) : Z := fold_right Z.add 0 l.

(** Scenario E: a trace with 80 lines found and 76 hit. *)
Definition trace_80_76 : string :=
"TN:
SF:src/Token.sol
DA:1,1
LF:80
LH:76
end_of_record
".

(** A non-empty run of decimal digits. *)
Definition numeral (d : string) : Prop :=
  d <> "" /\ PyStr.all_chars PyStr.is_digit d = true.

(** A text that does not go on with a digit. *)
Definition stops (rest : string) : Prop :=
  match rest with
  | EmptyString => True
  | String c _ => PyStr.is_digit c = false
  end.


(** A decimal as the coverage patterns capture it: digits, or digits, a
    point and digits. *)
Definition decimal (g : string) : Prop :=
  numeral g
  \/ exists d1 d2, g = d1 +:+ "." +:+ d2 /\ numeral d1 /\ numeral d2.

(** [([0-9]+(?:\.[0-9]+)?)%] matches at the start of [s] and captures
    [g]. *)
Definition number_at (s g : string) : Prop :=
  decimal g /\ exists rest, s = g +:+ "%" +:+ rest.

(** White space only: what [\s*] takes. *)
Definition blank (s : string) : Prop :=
  PyStr.all_chars PyStr.isspace s = true.

(** No line feed: what [.*?] may pass over. *)
Definition one_line (s : string) : Prop :=
  PyStr.all_chars (fun c => negb (Ascii.eqb c "010"%char)) s = true.

(** The pattern [pat] matches at the start of [s] and captures [g]: the
    word in any case, the gap, the decimal and the percent sign.  The
    lazy gap ends at the first place where the decimal and the percent
    sign match. *)
Definition matches_at (pat : string * AggregateMetrics.gap) (s g : string)
  : Prop :=
  exists w rest,
    s = w +:+ rest /\ PyStr.lower w = PyStr.lower (fst pat)
    /\ match snd pat with
       | AggregateMetrics.Blanks =>
           exists b tail, rest = b +:+ tail /\ blank b /\ number_at tail g
       | AggregateMetrics.LazyAny =>
           exists skipped tail,
             rest = skipped +:+ tail /\ one_line skipped /\ number_at tail g
             /\ forall a b, skipped = a +:+ b -> b <> "" ->
                            forall g', ~ number_at (b +:+ tail) g'
       end.

(** [re.search(pat, content, flags=re.IGNORECASE)] finds [g]: the group
    of the match at the leftmost place where [pat] matches. *)
Definition found (pat : string * AggregateMetrics.gap) (content g : string)
  : Prop :=
  exists before s,
    content = before +:+ s /\ matches_at pat s g
    /\ forall a b, before = a +:+ b -> b <> "" ->
                   forall g', ~ matches_at pat (b +:+ s) g'.

(** [k] is the integer nearest to [num / den], for [0 < den]; of two
    nearest integers, the even one. *)
Definition nearest_even (num den k : Z) : Prop :=
  2 * Z.abs (k * den - num) < den
  \/ (2 * Z.abs (k * den - num) = den /\ Z.even k = true).

(** [y] is [round(x, 2)]: the exact value of [x], in hundredths, goes to
    the nearest integer [k], ties to even, and [y] is the double nearest
    to [k / 100], with the sign of [x].  Infinities and NaN stay. *)
Definition rounded_to_hundredths (x y : spec_float) : Prop :=
  match x with
  | S754_finite s m e =>
      exists k,
        0 <= k
        /\ nearest_even (Zpos m * 100 * 2 ^ Z.max e 0) (2 ^ Z.max (- e) 0) k
        /\ y = (if k =? 0 then S754_zero s
                else PyFloat.nearest_quotient (if s then - k else k) 100)
  | _ => y = x
  end.

(** [s] and [t] have white space at the same places. *)
Fixpoint same_spaces (s t : string) : Prop :=
  match s, t with
  | EmptyString, EmptyString => True
  | String a s', String b t' =>
      PyStr.isspace a = PyStr.isspace b /\ same_spaces s' t'
  | _, _ => False
  end.

(* The Mythril parser *)

(** The list [issues] of a report. *)
Definition issues_of (data : pyval) : list pyval :=
  match data with
  | PDict top =>
      match default (PList []) (dict_get "issues" top) with
      | PList l => l
      | _ => []
      end
  | _ => []
  end.

Definition issue_contract (i : list (string * pyval)) : pyval :=
  py_or (field i "contract") (py_or (field i "filename") (PStr "Unknown")).

Definition issue_severity (i : list (string * pyval)) : pyval :=
  py_or (field i "severity") (PStr "Unknown").

(** The schema of a Mythril report,
    [{issues: [{title|swc-id, severity, description, contract|filename}]}]:
    an object with a list of objects, where a severity and a contract or
    file name are strings; any field may be absent, null or empty. *)
Definition issue_shaped (i : pyval) : bool :=
  match i with
  | PDict d => is_str (issue_contract d) && is_str (issue_severity d)
  | _ => false
  end.

Definition mythril_shaped (data : pyval) : bool :=
  match data with
  | PDict top =>
      match default (PList []) (dict_get "issues" top) with
      | PList l => forallb issue_shaped l
      | v => falsy v
      end
  | _ => false
  end.

(** The finding of one issue. *)
Definition issue_finding (ts : string) (i : pyval) : SecurityScore.Finding :=
  let d := match i with PDict d => d | _ => [] end in
  {| SecurityScore.timestamp := ts;
     SecurityScore.tool := "mythril";
     SecurityScore.contract := stem (issue_contract d);
     SecurityScore.issue_type :=
       py_or (field d "title") (py_or (field d "swc-id") (PStr "Mythril issue"));
     SecurityScore.severity :=
       match SecurityScore.norm_sev (issue_severity d) with
       | Ok s => s
       | Raise _ => ""
       end;
     SecurityScore.description := py_or (field d "description") (PStr "") |}.

(** A text without a path separator. *)
Definition plain_name (v : pyval) : Prop :=
  exists s, v = PStr s /\ PyStr.contains "/" s = false.

(* The score table as a whole *)

(** The number of findings of severity [sev]. *)
Definition severity_count (df : list SecurityScore.Finding) (sev : string) : Z :=
  Z.of_nat (length (List.filter (fun f => String.eqb (SecurityScore.severity f) sev) df)).

(** Every finding names its contract by a string, as the findings of the
    three parsers do on reports of their schemas.  (pandas leaves out a
    group whose key is null and refuses a key that cannot be hashed.) *)
Definition string_contracts (df : list SecurityScore.Finding) : Prop :=
  forall f, In f df -> is_str (SecurityScore.contract f) = true.

(** The row of contract [c] in the score table of the counted findings
    [counted]. *)
Definition row_of (sev_map : list (string * Z))
    (counted : list SecurityScore.Finding) (c : pyval) : SecurityScore.ScoreRow :=
  {| SecurityScore.row_contract := c;
     SecurityScore.Critical := SecurityScore.group_size counted c "Critical";
     SecurityScore.High := SecurityScore.group_size counted c "High";
     SecurityScore.Medium := SecurityScore.group_size counted c "Medium";
     SecurityScore.SecurityScore :=
       Z.max 0 (100 - weighted_sum sev_map (SecurityScore.group_size counted c)) |}.

(* Retest summaries *)

(** The shape of [strftime("%Y%m%dT%H%M%SZ")] in the years 1000 to 9999:
    eight digits, [T], six digits, [Z]. *)
Definition utc_stamp (ts : string) : Prop :=
  exists date time : string,
    ts = date +:+ "T" +:+ time +:+ "Z"
    /\ String.length date = 8%nat /\ String.length time = 6%nat
    /\ PyStr.all_chars PyStr.is_digit date = true
    /\ PyStr.all_chars PyStr.is_digit time = true.

(* The metrics summary and its readers *)

(** The column [contract] of a table as [csv.DictReader] hands it out. *)
Definition contract_column (rows : list csv_row) : list (option string) :=
  map (fun row => csv_get_default row "contract" "") rows.

(** What [get_metric] returns when no key matches. *)
Definition not_available : SecurityScore.metric :=
  {| SecurityScore.median_tte_s := Some "N/A";
     SecurityScore.coverage_pct := Some "N/A" |}.

(** The status of a trial as [parse_tte_generic] reads it. *)
Definition status_of (row : csv_row) : string :=
  PyStr.upper (PyStr.strip (cell_or_empty (csv_get row "status"))).

(** The number of trials with status [s]. *)
Definition count_status (s : string) (rows : list csv_row) : Z :=
  Z.of_nat (length (List.filter (fun row => String.eqb (status_of row) s) rows)).

(** The trials of the newest CSV file that have status FAIL, none when
    there is no file. *)
Definition failed_trials (latest : option (list csv_row)) : list csv_row :=
  match latest with
  | Some rows => List.filter (fun row => String.eqb (status_of row) "FAIL") rows
  | None => []
  end.

(** The durations that parse, in the order of the rows. *)
Definition durations_of {F : Type} (float_of : string -> option F)
    (duration_field : string) (rows : list csv_row) : list F :=
  omap (fun row =>
          float_of (PyStr.strip (cell_or_empty (csv_get row duration_field))))
       rows.

(* The retest run *)

(** The command that stands for a recommended action. *)
Definition command_of (action : string) : string :=
  if String.eqb action "run_slither" then "bash scripts/run_slither.sh"
  else if String.eqb action "run_mythril" then "bash scripts/run_mythril.sh"
  else if String.eqb action "forge_test" then "forge test"
  else if String.eqb action "measure_tte" then "bash scripts/measure_tte.sh 3"
  else if String.eqb action "measure_tte_improved"
       then "bash scripts/measure_tte_improved.sh 3"
  else if String.eqb action "aggregate_metrics"
       then "python3 scripts/aggregate_metrics.py"
  else if String.eqb action "plot_metrics"
       then "python3 scripts/plot_metrics.py"
  else action.

(** The rank of a triage bucket. *)
Definition rank (bucket : string) : Z :=
  if String.eqb bucket "CRITICAL" then 2
  else if String.eqb bucket "MEDIUM" then 1
  else 0.

(* Reading the score table *)

(** The rows [get_score] keeps for [name]. *)
Definition matches_name (name : string) (r : SecurityScore.ScoreRow) : bool :=
  match SecurityScore.row_contract r with
  | PStr c => PyStr.contains (PyStr.upper name) (PyStr.upper c)
  | _ => false
  end.

(** The row names the improved contract. *)
Definition names_improved (row : csv_row) : bool :=
  PyStr.contains "Improved" (cell_or_empty (csv_get_default row "contract" "")).

(** Every row has its [contract] cell. *)
Definition contract_cells (rows : list csv_row) : Prop :=
  forall row, In row rows -> csv_get_default row "contract" "" <> None.

(** A text of ASCII characters, where the case functions of this file
    are Python's. *)
Definition ascii_text (s : string) : Prop :=
  PyStr.all_chars (fun c => (PyStr.code c <? 128)%nat) s = true.

(** Every row names its contract by an ASCII string. *)
Definition ascii_contracts (scores : list SecurityScore.ScoreRow) : Prop :=
  forall r, In r scores ->
    exists c, SecurityScore.row_contract r = PStr c /\ ascii_text c.

End Spec.

(* ===================================================================== *)
(** ** Strings *)
(* ===================================================================== *)

Import Py.

Lemma append_cons (c : ascii) (s t : string) :
  String c s +:+ t = String c (s +:+ t).
Proof. reflexivity. Qed.

Lemma append_empty_l (s : string) : EmptyString +:+ s = s.
Proof. reflexivity. Qed.

Lemma append_length (a b : string) :
  String.length (a +:+ b) = (String.length a + String.length b)%nat.
Proof.
  induction a as [|c a IH]; [reflexivity|].
  rewrite append_cons. cbn [String.length]. now rewrite IH.
Qed.

Lemma append_assoc (a b c : string) : (a +:+ b) +:+ c = a +:+ b +:+ c.
Proof.
  induction a as [|x a IH]; [reflexivity|]. rewrite !append_cons. now rewrite IH.
Qed.

Lemma lower_app (a b : string) :
  PyStr.lower (a +:+ b) = PyStr.lower a +:+ PyStr.lower b.
Proof.
  induction a as [|c a IH]; [reflexivity|].
  rewrite append_cons. cbn [PyStr.lower]. now rewrite IH, append_cons.
Qed.

(** [sorted] on strings: the order of the code points. *)
Lemma string_compare_refl (s : string) : String.compare s s = Eq.
Proof. now apply String_as_OT.cmp_eq. Qed.

Lemma string_leb_trans (a b c : string) :
  String.leb a b = true -> String.leb b c = true -> String.leb a c = true.
Proof.
  unfold String.leb.
  destruct (String.compare a b) eqn:E1; [| |discriminate];
    (destruct (String.compare b c) eqn:E2; [| |discriminate]); intros _ _.
  - apply String_as_OT.cmp_eq in E1 as ->. now rewrite E2.
  - apply String_as_OT.cmp_eq in E1 as ->. now rewrite E2.
  - apply String_as_OT.cmp_eq in E2 as <-. now rewrite E1.
  - apply String_as_OT.cmp_lt in E1, E2.
    pose proof (String_as_OT.lt_trans _ _ _ E1 E2) as H.
    apply String_as_OT.cmp_lt in H. unfold String_as_OT.cmp in H. now rewrite H.
Qed.

Lemma insert_sorted_perm (x : string) (l : list string) :
  PyStr.insert_sorted x l ≡ₚ x :: l.
Proof.
  induction l as [|y l IH]; [reflexivity|]. cbn [PyStr.insert_sorted].
  destruct (String.leb x y); [reflexivity|].
  rewrite IH. apply perm_swap.
Qed.

Lemma py_sorted_perm (l : list string) : PyStr.py_sorted l ≡ₚ l.
Proof.
  induction l as [|x l IH]; [reflexivity|].
  unfold PyStr.py_sorted. cbn [fold_right]. fold (PyStr.py_sorted l).
  now rewrite insert_sorted_perm, IH.
Qed.

Lemma insert_sorted_sorted (x : string) (l : list string) :
  StronglySorted (fun a b => String.leb a b = true) l ->
  StronglySorted (fun a b => String.leb a b = true) (PyStr.insert_sorted x l).
Proof.
  induction 1 as [|y l Hs IH Hy]; [repeat constructor|].
  cbn [PyStr.insert_sorted]. destruct (String.leb x y) eqn:E.
  - constructor; [now constructor|]. constructor; [exact E|].
    eapply Forall_impl; [exact Hy|]. intros z Hz. cbn beta in Hz.
    eapply string_leb_trans; eauto.
  - constructor; [exact IH|].
    rewrite (insert_sorted_perm x l). constructor; [|exact Hy].
    destruct (String.leb_total x y) as [H|H]; [congruence | exact H].
Qed.

Lemma py_sorted_sorted (l : list string) :
  StronglySorted (fun a b => String.leb a b = true) (PyStr.py_sorted l).
Proof.
  induction l as [|x l IH]; [constructor|].
  unfold PyStr.py_sorted. cbn [fold_right]. now apply insert_sorted_sorted.
Qed.

Lemma startswith_iff (p s : string) :
  PyStr.startswith p s = true <-> exists post, s = p +:+ post.
Proof.
  revert s; induction p as [|a p IH]; intros s; simpl.
  - split; [intros _; exists s; reflexivity | reflexivity].
  - destruct s as [|b s].
    + split; [discriminate | intros [post H]; discriminate H].
    + rewrite andb_true_iff, Ascii.eqb_eq, IH. split.
      * intros [-> [post ->]]. exists post. reflexivity.
      * intros [post H]. rewrite append_cons in H. injection H as -> ->.
        split; [reflexivity | exists post; reflexivity].
Qed.

Lemma contains_iff (k s : string) :
  PyStr.contains k s = true <-> Spec.occurs_in k s.
Proof.
  unfold Spec.occurs_in. induction s as [|c s IH]; simpl.
  - rewrite orb_false_r, startswith_iff. split.
    + intros [post H]. exists EmptyString, post. exact H.
    + intros [pre [post H]]. destruct pre as [|a pre].
      * exists post. exact H.
      * rewrite append_cons in H. discriminate H.
  - rewrite orb_true_iff, startswith_iff, IH. split.
    + intros [[post H] | [pre [post H]]].
      * exists EmptyString, post. exact H.
      * exists (String c pre), post. rewrite append_cons, H. reflexivity.
    + intros [pre [post H]]. destruct pre as [|a pre].
      * left. exists post. exact H.
      * right. rewrite append_cons in H. injection H as _ ->.
        exists pre, post. reflexivity.
Qed.

Lemma any_in_iff (keywords : list string) (s : string) :
  RetestManager.any_in keywords s = true
  <-> exists k, In k keywords /\ Spec.occurs_in k s.
Proof.
  unfold RetestManager.any_in. rewrite existsb_exists.
  split; intros [k [Hin Hk]]; exists k; split; try exact Hin;
    apply contains_iff; exact Hk.
Qed.

Lemma any_in_lower_iff (keywords : list string) (text : string) :
  RetestManager.any_in keywords (PyStr.lower text) = true
  <-> Spec.has_keyword keywords text.
Proof. apply any_in_iff. Qed.

(* ===================================================================== *)
(** ** Retest manager: triage and plan *)
(* ===================================================================== *)

(** C5.  [classify_issue] is a first-match priority function over the
    lower-cased text: a CRITICAL keyword gives CRITICAL whatever else the
    text contains; failing that a MEDIUM keyword gives MEDIUM; failing
    both the result is MINOR.  In particular a text with a keyword of
    each kind is CRITICAL. *)
Theorem classify_issue_first_match (msg : string) :
  (Spec.has_keyword RetestManager.CRITICAL_KEYWORDS msg ->
   RetestManager.classify_issue msg = "CRITICAL")
  /\ (~ Spec.has_keyword RetestManager.CRITICAL_KEYWORDS msg ->
      Spec.has_keyword RetestManager.MEDIUM_KEYWORDS msg ->
      RetestManager.classify_issue msg = "MEDIUM")
  /\ (~ Spec.has_keyword RetestManager.CRITICAL_KEYWORDS msg ->
      ~ Spec.has_keyword RetestManager.MEDIUM_KEYWORDS msg ->
      RetestManager.classify_issue msg = "MINOR")
  /\ (Spec.has_keyword RetestManager.CRITICAL_KEYWORDS msg ->
      Spec.has_keyword RetestManager.MEDIUM_KEYWORDS msg ->
      RetestManager.classify_issue msg = "CRITICAL").
Proof.
  unfold RetestManager.classify_issue.
  destruct (RetestManager.any_in RetestManager.CRITICAL_KEYWORDS (PyStr.lower msg))
    eqn:Hc;
  destruct (RetestManager.any_in RetestManager.MEDIUM_KEYWORDS (PyStr.lower msg))
    eqn:Hm.
  all: repeat split; intros; try reflexivity.
  all: repeat match goal with
       | H : Spec.has_keyword _ _ |- _ => apply any_in_lower_iff in H
       | H : ~ Spec.has_keyword _ _ |- _ =>
           rewrite <- any_in_lower_iff in H
       end; congruence.
Qed.

(** A report that mentions reentrancy and a pragma is CRITICAL. *)
Lemma classify_issue_first_match_witness :
  RetestManager.classify_issue "Reentrancy in withdraw(); pragma ^0.8.0" = "CRITICAL".
Proof.
  apply (proj2 (proj2 (proj2
           (classify_issue_first_match "Reentrancy in withdraw(); pragma ^0.8.0")))).
  - exists "reentrancy". split; [simpl; tauto |].
    exists "", " in withdraw(); pragma ^0.8.0". reflexivity.
  - exists "pragma". split; [simpl; tauto |].
    exists "reentrancy in withdraw(); ", " ^0.8.0". reflexivity.
Defined.

Lemma classify_issue_bucket (msg : string) :
  RetestManager.classify_issue msg = "CRITICAL"
  \/ RetestManager.classify_issue msg = "MEDIUM"
  \/ RetestManager.classify_issue msg = "MINOR".
Proof.
  unfold RetestManager.classify_issue.
  destruct (RetestManager.any_in _ _); [tauto |].
  destruct (RetestManager.any_in _ _); tauto.
Qed.

Lemma bucket_of_cases (json_dumps : pyval -> string) (p : RetestManager.report_file) :
  Spec.bucket_of json_dumps p = "CRITICAL"
  \/ Spec.bucket_of json_dumps p = "MEDIUM"
  \/ Spec.bucket_of json_dumps p = "MINOR".
Proof.
  unfold Spec.bucket_of. destruct (RetestManager.loaded p).
  - apply classify_issue_bucket.
  - tauto.
Qed.

Lemma buckets_lookup (c m n : list string) :
  Spec.buckets c m n !! "CRITICAL" = Some c
  /\ Spec.buckets c m n !! "MEDIUM" = Some m
  /\ Spec.buckets c m n !! "MINOR" = Some n.
Proof. unfold Spec.buckets. repeat split; by simplify_map_eq. Qed.

Lemma buckets_dom (c m n : list string) :
  dom (Spec.buckets c m n) = ({["CRITICAL"; "MEDIUM"; "MINOR"]} : gset string).
Proof. unfold Spec.buckets. rewrite !dom_insert_L. set_solver. Qed.

Lemma buckets_insert (c m n l : list string) :
  <["CRITICAL" := l]> (Spec.buckets c m n) = Spec.buckets l m n
  /\ <["MEDIUM" := l]> (Spec.buckets c m n) = Spec.buckets c l n
  /\ <["MINOR" := l]> (Spec.buckets c m n) = Spec.buckets c m l.
Proof.
  unfold Spec.buckets. repeat split; apply map_eq; intros k;
    rewrite !lookup_insert; repeat case_decide; congruence.
Qed.

Lemma bucket_append_buckets (c m n : list string) (x : string) :
  RetestManager.bucket_append (Spec.buckets c m n) "CRITICAL" x
    = Some (Spec.buckets (c ++ [x]) m n)
  /\ RetestManager.bucket_append (Spec.buckets c m n) "MEDIUM" x
    = Some (Spec.buckets c (m ++ [x]) n)
  /\ RetestManager.bucket_append (Spec.buckets c m n) "MINOR" x
    = Some (Spec.buckets c m (n ++ [x])).
Proof.
  unfold RetestManager.bucket_append.
  destruct (buckets_lookup c m n) as (-> & -> & ->).
  cbn. repeat split; f_equal; apply buckets_insert.
Qed.

(** One step of the loop never raises and appends the file name to the
    bucket of the file. *)
Lemma analyze_step_buckets (json_dumps : pyval -> string)
    (c m n : list string) (p : RetestManager.report_file) :
  RetestManager.analyze_step json_dumps (Spec.buckets c m n) p
  = Ok (Spec.buckets (Spec.appended "CRITICAL" json_dumps p c)
                     (Spec.appended "MEDIUM" json_dumps p m)
                     (Spec.appended "MINOR" json_dumps p n)).
Proof.
  unfold RetestManager.analyze_step, Spec.appended, Spec.bucket_of.
  destruct (bucket_append_buckets c m n (PyStr.basename (RetestManager.path p)))
    as (Hc & Hm & Hn).
  destruct (RetestManager.loaded p) as [data|]; cbn.
  - destruct (classify_issue_bucket (json_dumps data)) as [-> | [-> | ->]];
      rewrite ?Hc, ?Hm, ?Hn; reflexivity.
  - rewrite Hn. reflexivity.
Qed.

Lemma names_in_cons (json_dumps : pyval -> string) (bucket : string)
    (p : RetestManager.report_file) (paths : list RetestManager.report_file)
    (l : list string) :
  Spec.appended bucket json_dumps p l ++ Spec.names_in json_dumps bucket paths
  = l ++ Spec.names_in json_dumps bucket (p :: paths).
Proof.
  unfold Spec.appended, Spec.names_in. simpl.
  destruct (String.eqb _ bucket); simpl; [rewrite <- app_assoc |]; reflexivity.
Qed.

Lemma for_each_analyze_step (json_dumps : pyval -> string)
    (paths : list RetestManager.report_file) (c m n : list string) :
  for_each (RetestManager.analyze_step json_dumps) paths (Spec.buckets c m n)
  = Ok (Spec.buckets (c ++ Spec.names_in json_dumps "CRITICAL" paths)
                     (m ++ Spec.names_in json_dumps "MEDIUM" paths)
                     (n ++ Spec.names_in json_dumps "MINOR" paths)).
Proof.
  revert c m n. induction paths as [|p paths IH]; intros c m n.
  - simpl. unfold Spec.names_in. simpl. rewrite !app_nil_r. reflexivity.
  - simpl. rewrite analyze_step_buckets. cbn. rewrite IH, !names_in_cons.
    reflexivity.
Qed.

(** [analyze_reports] never raises: its summary holds, bucket by bucket,
    the names of the files that fall there. *)
Lemma analyze_reports_buckets (json_dumps : pyval -> string)
    (paths : list RetestManager.report_file) :
  RetestManager.analyze_reports json_dumps paths
  = Ok (Spec.buckets (Spec.names_in json_dumps "CRITICAL" paths)
                     (Spec.names_in json_dumps "MEDIUM" paths)
                     (Spec.names_in json_dumps "MINOR" paths)).
Proof.
  unfold RetestManager.analyze_reports.
  apply (for_each_analyze_step json_dumps paths [] [] []).
Qed.

(** The plan of a summary with the three buckets. *)
Lemma write_retest_plan_buckets (TS dir : string) (c m n : list string) :
  RetestManager.write_retest_plan TS dir (Spec.buckets c m n)
  = Ok {| RetestManager.plan_timestamp := TS;
          RetestManager.results_dir := dir;
          RetestManager.severity_counts := length <$> Spec.buckets c m n;
          RetestManager.files := Spec.buckets c m n;
          RetestManager.recommended_actions :=
            if RetestManager.nonempty c then RetestManager.FULL_ACTIONS
            else if RetestManager.nonempty m then RetestManager.ANALYSIS_ACTIONS
            else [] |}.
Proof.
  unfold RetestManager.write_retest_plan, RetestManager.subscript.
  destruct (buckets_lookup c m n) as (-> & -> & _). cbn.
  destruct (RetestManager.nonempty c); [reflexivity |]. cbn.
  destruct (RetestManager.nonempty m); reflexivity.
Qed.

Lemma nonempty_true (l : list string) :
  l <> [] -> RetestManager.nonempty l = true.
Proof. destruct l; [congruence | reflexivity]. Qed.

(** C2.  The plan written for a results directory recommends exactly the
    seven-action set when a file is in the CRITICAL bucket, exactly the
    three-action set when a file is in MEDIUM and none in CRITICAL, and
    nothing otherwise; for an empty report directory it recommends
    nothing and counts 0 in each of CRITICAL, MEDIUM and MINOR. *)
Theorem retest_plan_recommended_actions
    (json_dumps : pyval -> string) (TS dir : string)
    (paths : list RetestManager.report_file) :
  exists summary critical medium plan,
    RetestManager.analyze_reports json_dumps paths = Ok summary
    /\ summary !! "CRITICAL" = Some critical
    /\ summary !! "MEDIUM" = Some medium
    /\ RetestManager.write_retest_plan TS dir summary = Ok plan
    /\ (critical <> [] ->
        RetestManager.recommended_actions plan
        = ["run_slither"; "run_mythril"; "forge_test"; "measure_tte";
           "measure_tte_improved"; "aggregate_metrics"; "plot_metrics"])
    /\ (critical = [] -> medium <> [] ->
        RetestManager.recommended_actions plan
        = ["run_slither"; "run_mythril"; "aggregate_metrics"])
    /\ (critical = [] -> medium = [] ->
        RetestManager.recommended_actions plan = [])
    /\ (paths = [] ->
        RetestManager.recommended_actions plan = []
        /\ RetestManager.severity_counts plan
           = <["CRITICAL" := 0%nat]> (<["MEDIUM" := 0%nat]> (<["MINOR" := 0%nat]> ∅))).
Proof.
  eexists _, _, _, _.
  split; [apply analyze_reports_buckets |].
  split; [apply buckets_lookup |].
  split; [apply buckets_lookup |].
  split; [apply write_retest_plan_buckets |].
  cbn [RetestManager.recommended_actions RetestManager.severity_counts].
  repeat split.
  - intros H. rewrite (nonempty_true _ H). reflexivity.
  - intros -> H. cbn. rewrite (nonempty_true _ H). reflexivity.
  - intros -> ->. reflexivity.
  - subst paths. reflexivity.
  - subst paths. unfold Spec.buckets, Spec.names_in. cbn.
    rewrite !fmap_insert, fmap_empty. reflexivity.
Qed.

(** A directory with one report, on reentrancy: the full set is recommended. *)
Lemma retest_plan_recommended_actions_witness :
  exists summary plan,
    RetestManager.analyze_reports (fun _ => "reentrancy")
      [ {| RetestManager.path := "vuln_reports/slither_1.json";
           RetestManager.loaded := Some (PDict []) |} ] = Ok summary
    /\ RetestManager.write_retest_plan "20250101T000000Z" "results" summary = Ok plan
    /\ RetestManager.recommended_actions plan = RetestManager.FULL_ACTIONS.
Proof.
  destruct (retest_plan_recommended_actions (fun _ => "reentrancy")
              "20250101T000000Z" "results"
              [ {| RetestManager.path := "vuln_reports/slither_1.json";
                   RetestManager.loaded := Some (PDict []) |} ])
    as (summary & critical & medium & plan & Hs & Hc & _ & Hp & Hfull & _).
  exists summary, plan. repeat split; try assumption.
  apply Hfull. rewrite analyze_reports_buckets in Hs. injection Hs as <-.
  destruct (buckets_lookup
              (Spec.names_in (fun _ => "reentrancy") "CRITICAL"
                 [ {| RetestManager.path := "vuln_reports/slither_1.json";
                      RetestManager.loaded := Some (PDict []) |} ])
              (Spec.names_in (fun _ => "reentrancy") "MEDIUM"
                 [ {| RetestManager.path := "vuln_reports/slither_1.json";
                      RetestManager.loaded := Some (PDict []) |} ])
              (Spec.names_in (fun _ => "reentrancy") "MINOR"
                 [ {| RetestManager.path := "vuln_reports/slither_1.json";
                      RetestManager.loaded := Some (PDict []) |} ]))
    as (Hc' & _).
  rewrite Hc' in Hc. injection Hc as <-. discriminate.
Defined.

Lemma bucket_of_unreadable (json_dumps : pyval -> string)
    (p : RetestManager.report_file) :
  RetestManager.loaded p = None -> Spec.bucket_of json_dumps p = "MINOR".
Proof. unfold Spec.bucket_of. intros ->. reflexivity. Qed.

Lemma names_in_elem (json_dumps : pyval -> string) (bucket : string)
    (paths : list RetestManager.report_file) (p : RetestManager.report_file) :
  In p paths -> Spec.bucket_of json_dumps p = bucket ->
  In (PyStr.basename (RetestManager.path p)) (Spec.names_in json_dumps bucket paths).
Proof.
  intros Hin Hb. unfold Spec.names_in.
  apply (in_map (fun p => PyStr.basename (RetestManager.path p))).
  apply filter_In. split; [exact Hin | apply String.eqb_eq; exact Hb].
Qed.

Lemma names_in_none (json_dumps : pyval -> string) (bucket : string)
    (paths : list RetestManager.report_file) :
  (forall p, In p paths -> Spec.bucket_of json_dumps p <> bucket) ->
  Spec.names_in json_dumps bucket paths = [].
Proof.
  unfold Spec.names_in. induction paths as [|p paths IH]; intros H.
  - reflexivity.
  - simpl. destruct (String.eqb _ bucket) eqn:E.
    + apply String.eqb_eq in E. exfalso. apply (H p); [left; reflexivity | exact E].
    + apply IH. intros q Hq. apply H. right. exact Hq.
Qed.

Lemma names_in_skip (json_dumps : pyval -> string) (bucket : string)
    (paths1 paths2 : list RetestManager.report_file) (p : RetestManager.report_file) :
  Spec.bucket_of json_dumps p <> bucket ->
  Spec.names_in json_dumps bucket (paths1 ++ p :: paths2)
  = Spec.names_in json_dumps bucket (paths1 ++ paths2).
Proof.
  intros H. unfold Spec.names_in. rewrite !List.filter_app. simpl.
  apply String.eqb_neq in H. rewrite H. reflexivity.
Qed.

(** C10.  For every results directory the summary of [analyze_reports] has
    exactly the keys CRITICAL, MEDIUM and MINOR; in the plan written from
    it each count is the length of the file list of the same bucket; a
    report that cannot be read as JSON is listed, by its file name, under
    MINOR; a directory of such reports only gets no recommended action,
    and such a report beside others leaves the recommended actions as
    they are without it. *)
Theorem triage_summary_buckets
    (json_dumps : pyval -> string) (TS dir : string)
    (paths : list RetestManager.report_file) :
  exists summary plan,
    RetestManager.analyze_reports json_dumps paths = Ok summary
    /\ dom summary = ({["CRITICAL"; "MEDIUM"; "MINOR"]} : gset string)
    /\ RetestManager.write_retest_plan TS dir summary = Ok plan
    /\ RetestManager.files plan = summary
    /\ (forall bucket : string,
          RetestManager.severity_counts plan !! bucket
          = length <$> (RetestManager.files plan !! bucket))
    /\ (forall p, In p paths -> RetestManager.loaded p = None ->
          exists minor, summary !! "MINOR" = Some minor
                        /\ In (PyStr.basename (RetestManager.path p)) minor)
    /\ ((forall p, In p paths -> RetestManager.loaded p = None) ->
          RetestManager.recommended_actions plan = [])
    /\ (forall paths1 paths2 p,
          paths = paths1 ++ p :: paths2 -> RetestManager.loaded p = None ->
          exists summary' plan',
            RetestManager.analyze_reports json_dumps (paths1 ++ paths2) = Ok summary'
            /\ RetestManager.write_retest_plan TS dir summary' = Ok plan'
            /\ RetestManager.recommended_actions plan
               = RetestManager.recommended_actions plan').
Proof.
  eexists _, _.
  split; [apply analyze_reports_buckets |].
  split; [apply buckets_dom |].
  split; [apply write_retest_plan_buckets |].
  cbn [RetestManager.recommended_actions RetestManager.severity_counts
       RetestManager.files].
  split; [reflexivity |].
  split; [intros bucket; apply lookup_fmap |].
  split; [| split].
  - intros p Hin Hp. eexists. split; [apply buckets_lookup |].
    apply names_in_elem; [exact Hin | apply bucket_of_unreadable; exact Hp].
  - intros H.
    rewrite (names_in_none json_dumps "CRITICAL"), (names_in_none json_dumps "MEDIUM").
    + reflexivity.
    + intros p Hin. rewrite (bucket_of_unreadable json_dumps p (H p Hin)). discriminate.
    + intros p Hin. rewrite (bucket_of_unreadable json_dumps p (H p Hin)). discriminate.
  - intros paths1 paths2 p -> Hp. eexists _, _.
    split; [apply analyze_reports_buckets |].
    split; [apply write_retest_plan_buckets |].
    cbn [RetestManager.recommended_actions].
    rewrite (names_in_skip json_dumps "CRITICAL"), (names_in_skip json_dumps "MEDIUM");
      [reflexivity | |];
      rewrite (bucket_of_unreadable json_dumps p Hp); discriminate.
Qed.

(** A directory whose only report is unreadable: it is listed under
    MINOR and nothing is recommended. *)
Lemma triage_summary_buckets_witness :
  exists summary plan,
    RetestManager.analyze_reports (fun _ => "reentrancy")
      [ {| RetestManager.path := "vuln_reports/broken.json";
           RetestManager.loaded := None |} ] = Ok summary
    /\ RetestManager.write_retest_plan "20250101T000000Z" "results" summary = Ok plan
    /\ (exists minor, summary !! "MINOR" = Some minor /\ In "broken.json" minor)
    /\ RetestManager.recommended_actions plan = [].
Proof.
  destruct (triage_summary_buckets (fun _ => "reentrancy")
              "20250101T000000Z" "results"
              [ {| RetestManager.path := "vuln_reports/broken.json";
                   RetestManager.loaded := None |} ])
    as (summary & plan & Hs & _ & Hp & _ & _ & Hminor & Hnone & _).
  exists summary, plan. repeat split; try assumption.
  - apply (Hminor {| RetestManager.path := "vuln_reports/broken.json";
                     RetestManager.loaded := None |}); [left |]; reflexivity.
  - apply Hnone. intros p [<- | []]. reflexivity.
Defined.

(* ===================================================================== *)
(** ** Security score: the score table *)
(* ===================================================================== *)

Lemma bind_Ok {A B : Type} (a : A) (f : A -> result B) : (Ok a ≫= f) = f a.
Proof. reflexivity. Qed.


Lemma dict_mem_In {V} (k : string) (d : list (string * V)) :
  dict_mem k d = true <-> In k (map fst d).
Proof.
  unfold dict_mem. induction d as [|[k' v] d IH]; simpl.
  - split; [discriminate | tauto].
  - destruct (String.eqb k' k) eqn:E.
    + apply String.eqb_eq in E. tauto.
    + apply String.eqb_neq in E. rewrite IH. split; [tauto | intros [H | H]; congruence].
Qed.

Lemma fold_left_penalty (row : list (string * Z)) (sev_map : list (string * Z)) (acc : Z) :
  fold_left (fun penalty sw => penalty + SecurityScore.row_get row (fst sw) * snd sw)
            sev_map acc
  = acc + Spec.weighted_sum sev_map (SecurityScore.row_get row).
Proof.
  revert acc. induction sev_map as [|[sev w] rest IH]; intros acc; simpl.
  - lia.
  - rewrite IH. lia.
Qed.

Lemma score_row_sum (sev_map row : list (string * Z)) :
  SecurityScore.score_row sev_map row
  = Z.max 0 (100 - Spec.weighted_sum sev_map (SecurityScore.row_get row)).
Proof. unfold SecurityScore.score_row. rewrite fold_left_penalty. reflexivity. Qed.

Lemma weighted_sum_ext (sev_map : list (string * Z)) (f g : string -> Z) :
  (forall sev, In sev (map fst sev_map) -> f sev = g sev) ->
  Spec.weighted_sum sev_map f = Spec.weighted_sum sev_map g.
Proof.
  induction sev_map as [|[sev w] rest IH]; intros H; simpl.
  - reflexivity.
  - rewrite (H sev), IH; [reflexivity | | left; reflexivity].
    intros s Hs. apply H. right. exact Hs.
Qed.

Lemma weighted_sum_mono (sev_map : list (string * Z)) (f g : string -> Z) :
  (forall sev w, In (sev, w) sev_map -> 0 <= w) ->
  (forall sev, f sev <= g sev) ->
  Spec.weighted_sum sev_map f <= Spec.weighted_sum sev_map g.
Proof.
  induction sev_map as [|[sev w] rest IH]; intros Hw Hfg; simpl.
  - lia.
  - assert (0 <= w) by (apply (Hw sev); left; reflexivity).
    assert (Spec.weighted_sum rest f <= Spec.weighted_sum rest g).
    { apply IH; [|exact Hfg]. intros s v Hs. apply (Hw s). right. exact Hs. }
    specialize (Hfg sev). nia.
Qed.

Lemma weighted_sum_nonneg (sev_map : list (string * Z)) (f : string -> Z) :
  (forall sev w, In (sev, w) sev_map -> 0 <= w) ->
  (forall sev, 0 <= f sev) ->
  0 <= Spec.weighted_sum sev_map f.
Proof.
  induction sev_map as [|[sev w] rest IH]; intros Hw Hf; simpl.
  - lia.
  - assert (0 <= w) by (apply (Hw sev); left; reflexivity).
    assert (0 <= Spec.weighted_sum rest f).
    { apply IH; [|exact Hf]. intros s v Hs. apply (Hw s). right. exact Hs. }
    specialize (Hf sev). nia.
Qed.

(** The values of a dict after [dict_set] are the old ones and the new one. *)
Lemma dict_set_values {V} (k : string) (v : V) (d : list (string * V)) (k0 : string) (v0 : V) :
  In (k0, v0) (dict_set k v d) -> v0 = v \/ In (k0, v0) d.
Proof.
  induction d as [|[k' v'] d IH]; simpl.
  - intros [H | []]. injection H as _ <-. left; reflexivity.
  - destruct (String.eqb k' k).
    + intros [H | H]; [injection H as _ <-; left; reflexivity | right; right; exact H].
    + intros [H | H]; [right; left; exact H |].
      destruct (IH H); [left | right; right]; assumption.
Qed.

Lemma sev_map_of_values (weights : list (string * Z)) (sev : string) (w : Z) :
  In (sev, w) (SecurityScore.sev_map_of weights) -> exists k, In (k, w) weights.
Proof.
  unfold SecurityScore.sev_map_of.
  assert (G : forall acc : list (string * Z),
             In (sev, w)
                (fold_left (fun acc kv => dict_set (PyStr.capitalize (fst kv)) (snd kv) acc)
                           weights acc) ->
             (exists k, In (k, w) weights) \/ In (sev, w) acc).
  { induction weights as [|[k v] rest IH]; intros acc; simpl.
    - tauto.
    - intros H. destruct (IH _ H) as [[k0 Hk0] | Hacc].
      + left. exists k0. right. exact Hk0.
      + apply dict_set_values in Hacc. destruct Hacc as [-> | Hacc].
        * left. exists k. left. reflexivity.
        * right. exact Hacc. }
  intros H. destruct (G [] H) as [? | []]. assumption.
Qed.

Lemma dict_get_tabulate (f : string -> Z) (columns : list string) (sev : string) :
  dict_get sev (map (fun col => (col, f col)) columns)
  = if bool_decide (sev ∈ columns) then Some (f sev) else None.
Proof.
  induction columns as [|col columns IH]; simpl.
  - reflexivity.
  - destruct (String.eqb col sev) eqn:E.
    + apply String.eqb_eq in E. subst col.
      rewrite bool_decide_eq_true_2; [reflexivity | left].
    + apply String.eqb_neq in E. rewrite IH.
      destruct (bool_decide (sev ∈ columns)) eqn:B.
      * apply bool_decide_eq_true in B.
        rewrite bool_decide_eq_true_2; [reflexivity | right; exact B].
      * apply bool_decide_eq_false in B.
        rewrite bool_decide_eq_false_2; [reflexivity |].
        intros H. apply elem_of_cons in H. destruct H; congruence.
Qed.

Lemma group_size_absent (df : list SecurityScore.Finding) (c : pyval) (sev : string) :
  ~ In sev (map SecurityScore.severity df) -> SecurityScore.group_size df c sev = 0.
Proof.
  unfold SecurityScore.group_size. induction df as [|f df IH]; simpl; intros H.
  - reflexivity.
  - destruct (String.eqb (SecurityScore.severity f) sev) eqn:E.
    + apply String.eqb_eq in E. tauto.
    + rewrite andb_false_r. apply IH. tauto.
Qed.

Lemma columns_of_severities (df : list SecurityScore.Finding) (sev : string) :
  In sev (map SecurityScore.severity df) -> In sev (SecurityScore.columns_of df).
Proof.
  unfold SecurityScore.columns_of. intros H.
  assert (H0 : In sev (remove_dups (map SecurityScore.severity df))).
  { apply list_elem_of_In, (proj2 (elem_of_remove_dups _ _)), list_elem_of_In, H. }
  revert H0. generalize (remove_dups (map SecurityScore.severity df)).
  generalize ["Critical"; "High"; "Medium"]%list.
  induction l as [|col l IH]; intros cols Hc; simpl.
  - exact Hc.
  - apply IH. case_bool_decide; [exact Hc | apply in_or_app; left; exact Hc].
Qed.

(** [row.get(sev, 0)] on the row of [c] is the size of the group
    [(c, sev)], whether or not [sev] is a column. *)
Lemma row_get_count_row (df : list SecurityScore.Finding) (c : pyval) (sev : string) :
  SecurityScore.row_get
    (SecurityScore.count_row df (SecurityScore.columns_of df) c) sev
  = SecurityScore.group_size df c sev.
Proof.
  unfold SecurityScore.row_get, SecurityScore.count_row.
  rewrite dict_get_tabulate. case_bool_decide as H; [reflexivity |].
  simpl. symmetry. apply group_size_absent. intros Hs. apply H.
  apply list_elem_of_In, columns_of_severities. exact Hs.
Qed.

(** A severity of the weight table is counted over the whole table. *)
Lemma group_size_of_interest (sev_map : list (string * Z))
    (df : list SecurityScore.Finding) (c : pyval) (sev : string) :
  dict_mem sev sev_map = true ->
  SecurityScore.group_size (SecurityScore.of_interest sev_map df) c sev
  = SecurityScore.group_size df c sev.
Proof.
  intros Hm. unfold SecurityScore.group_size, SecurityScore.of_interest.
  f_equal. f_equal. induction df as [|f df IH]; simpl.
  - reflexivity.
  - destruct (dict_mem (SecurityScore.severity f) sev_map) eqn:E; simpl.
    + rewrite IH. reflexivity.
    + destruct (String.eqb (SecurityScore.severity f) sev) eqn:E'.
      * apply String.eqb_eq in E'. congruence.
      * rewrite andb_false_r. exact IH.
Qed.

(** A severity outside the weight table is not counted at all. *)
Lemma group_size_not_of_interest (sev_map : list (string * Z))
    (df : list SecurityScore.Finding) (c : pyval) (sev : string) :
  dict_mem sev sev_map = false ->
  SecurityScore.group_size (SecurityScore.of_interest sev_map df) c sev = 0.
Proof.
  intros Hm. apply group_size_absent. intros H.
  apply in_map_iff in H. destruct H as [f [Hf Hin]].
  apply filter_In in Hin. destruct Hin as [_ Hin]. congruence.
Qed.

Lemma group_size_nonneg (df : list SecurityScore.Finding) (c : pyval) (sev : string) :
  0 <= SecurityScore.group_size df c sev.
Proof. unfold SecurityScore.group_size. lia. Qed.

Lemma group_size_app (df1 df2 : list SecurityScore.Finding) (c : pyval) (sev : string) :
  SecurityScore.group_size (df1 ++ df2) c sev
  = SecurityScore.group_size df1 c sev + SecurityScore.group_size df2 c sev.
Proof.
  unfold SecurityScore.group_size. rewrite List.filter_app, length_app. lia.
Qed.

(** The keyed cells are the cells that have a key. *)
Lemma keyed_In (cells : list pyval) (l : list (SecurityScore.group_key * pyval)) :
  SecurityScore.keyed cells = Ok l ->
  forall k c, In (k, c) l <-> In c cells /\ SecurityScore.key_of c = Ok (Some k).
Proof.
  revert l. induction cells as [|c0 cells IH]; intros l; cbn [SecurityScore.keyed].
  - intros [= <-] k c. cbn [In]. tauto.
  - destruct (SecurityScore.key_of c0) as [k0|e] eqn:E0; [|discriminate].
    rewrite bind_Ok.
    destruct (SecurityScore.keyed cells) as [r|e] eqn:Er; [|discriminate].
    rewrite bind_Ok. intros [= <-] k c. specialize (IH r eq_refl k c).
    destruct k0 as [k0|]; cbn [In]; rewrite ?IH; split.
    + intros [[= <- <-]|[H1 H2]]; [split; [now left|exact E0]|].
      split; [now right|exact H2].
    + intros [[<-|H1] H2]; [left; congruence|right; tauto].
    + intros [H1 H2]. split; [now right|exact H2].
    + intros [[<-|H1] H2]; [congruence|tauto].
Qed.

Lemma keyed_app (cells1 cells2 : list pyval) :
  SecurityScore.keyed (cells1 ++ cells2)
  = (l1 ← SecurityScore.keyed cells1;
     l2 ← SecurityScore.keyed cells2;
     Ok (l1 ++ l2)).
Proof.
  induction cells1 as [|c cells1 IH]; cbn [app SecurityScore.keyed].
  - rewrite bind_Ok. now destruct (SecurityScore.keyed cells2).
  - destruct (SecurityScore.key_of c) as [k|e]; [|reflexivity].
    rewrite !bind_Ok, IH.
    destruct (SecurityScore.keyed cells1) as [l1|e]; [|reflexivity].
    rewrite !bind_Ok.
    destruct (SecurityScore.keyed cells2) as [l2|e]; [|reflexivity].
    rewrite !bind_Ok. now destruct k.
Qed.

(** A key is kept with its first cell. *)
Lemma uniques_cons_In (k0 : SecurityScore.group_key) (c0 : pyval)
    (r : list (SecurityScore.group_key * pyval)) (x : SecurityScore.group_key * pyval) :
  In x (SecurityScore.uniques ((k0, c0) :: r))
  <-> x = (k0, c0) \/ (fst x <> k0 /\ In x (SecurityScore.uniques r)).
Proof.
  cbn [SecurityScore.uniques In]. rewrite filter_In, negb_true_iff, bool_decide_eq_false.
  split; intros [H|H]; auto; tauto.
Qed.

Lemma uniques_In (l : list (SecurityScore.group_key * pyval))
    (x : SecurityScore.group_key * pyval) :
  In x (SecurityScore.uniques l) -> In x l.
Proof.
  induction l as [|[k0 c0] r IH]; [easy|].
  intros [->|[_ H]]%uniques_cons_In; [now left|right; auto].
Qed.

Lemma uniques_keys (l : list (SecurityScore.group_key * pyval))
    (k : SecurityScore.group_key) :
  In k (map fst l) -> In k (map fst (SecurityScore.uniques l)).
Proof.
  induction l as [|[k0 c0] r IH]; [easy|]. intros H.
  destruct (decide (k = k0)) as [->|Hne]; [now left|].
  destruct H as [H|H]; [cbn in H; congruence|].
  apply IH, in_map_iff in H as ([k' c'] & Hk & Hin). cbn in Hk. subst k'.
  apply in_map_iff. exists (k, c'). split; [reflexivity|].
  apply uniques_cons_In. right. split; [exact Hne|exact Hin].
Qed.

Lemma NoDup_map_filter {A B} (f : A -> B) (p : A -> bool) (l : list A) :
  NoDup (map f l) -> NoDup (map f (List.filter p l)).
Proof.
  induction l as [|x l IH]; cbn [map List.filter]; [easy|].
  intros [Hx Hl]%NoDup_cons. destruct (p x); [|auto].
  cbn [map]. apply NoDup_cons. split; [|auto].
  intros H. apply Hx. apply list_elem_of_In. apply list_elem_of_In in H.
  apply in_map_iff in H as (y & Hy & Hin). apply filter_In in Hin as [Hin _].
  apply in_map_iff. eauto.
Qed.

Lemma uniques_NoDup (l : list (SecurityScore.group_key * pyval)) :
  NoDup (map fst (SecurityScore.uniques l)).
Proof.
  induction l as [|[k0 c0] r IH]; cbn [SecurityScore.uniques map]; [constructor|].
  apply NoDup_cons. split; [|now apply NoDup_map_filter].
  intros H. apply list_elem_of_In, in_map_iff in H as ([k c] & Hk & Hin).
  apply filter_In in Hin as [_ Hin]. cbn in Hk, Hin. subst k.
  now rewrite bool_decide_eq_true_2 in Hin.
Qed.

Lemma insert_key_perm (x : SecurityScore.group_key * pyval)
    (l : list (SecurityScore.group_key * pyval)) :
  SecurityScore.insert_key x l ≡ₚ x :: l.
Proof.
  induction l as [|y l IH]; [reflexivity|]. cbn [SecurityScore.insert_key].
  destruct (SecurityScore.key_leb _ _); [reflexivity|].
  rewrite IH. apply perm_swap.
Qed.

Lemma sort_keys_perm (l : list (SecurityScore.group_key * pyval)) :
  SecurityScore.sort_keys l ≡ₚ l.
Proof.
  induction l as [|x l IH]; [reflexivity|].
  unfold SecurityScore.sort_keys. cbn [fold_right]. fold (SecurityScore.sort_keys l).
  now rewrite insert_key_perm, IH.
Qed.

(** The labels of the table: the first cells of the keys. *)
Lemma contracts_of_In (l : list (SecurityScore.group_key * pyval)) (c : pyval) :
  In c (map snd (SecurityScore.sort_keys (SecurityScore.uniques l)))
  <-> exists k, In (k, c) (SecurityScore.uniques l).
Proof.
  rewrite <- list_elem_of_In, (sort_keys_perm (SecurityScore.uniques l)),
    list_elem_of_In, in_map_iff.
  split.
  - intros ([k c'] & <- & H). now exists k.
  - intros (k & H). now exists (k, c).
Qed.

(** Distinct keys have distinct labels. *)
Lemma contracts_of_NoDup (cells : list pyval)
    (l : list (SecurityScore.group_key * pyval)) :
  SecurityScore.keyed cells = Ok l ->
  NoDup (map snd (SecurityScore.sort_keys (SecurityScore.uniques l))).
Proof.
  intros Hl. rewrite (sort_keys_perm (SecurityScore.uniques l)).
  pose proof (uniques_NoDup l) as Hnd.
  assert (Hkey : forall x, In x (SecurityScore.uniques l) ->
                           SecurityScore.key_of (snd x) = Ok (Some (fst x))).
  { intros [k c] Hx. apply uniques_In in Hx.
    now apply (keyed_In _ _ Hl) in Hx as [_ Hx]. }
  induction (SecurityScore.uniques l) as [|[k c] u IH]; [constructor|].
  cbn [map] in *. apply NoDup_cons in Hnd as [Hk Hnd].
  apply NoDup_cons. split.
  - intros H. apply Hk. apply list_elem_of_In. apply list_elem_of_In in H.
    apply in_map_iff in H as ([k' c'] & Hc & Hin). cbn in Hc. subst c'.
    apply in_map_iff. exists (k', c). split; [|exact Hin].
    pose proof (Hkey _ (or_intror Hin)) as H1.
    pose proof (Hkey _ (or_introl eq_refl)) as H2. cbn in H1, H2. congruence.
  - apply IH; [exact Hnd|]. intros x Hx. apply Hkey. now right.
Qed.

(** [row.get(sev, 0)] and [score_row] on the row of [c], by group sizes. *)
Lemma aggregate_scores_index (df : list SecurityScore.Finding)
    (weights : list (string * Z)) :
  let sev_map := SecurityScore.sev_map_of weights in
  let counted := SecurityScore.of_interest sev_map df in
  SecurityScore.aggregate_scores df weights
  = (index ← SecurityScore.contracts_of counted;
     match index with
     | [] => Raise ValueError
     | _ :: _ => Ok (map (Spec.row_of sev_map counted) index)
     end).
Proof.
  cbv zeta. unfold SecurityScore.aggregate_scores.
  destruct (SecurityScore.contracts_of _) as [index|e]; [|reflexivity].
  rewrite !bind_Ok. destruct index as [|c index]; [reflexivity|].
  f_equal. apply map_ext. intros c'. unfold Spec.row_of.
  rewrite !row_get_count_row, score_row_sum.
  do 3 f_equal. apply weighted_sum_ext. intros sev _. apply row_get_count_row.
Qed.

(** The table as a list of labels: [None] when [aggregate_scores]
    raises. *)
Lemma aggregate_scores_Ok (df : list SecurityScore.Finding)
    (weights : list (string * Z)) (rows : list SecurityScore.ScoreRow) :
  let sev_map := SecurityScore.sev_map_of weights in
  let counted := SecurityScore.of_interest sev_map df in
  SecurityScore.aggregate_scores df weights = Ok rows
  <-> exists l,
        SecurityScore.keyed (map SecurityScore.contract counted) = Ok l
        /\ SecurityScore.uniques l <> []
        /\ rows = map (Spec.row_of sev_map counted)
                      (map snd (SecurityScore.sort_keys (SecurityScore.uniques l))).
Proof.
  cbv zeta. rewrite aggregate_scores_index. unfold SecurityScore.contracts_of.
  destruct (SecurityScore.keyed _) as [l|e].
  - rewrite !bind_Ok.
    assert (Hnil : SecurityScore.uniques l = []
                   <-> map snd (SecurityScore.sort_keys (SecurityScore.uniques l)) = []).
    { split.
      - intros ->. reflexivity.
      - intros H. apply (f_equal (@length _)) in H.
        rewrite length_map, (Permutation_length (sort_keys_perm _)) in H.
        now destruct (SecurityScore.uniques l). }
    destruct (map snd _) as [|c index] eqn:E.
    + split; [discriminate|]. intros (l' & [= <-] & Hne & _).
      exfalso. apply Hne, Hnil. reflexivity.
    + split.
      * intros [= <-]. exists l. split; [reflexivity|]. split; [|now rewrite E].
        intros H. apply Hnil in H. discriminate.
      * intros (l' & [= <-] & _ & ->). rewrite E. reflexivity.
  - split; [discriminate|]. intros (l' & H & _). discriminate.
Qed.

(** The rows of the score table, one per contract of a counted finding:
    each holds the sizes of its three groups and the score of
    [score_row], a sum over the whole weight table. *)
Lemma aggregate_scores_row (df : list SecurityScore.Finding)
    (weights : list (string * Z)) (rows : list SecurityScore.ScoreRow)
    (r : SecurityScore.ScoreRow) :
  SecurityScore.aggregate_scores df weights = Ok rows ->
  In r rows ->
  let sev_map := SecurityScore.sev_map_of weights in
  let counted := SecurityScore.of_interest sev_map df in
  let c := SecurityScore.row_contract r in
  (exists f k, In f counted /\ SecurityScore.contract f = c
               /\ SecurityScore.key_of c = Ok (Some k))
  /\ SecurityScore.Critical r = SecurityScore.group_size counted c "Critical"
  /\ SecurityScore.High r = SecurityScore.group_size counted c "High"
  /\ SecurityScore.Medium r = SecurityScore.group_size counted c "Medium"
  /\ SecurityScore.SecurityScore r
     = Z.max 0 (100 - Spec.weighted_sum sev_map (SecurityScore.group_size df c)).
Proof.
  intros Hrows Hin. cbv zeta.
  apply aggregate_scores_Ok in Hrows as (l & Hl & _ & ->).
  apply in_map_iff in Hin as (c & <- & Hc).
  apply contracts_of_In in Hc as (k & Hc).
  apply uniques_In in Hc. apply (keyed_In _ _ Hl) in Hc as [Hc Hk].
  apply in_map_iff in Hc as (f & Hf & Hin).
  unfold Spec.row_of.
  cbn [SecurityScore.row_contract SecurityScore.Critical SecurityScore.High
       SecurityScore.Medium SecurityScore.SecurityScore].
  split; [exists f, k; auto|]. repeat split.
  do 2 f_equal. apply weighted_sum_ext. intros sev Hs.
  apply group_size_of_interest, dict_mem_In, Hs.
Qed.

(** A finding outside the weight table leaves the table as it is. *)
Lemma aggregate_scores_ignores (df1 df2 : list SecurityScore.Finding)
    (f : SecurityScore.Finding) (weights : list (string * Z)) :
  dict_mem (SecurityScore.severity f) (SecurityScore.sev_map_of weights) = false ->
  SecurityScore.aggregate_scores (df1 ++ f :: df2) weights
  = SecurityScore.aggregate_scores (df1 ++ df2) weights.
Proof.
  intros H. unfold SecurityScore.aggregate_scores, SecurityScore.of_interest.
  rewrite !List.filter_app. simpl. rewrite H. reflexivity.
Qed.

Lemma sev_map_of_three (wC wH wM : Z) :
  SecurityScore.sev_map_of [("Critical", wC); ("High", wH); ("Medium", wM)]
  = [("Critical", wC); ("High", wH); ("Medium", wM)].
Proof. reflexivity. Qed.

Lemma dict_set_keys {V} (k : string) (v : V) (d : list (string * V)) (k0 : string) :
  In k0 (map fst (dict_set k v d)) -> k0 = k \/ In k0 (map fst d).
Proof.
  induction d as [|[k' v'] d IH]; simpl.
  - intros [<- | []]. left. reflexivity.
  - destruct (String.eqb k' k) eqn:E; simpl.
    + tauto.
    + intros [<- | H]; [tauto |]. destruct (IH H); tauto.
Qed.

(** Setting a key that capitalises to one of the three keeps a table of
    the three. *)
Lemma dict_set_three (k : string) (v wC wH wM : Z) :
  In k ["Critical"; "High"; "Medium"] ->
  exists wC' wH' wM',
    dict_set k v [("Critical", wC); ("High", wH); ("Medium", wM)]
    = [("Critical", wC'); ("High", wH'); ("Medium", wM')].
Proof.
  intros [<- | [<- | [<- | []]]]; eexists _, _, _; reflexivity.
Qed.

Lemma fold_sev_map_three (rest : list (string * Z)) (wC wH wM : Z) :
  (forall k, In k (map fst rest) ->
             In (PyStr.capitalize k) ["Critical"; "High"; "Medium"]) ->
  exists wC' wH' wM',
    fold_left (fun acc kv => dict_set (PyStr.capitalize (fst kv)) (snd kv) acc)
              rest [("Critical", wC); ("High", wH); ("Medium", wM)]
    = [("Critical", wC'); ("High", wH'); ("Medium", wM')].
Proof.
  revert wC wH wM. induction rest as [|[k v] rest IH]; intros wC wH wM H.
  - eexists _, _, _. reflexivity.
  - cbn [fold_left fst snd].
    destruct (dict_set_three (PyStr.capitalize k) v wC wH wM) as (a & b & c & ->).
    { apply H. left. reflexivity. }
    apply IH. intros k0 Hk0. apply H. right. exact Hk0.
Qed.

(** The table [load_weights] builds starts with the three default keys;
    the keys after them come from the file. *)
Lemma dict_update_prefix (data : list (string * Z)) (wC wH wM : Z)
    (rest : list (string * Z)) :
  exists wC' wH' wM' rest',
    dict_update (("Critical", wC) :: ("High", wH) :: ("Medium", wM) :: rest) data
    = ("Critical", wC') :: ("High", wH') :: ("Medium", wM') :: rest'
    /\ forall k, In k (map fst rest') -> In k (map fst rest) \/ In k (map fst data).
Proof.
  unfold dict_update. revert wC wH wM rest.
  induction data as [|[k v] data IH]; intros wC wH wM rest.
  - exists wC, wH, wM, rest. split; [reflexivity | tauto].
  - cbn [fold_left fst snd].
    assert (Hset : exists a b c rest1,
               dict_set k v (("Critical", wC) :: ("High", wH) :: ("Medium", wM) :: rest)
               = ("Critical", a) :: ("High", b) :: ("Medium", c) :: rest1
               /\ forall k0, In k0 (map fst rest1) -> In k0 (map fst rest) \/ k0 = k).
    { cbn [dict_set].
      destruct (String.eqb "Critical" k); [eexists _, _, _, _; split; [reflexivity | tauto] |].
      destruct (String.eqb "High" k); [eexists _, _, _, _; split; [reflexivity | tauto] |].
      destruct (String.eqb "Medium" k); [eexists _, _, _, _; split; [reflexivity | tauto] |].
      eexists _, _, _, _. split; [reflexivity |].
      intros k0 Hk0. apply dict_set_keys in Hk0. tauto. }
    destruct Hset as (a & b & c & rest1 & -> & Hrest1).
    destruct (IH a b c rest1) as (a' & b' & c' & rest' & -> & Hrest').
    exists a', b', c', rest'. split; [reflexivity |].
    intros k0 Hk0. destruct (Hrest' k0 Hk0) as [H1 | H1].
    + destruct (Hrest1 k0 H1) as [H2 | ->]; [left; exact H2 | right; left; reflexivity].
    + right. right. exact H1.
Qed.

(** When every key of the weights file capitalises to Critical, High or
    Medium (or there is no file), the capitalised table lists these three
    and nothing else. *)
Lemma load_weights_three (file : option (list (string * Z))) :
  (forall data k, file = Some data -> In k (map fst data) ->
                  In (PyStr.capitalize k) ["Critical"; "High"; "Medium"]) ->
  exists wC wH wM,
    SecurityScore.sev_map_of (SecurityScore.load_weights file)
    = [("Critical", wC); ("High", wH); ("Medium", wM)].
Proof.
  intros H. destruct file as [data|]; [| eexists _, _, _; reflexivity].
  unfold SecurityScore.load_weights.
  destruct (dict_update_prefix data 5 3 1 []) as (a & b & c & rest & -> & Hrest).
  unfold SecurityScore.sev_map_of. cbn [fold_left fst snd].
  change (dict_set (PyStr.capitalize "Medium") c
            (dict_set (PyStr.capitalize "High") b
               (dict_set (PyStr.capitalize "Critical") a [])))
    with [("Critical", a); ("High", b); ("Medium", c)].
  apply fold_sev_map_three. intros k Hk.
  destruct (Hrest k Hk) as [[] | Hd]. apply (H data k eq_refl Hd).
Qed.

(** The score of every row is
    [max(0, 100 - sum of count[sev] * weight[sev])], the sum running over
    the severities of the capitalised weight table; a finding whose
    severity the table does not list changes no row.  When the
    capitalised table lists Critical, High and Medium alone (the default,
    also after the weights file overrides any of the three: lemma
    [load_weights_three]) the sum is over these three, whose counts the
    row shows, and findings of severity Low, Info or Unknown change no
    row.  With the default weights the counts
    Critical 1, High 0, Medium 2 score 93. *)
Lemma score_over_weight_table
    (df : list SecurityScore.Finding) (weights : list (string * Z)) :
  (forall rows r,
     SecurityScore.aggregate_scores df weights = Ok rows -> In r rows ->
     SecurityScore.SecurityScore r
     = Z.max 0 (100 - Spec.weighted_sum
                        (SecurityScore.sev_map_of weights)
                        (SecurityScore.group_size df (SecurityScore.row_contract r))))
  /\ (forall df1 df2 f,
        df = df1 ++ df2 ->
        dict_mem (SecurityScore.severity f) (SecurityScore.sev_map_of weights) = false ->
        SecurityScore.aggregate_scores (df1 ++ f :: df2) weights
        = SecurityScore.aggregate_scores df weights)
  /\ (forall wC wH wM,
        SecurityScore.sev_map_of weights
        = [("Critical", wC); ("High", wH); ("Medium", wM)] ->
        (forall rows r,
           SecurityScore.aggregate_scores df weights = Ok rows -> In r rows ->
           let c := SecurityScore.row_contract r in
           SecurityScore.Critical r = SecurityScore.group_size df c "Critical"
           /\ SecurityScore.High r = SecurityScore.group_size df c "High"
           /\ SecurityScore.Medium r = SecurityScore.group_size df c "Medium"
           /\ SecurityScore.SecurityScore r
              = Z.max 0 (100 - (SecurityScore.Critical r * wC
                                + SecurityScore.High r * wH
                                + SecurityScore.Medium r * wM)))
        /\ (forall df1 df2 f,
              df = df1 ++ df2 ->
              In (SecurityScore.severity f) ["Low"; "Info"; "Unknown"] ->
              SecurityScore.aggregate_scores (df1 ++ f :: df2) weights
              = SecurityScore.aggregate_scores df weights))
  /\ SecurityScore.score_row
       (SecurityScore.sev_map_of (SecurityScore.load_weights None))
       [("Critical", 1); ("High", 0); ("Medium", 2)] = 93
  /\ SecurityScore.aggregate_scores
       [Spec.finding "Token" "Medium"; Spec.finding "Token" "Critical";
        Spec.finding "Token" "Low"; Spec.finding "Token" "Medium"]
       (SecurityScore.load_weights None)
     = Ok [ {| SecurityScore.row_contract := PStr "Token";
               SecurityScore.Critical := 1; SecurityScore.High := 0;
               SecurityScore.Medium := 2; SecurityScore.SecurityScore := 93 |} ].
Proof.
  split; [intros rows r Hrows Hr; apply (aggregate_scores_row df weights rows r Hrows Hr) |].
  split; [intros df1 df2 f -> Hf; apply aggregate_scores_ignores; exact Hf |].
  split; [| split; reflexivity].
  intros wC wH wM Hthree. split.
  - intros rows r Hrows Hr c.
    destruct (aggregate_scores_row df _ rows r Hrows Hr) as (_ & HC & HH & HM & HS).
    rewrite Hthree in *.
    rewrite group_size_of_interest in HC by reflexivity.
    rewrite group_size_of_interest in HH by reflexivity.
    rewrite group_size_of_interest in HM by reflexivity.
    repeat split; try assumption.
    rewrite HS, HC, HH, HM. unfold Spec.weighted_sum. f_equal. fold c. lia.
  - intros df1 df2 f -> Hf. apply aggregate_scores_ignores.
    rewrite Hthree.
    destruct Hf as [<- | [<- | [<- | []]]]; reflexivity.
Qed.

(** C1, at the failing input.  The weights file [{"Low": 2}] adds a
    fourth severity to the weight table, and [aggregate_scores] sums over
    the whole table.  For a contract with one High finding the score is
    97; with a Low finding besides it is 95, where the formula over
    Critical, High and Medium, the one the header of the script gives,
    still says 97: a Low finding changes a score. *)
Theorem score_counts_fourth_weight :
  let weights := SecurityScore.load_weights (Some [("Low", 2)]) in
  let high := Spec.finding "Token" "High" in
  let low := Spec.finding "Token" "Low" in
  let row score :=
    {| SecurityScore.row_contract := PStr "Token";
       SecurityScore.Critical := 0; SecurityScore.High := 1;
       SecurityScore.Medium := 0; SecurityScore.SecurityScore := score |} in
  weights = [("Critical", 5); ("High", 3); ("Medium", 1); ("Low", 2)]
  /\ SecurityScore.aggregate_scores [high] weights = Ok [row 97]
  /\ SecurityScore.aggregate_scores [high; low] weights = Ok [row 95]
  /\ Spec.documented_score weights (row 95) = 97.
Proof. repeat split. Qed.

Lemma sev_map_of_nonneg (weights : list (string * Z)) :
  (forall k w, In (k, w) weights -> 0 <= w) ->
  forall sev w, In (sev, w) (SecurityScore.sev_map_of weights) -> 0 <= w.
Proof.
  intros H sev w Hin. destruct (sev_map_of_values weights sev w Hin) as [k Hk].
  apply (H k). exact Hk.
Qed.

(** [score_row] does not grow when counts grow, for weights that are not
    negative. *)
Lemma score_row_mono (sev_map row row' : list (string * Z)) :
  (forall sev w, In (sev, w) sev_map -> 0 <= w) ->
  (forall sev, SecurityScore.row_get row sev <= SecurityScore.row_get row' sev) ->
  SecurityScore.score_row sev_map row' <= SecurityScore.score_row sev_map row.
Proof.
  intros Hw Hrow. rewrite !score_row_sum.
  pose proof (weighted_sum_mono sev_map _ _ Hw Hrow). lia.
Qed.

(** C4 (as amended).  The score of every row is at least 0.  For a weight
    table without negative weights it is at most 100 as well, and it does
    not grow when counts grow: [score_row] is antitone in the counts of
    the row, and findings added to the set leave no contract with a
    higher score. *)
Theorem security_score_bounds
    (df : list SecurityScore.Finding) (weights : list (string * Z)) :
  (forall rows r,
     SecurityScore.aggregate_scores df weights = Ok rows -> In r rows ->
     0 <= SecurityScore.SecurityScore r)
  /\ ((forall k w, In (k, w) weights -> 0 <= w) ->
      (forall rows r,
         SecurityScore.aggregate_scores df weights = Ok rows -> In r rows ->
         SecurityScore.SecurityScore r <= 100)
      /\ (forall row row' : list (string * Z),
            (forall sev, SecurityScore.row_get row sev
                         <= SecurityScore.row_get row' sev) ->
            SecurityScore.score_row (SecurityScore.sev_map_of weights) row'
            <= SecurityScore.score_row (SecurityScore.sev_map_of weights) row)
      /\ (forall df1 df2 extra rows rows' r r',
            df = df1 ++ df2 ->
            SecurityScore.aggregate_scores df weights = Ok rows -> In r rows ->
            SecurityScore.aggregate_scores (df1 ++ extra ++ df2) weights = Ok rows' ->
            In r' rows' ->
            SecurityScore.row_contract r' = SecurityScore.row_contract r ->
            SecurityScore.SecurityScore r' <= SecurityScore.SecurityScore r)).
Proof.
  split.
  - intros rows r Hrows Hr.
    destruct (aggregate_scores_row df weights rows r Hrows Hr) as (_ & _ & _ & _ & ->).
    lia.
  - intros Hw. pose proof (sev_map_of_nonneg weights Hw) as Hs.
    split; [| split].
    + intros rows r Hrows Hr.
      destruct (aggregate_scores_row df weights rows r Hrows Hr) as (_ & _ & _ & _ & ->).
      pose proof (weighted_sum_nonneg (SecurityScore.sev_map_of weights)
                    (SecurityScore.group_size df (SecurityScore.row_contract r)) Hs
                    (group_size_nonneg df _)).
      lia.
    + intros row row' Hrow. apply score_row_mono; assumption.
    + intros df1 df2 extra rows rows' r r' -> Hrows Hr Hrows' Hr' Hc.
      destruct (aggregate_scores_row _ weights rows r Hrows Hr) as (_ & _ & _ & _ & ->).
      destruct (aggregate_scores_row _ weights rows' r' Hrows' Hr') as (_ & _ & _ & _ & ->).
      rewrite Hc.
      pose proof (weighted_sum_mono (SecurityScore.sev_map_of weights)
                    (SecurityScore.group_size (df1 ++ df2) (SecurityScore.row_contract r))
                    (SecurityScore.group_size (df1 ++ extra ++ df2)
                                              (SecurityScore.row_contract r))
                    Hs) as Hm.
      assert (Hle : forall sev,
                 SecurityScore.group_size (df1 ++ df2) (SecurityScore.row_contract r) sev
                 <= SecurityScore.group_size (df1 ++ extra ++ df2)
                                             (SecurityScore.row_contract r) sev).
      { intros sev. rewrite !group_size_app.
        pose proof (group_size_nonneg extra (SecurityScore.row_contract r) sev). lia. }
      specialize (Hm Hle). lia.
Qed.

Lemma default_weights_nonneg (k : string) (w : Z) :
  In (k, w) (SecurityScore.load_weights None) -> 0 <= w.
Proof.
  simpl. intros [H | [H | [H | []]]]; injection H as _ <-; lia.
Qed.

(** Under the default weights a second High finding does not raise the
    score of its contract (it takes it from 97 to 94). *)
Lemma security_score_bounds_witness :
  exists r r',
    SecurityScore.aggregate_scores
      [Spec.finding "Token" "High"] (SecurityScore.load_weights None) = Ok [r]
    /\ SecurityScore.aggregate_scores
         [Spec.finding "Token" "High"; Spec.finding "Token" "High"]
         (SecurityScore.load_weights None) = Ok [r']
    /\ SecurityScore.SecurityScore r = 97
    /\ SecurityScore.SecurityScore r' <= SecurityScore.SecurityScore r.
Proof.
  eexists _, _.
  split; [reflexivity |].
  split; [reflexivity |].
  split; [reflexivity |].
  destruct (security_score_bounds [Spec.finding "Token" "High"]
              (SecurityScore.load_weights None)) as (_ & H).
  destruct (H default_weights_nonneg) as (_ & _ & Hmono).
  eapply (Hmono [Spec.finding "Token" "High"] [] [Spec.finding "Token" "High"]).
  - reflexivity.
  - reflexivity.
  - left. reflexivity.
  - reflexivity.
  - left. reflexivity.
  - reflexivity.
Defined.

(** C4 as stated fails: the weights file may hold a negative weight, and
    the score is capped from below only.  With [{"Medium": -1}] one Medium
    finding scores 101 and two score 102. *)
Lemma negative_weight_exceeds_100 :
  let weights := SecurityScore.load_weights (Some [("Medium", -1)]) in
  let medium := Spec.finding "Token" "Medium" in
  let row count score :=
    {| SecurityScore.row_contract := PStr "Token";
       SecurityScore.Critical := 0; SecurityScore.High := 0;
       SecurityScore.Medium := count; SecurityScore.SecurityScore := score |} in
  SecurityScore.aggregate_scores [medium] weights = Ok [row 1 101]
  /\ SecurityScore.aggregate_scores [medium; medium] weights = Ok [row 2 102].
Proof. split; reflexivity. Qed.

(** The key of a string is its own. *)
Lemma key_of_KStr (c : pyval) (s : string) :
  SecurityScore.key_of c = Ok (Some (SecurityScore.KStr s)) <-> c = PStr s.
Proof.
  split; [|intros ->; reflexivity].
  destruct c as [|b|n|x|t|l|d]; cbn [SecurityScore.key_of]; try discriminate.
  - destruct n as [|p|p]; try discriminate;
      unfold SecurityScore.num_key; destruct (SecurityScore.odd_part _ _); discriminate.
  - destruct x as [neg|neg| |neg m e]; try discriminate.
    unfold SecurityScore.num_key; destruct (SecurityScore.odd_part _ _); discriminate.
  - now intros [= ->].
Qed.

(** When every contract is a string no cell is null and none is refused:
    the table has a row for each contract of a counted finding. *)
Lemma keyed_strings (df : list SecurityScore.Finding) :
  Spec.string_contracts df ->
  exists l,
    SecurityScore.keyed (map SecurityScore.contract df) = Ok l
    /\ forall k c, In (k, c) l
                   <-> exists s, k = SecurityScore.KStr s /\ c = PStr s
                                 /\ In c (map SecurityScore.contract df).
Proof.
  intros Hs.
  assert (Hok : exists l, SecurityScore.keyed (map SecurityScore.contract df) = Ok l).
  { induction df as [|f df IH]; [now exists []|].
    destruct IH as [l Hl]; [intros g Hg; apply Hs; now right|].
    cbn [map SecurityScore.keyed].
    pose proof (Hs f (or_introl eq_refl)) as Hf.
    destruct (SecurityScore.contract f) as [| | | |s| |]; try discriminate.
    cbn [SecurityScore.key_of]. rewrite bind_Ok, Hl, bind_Ok. eauto. }
  destruct Hok as [l Hl]. exists l. split; [exact Hl|].
  intros k c. rewrite (keyed_In _ _ Hl). split.
  - intros [Hc Hk]. pose proof Hc as Hc'.
    apply in_map_iff in Hc' as (f & Hf & Hin).
    specialize (Hs f Hin). rewrite Hf in Hs.
    destruct c as [| | | |s| |]; try discriminate.
    exists s. cbn in Hk. split; [congruence|auto].
  - intros (s & -> & -> & Hc). split; [exact Hc|reflexivity].
Qed.

(** C8 (as amended).  When the finding set is empty [main] uses two
    default rows, ProductRegistry and ProductRegistryImproved, with
    counts 0 and score 100.  For findings whose contracts are strings, at
    least one of them with a severity the weight table lists,
    [aggregate_scores] returns a table, [main] uses it, and the table has
    one row per contract, for exactly the contracts with a finding whose
    severity the weight table lists: a contract that appears under other
    severities only has no row. *)
Theorem score_table_rows
    (df : list SecurityScore.Finding) (weights : list (string * Z)) :
  SecurityScore.main_scores weights []
  = Ok [ {| SecurityScore.row_contract := PStr "ProductRegistry";
            SecurityScore.Critical := 0; SecurityScore.High := 0;
            SecurityScore.Medium := 0; SecurityScore.SecurityScore := 100 |};
         {| SecurityScore.row_contract := PStr "ProductRegistryImproved";
            SecurityScore.Critical := 0; SecurityScore.High := 0;
            SecurityScore.Medium := 0; SecurityScore.SecurityScore := 100 |} ]
  /\ (Spec.string_contracts df ->
      (exists f, In f df
                 /\ dict_mem (SecurityScore.severity f)
                             (SecurityScore.sev_map_of weights) = true) ->
      exists rows,
        SecurityScore.aggregate_scores df weights = Ok rows
        /\ SecurityScore.main_scores weights df = Ok rows
        /\ (forall c,
              In c (map SecurityScore.row_contract rows)
              <-> exists f, In f df /\ SecurityScore.contract f = c
                            /\ dict_mem (SecurityScore.severity f)
                                        (SecurityScore.sev_map_of weights) = true)
        /\ NoDup (map SecurityScore.row_contract rows)).
Proof.
  split; [reflexivity|]. intros Hs (f0 & Hf0 & Hw0).
  set (sev_map := SecurityScore.sev_map_of weights) in *.
  set (counted := SecurityScore.of_interest sev_map df).
  assert (Hcs : Spec.string_contracts counted).
  { intros f Hf. apply filter_In in Hf as [Hf _]. now apply Hs. }
  destruct (keyed_strings counted Hcs) as (l & Hl & Hin).
  assert (Hcounted : forall f, In f counted
                               <-> In f df /\ dict_mem (SecurityScore.severity f) sev_map = true).
  { intros f. apply filter_In. }
  assert (Hlabel : forall c,
             (exists k, In (k, c) (SecurityScore.uniques l))
             <-> exists f, In f df /\ SecurityScore.contract f = c
                           /\ dict_mem (SecurityScore.severity f) sev_map = true).
  { intros c. split.
    - intros (k & Hk). apply uniques_In, Hin in Hk as (s & _ & _ & Hc).
      apply in_map_iff in Hc as (f & Hc & Hf). apply Hcounted in Hf as [Hf Hw].
      exists f. auto.
    - intros (f & Hf & Hc & Hw).
      pose proof (Hs f Hf) as Hstr. rewrite Hc in Hstr.
      destruct c as [| | | |s| |]; try discriminate.
      assert (Hl' : In (SecurityScore.KStr s, PStr s) l).
      { apply Hin. exists s. repeat split. apply in_map_iff. exists f.
        split; [exact Hc|]. apply Hcounted. auto. }
      apply (in_map fst), uniques_keys, in_map_iff in Hl' as ([k c'] & Hk & Hu).
      cbn in Hk. subst k. pose proof (uniques_In _ _ Hu) as Hu'.
      apply Hin in Hu' as (s' & [= <-] & -> & _). now exists (SecurityScore.KStr s). }
  set (rows := map (Spec.row_of sev_map counted)
                   (map snd (SecurityScore.sort_keys (SecurityScore.uniques l)))).
  assert (Hrows : SecurityScore.aggregate_scores df weights = Ok rows).
  { apply aggregate_scores_Ok. exists l. split; [exact Hl|]. split; [|reflexivity].
    intros Hnil.
    assert (H : exists k, In (k, SecurityScore.contract f0) (SecurityScore.uniques l)).
    { apply Hlabel. exists f0. auto. }
    destruct H as (k & H). rewrite Hnil in H. exact H. }
  assert (Hlabels : map SecurityScore.row_contract rows
                    = map snd (SecurityScore.sort_keys (SecurityScore.uniques l))).
  { unfold rows. rewrite map_map. cbn [Spec.row_of SecurityScore.row_contract].
    apply map_id. }
  exists rows. split; [exact Hrows|]. split; [|split].
  - unfold SecurityScore.main_scores. destruct df as [|f df]; [destruct Hf0|].
    exact Hrows.
  - intros c. rewrite Hlabels, contracts_of_In. apply Hlabel.
  - rewrite Hlabels. eapply contracts_of_NoDup, Hl.
Qed.

(** A set with one High finding: its table is the aggregate, with a row
    for the contract of that finding. *)
Lemma score_table_rows_witness :
  exists rows,
    SecurityScore.main_scores (SecurityScore.load_weights None)
      [Spec.finding "Token" "High"] = Ok rows
    /\ In (PStr "Token") (map SecurityScore.row_contract rows).
Proof.
  destruct (proj2 (score_table_rows [Spec.finding "Token" "High"]
                     (SecurityScore.load_weights None)))
    as (rows & _ & Hmain & Hin & _).
  - intros f [<-|[]]. reflexivity.
  - exists (Spec.finding "Token" "High"). split; [now left|reflexivity].
  - exists rows. split; [exact Hmain|]. apply Hin.
    exists (Spec.finding "Token" "High"). repeat split. now left.
Defined.

(** C8 as stated fails: under the default weights a contract whose only
    finding is Low has no row, in [aggregate_scores] and in [main]. *)
Lemma unweighted_contract_has_no_row :
  let weights := SecurityScore.load_weights None in
  let df := [Spec.finding "Vault" "Low"; Spec.finding "Token" "High"] in
  let token :=
    {| SecurityScore.row_contract := PStr "Token";
       SecurityScore.Critical := 0; SecurityScore.High := 1;
       SecurityScore.Medium := 0; SecurityScore.SecurityScore := 97 |} in
  SecurityScore.aggregate_scores df weights = Ok [token]
  /\ SecurityScore.main_scores weights df = Ok [token].
Proof. split; reflexivity. Qed.

(** Findings of which none has a severity of the weight table leave no
    row to score: [aggregate_scores] raises, and [main] writes no score
    table. *)
Lemma score_table_without_counted_finding
    (df : list SecurityScore.Finding) (weights : list (string * Z)) :
  df <> [] ->
  (forall f, In f df ->
             dict_mem (SecurityScore.severity f)
                      (SecurityScore.sev_map_of weights) = false) ->
  SecurityScore.aggregate_scores df weights = Raise ValueError
  /\ SecurityScore.main_scores weights df = Raise ValueError.
Proof.
  intros Hne Hw.
  assert (Hagg : SecurityScore.aggregate_scores df weights = Raise ValueError).
  { unfold SecurityScore.aggregate_scores.
    replace (SecurityScore.of_interest (SecurityScore.sev_map_of weights) df)
      with (@nil SecurityScore.Finding); [reflexivity|].
    symmetry. unfold SecurityScore.of_interest.
    induction df as [|f df IH]; [reflexivity|]. cbn [List.filter].
    rewrite (Hw f (or_introl eq_refl)).
    destruct df as [|g df]; [reflexivity|].
    apply IH; [discriminate|]. intros h Hh. apply Hw. now right. }
  split; [exact Hagg|]. unfold SecurityScore.main_scores.
  destruct df; [congruence|exact Hagg].
Qed.

(* ===================================================================== *)
(** ** Security score: the report parsers *)
(* ===================================================================== *)


Lemma py_get_dict (d : list (string * pyval)) (k : string) :
  py_get (PDict d) k = Ok (Spec.field d k).
Proof. reflexivity. Qed.

Lemma py_or_dict (v : pyval) :
  (forall d, v = PDict d -> py_or v (PDict []) = PDict d)
  /\ (Spec.falsy v = true -> py_or v (PDict []) = PDict []).
Proof.
  unfold py_or, Spec.falsy. split.
  - intros d ->. destruct d; reflexivity.
  - intros H. apply negb_true_iff in H. rewrite H. reflexivity.
Qed.

Lemma py_or_list (v : pyval) :
  (forall l, v = PList l -> py_or v (PList []) = PList l)
  /\ (Spec.falsy v = true -> py_or v (PList []) = PList []).
Proof.
  unfold py_or, Spec.falsy. split.
  - intros l ->. destruct l; reflexivity.
  - intros H. apply negb_true_iff in H. rewrite H. reflexivity.
Qed.

(** A loop that appends the rows of each item. *)
Lemma for_each_rows {A R : Type} (step : list R -> A -> result (list R))
    (g : A -> list R) (xs : list A) (acc : list R) :
  (forall acc x, In x xs -> step acc x = Ok (acc ++ g x)) ->
  for_each step xs acc = Ok (acc ++ flat_map g xs).
Proof.
  revert acc. induction xs as [|x xs IH]; intros acc H; simpl.
  - rewrite app_nil_r. reflexivity.
  - rewrite (H acc x (or_introl eq_refl)). cbn.
    rewrite IH, app_assoc; [reflexivity |].
    intros acc' y Hy. apply H. right. exact Hy.
Qed.

Lemma flat_map_singleton {A B : Type} (f : A -> B) (l : list A) :
  flat_map (fun x => [f x]) l = map f l.
Proof. induction l; simpl; congruence. Qed.

(** [norm_sev] never raises on a string. *)
Lemma norm_sev_str (raw : string) :
  exists s, SecurityScore.norm_sev (PStr raw) = Ok s.
Proof.
  unfold SecurityScore.norm_sev.
  destruct (negb (truthy (PStr raw))); [eexists; reflexivity |].
  repeat match goal with
         | |- context [if ?b then _ else _] => destruct b
         end; eexists; reflexivity.
Qed.

(** The chain of [parse_slither] is the first non-empty candidate. *)
Lemma slither_contract_shaped (e : pyval) :
  Spec.element_shaped e = true ->
  SecurityScore.slither_contract e = Ok (Spec.element_contract e).
Proof.
  destruct e as [| | | | |l|fields]; try discriminate.
  unfold Spec.element_shaped, SecurityScore.slither_contract,
    Spec.element_contract, Spec.source_mapping_of.
  rewrite !py_get_dict, bind_Ok.
  intros Hshape.
  assert (Hsm : py_or (Spec.field fields "source_mapping") (PDict [])
                = PDict (match Spec.field fields "source_mapping" with
                         | PDict sm => sm | _ => [] end)
                /\ match dict_get "filename"
                           (match Spec.field fields "source_mapping" with
                            | PDict sm => sm | _ => [] end) with
                   | Some v => Spec.is_str v = true
                   | None => True
                   end).
  { destruct (Spec.field fields "source_mapping") as [| | | | |l|sm] eqn:E;
      try (split; [apply (proj2 (py_or_dict _)); exact Hshape | exact I]).
    split; [apply (proj1 (py_or_dict _)); reflexivity |].
    destruct (dict_get "filename" sm); [exact Hshape | exact I]. }
  destruct Hsm as [-> Hfile].
  set (sm := match Spec.field fields "source_mapping" with
             | PDict sm => sm | _ => [] end) in *.
  rewrite !py_get_dict, bind_Ok.
  unfold Spec.first_nonempty. cbn [List.find].
  destruct (truthy (Spec.field sm "contract")); [reflexivity |].
  rewrite ?bind_Ok.
  destruct (truthy (Spec.field fields "contract")); [reflexivity |].
  unfold py_get_default.
  destruct (dict_get "filename" sm) as [v|]; cbn [default].
  - destruct v; try discriminate Hfile.
    unfold SecurityScore.extract_contract_from_path, Spec.stem, py_or.
    cbn [from_option id]. rewrite !bind_Ok.
    destruct (truthy _); reflexivity.
  - unfold SecurityScore.extract_contract_from_path, Spec.stem, py_or.
    cbn [from_option id]. rewrite !bind_Ok. reflexivity.
Qed.

(** One pass of the detector loop appends the findings of the detector. *)
Lemma slither_detector_shaped (ts : string) (rows : list SecurityScore.Finding)
    (d : pyval) :
  Spec.detector_shaped d = true ->
  SecurityScore.slither_detector ts rows d = Ok (rows ++ Spec.detector_findings ts d).
Proof.
  destruct d as [| | | | |l|fields]; try discriminate.
  unfold Spec.detector_shaped, SecurityScore.slither_detector,
    Spec.detector_findings, Spec.detector_severity, Spec.elements_of.
  rewrite !py_get_dict, !bind_Ok.
  intros Hshape. apply andb_true_iff in Hshape. destruct Hshape as [Hsev Hel].
  destruct (py_or (Spec.field fields "impact")
                  (py_or (Spec.field fields "severity") (PStr "Unknown")))
    as [| | | | raw | |] eqn:Esev; try discriminate Hsev.
  destruct (norm_sev_str raw) as [sev Hnorm]. rewrite Hnorm.
  destruct (Spec.field fields "elements") as [| | | | |es|] eqn:Eel;
    try (rewrite (proj2 (py_or_list _) Hel); cbn [truthy];
         rewrite bind_Ok; reflexivity).
  rewrite (proj1 (py_or_list _) es eq_refl).
  destruct es as [|e es].
  - cbn [truthy]. rewrite bind_Ok. reflexivity.
  - cbn [truthy py_iter]. rewrite bind_Ok.
    rewrite (for_each_rows _
               (fun e => [SecurityScore.slither_row ts (Spec.element_contract e)
                            (py_or (Spec.field fields "check")
                               (py_or (Spec.field fields "title") (PStr "Slither finding")))
                            sev
                            (py_or (Spec.field fields "description") (PStr ""))])).
    + rewrite flat_map_singleton. reflexivity.
    + intros acc x Hx.
      rewrite slither_contract_shaped, !bind_Ok; [reflexivity |].
      rewrite forallb_forall in Hel. apply Hel. exact Hx.
Qed.

(** A report of the scanner-A schema whose file names are strings is
    parsed without error into the findings of its detectors, in order: a
    detector with elements gives one finding per element, whose contract
    is the first non-empty of [source_mapping.contract], the element's
    [contract] and the stem of [source_mapping.filename], else "Unknown";
    a detector without elements gives one finding with contract
    "Unknown".  The report of one detector of impact "High" with one
    element in "Token.sol" gives one finding, of contract "Token" and
    severity "High". *)
Lemma parse_slither_shaped (ts : string) (data : pyval) :
  Spec.report_shaped data = true ->
  SecurityScore.parse_slither ts (Some data)
  = Ok (flat_map (Spec.detector_findings ts) (Spec.detectors_of data))
  /\ (forall d e es,
        In (PDict d) (Spec.detectors_of data) -> Spec.elements_of d = e :: es ->
        map SecurityScore.contract (Spec.detector_findings ts (PDict d))
        = map Spec.element_contract (e :: es))
  /\ (forall d,
        In (PDict d) (Spec.detectors_of data) -> Spec.elements_of d = [] ->
        map SecurityScore.contract (Spec.detector_findings ts (PDict d))
        = [PStr "Unknown"])
  /\ SecurityScore.parse_slither ts (Some Spec.scenario_a)
     = Ok [ {| SecurityScore.timestamp := ts;
               SecurityScore.tool := "slither";
               SecurityScore.contract := PStr "Token";
               SecurityScore.issue_type := PStr "Slither finding";
               SecurityScore.severity := "High";
               SecurityScore.description := PStr "" |} ].
Proof.
  intros Hshape. split; [| split; [| split]].
  - destruct data as [| | | | |l|top]; try discriminate.
    unfold Spec.report_shaped in Hshape.
    unfold SecurityScore.parse_slither, Spec.detectors_of.
    rewrite py_get_dict, bind_Ok.
    destruct (Spec.field top "results") as [| | | | |l|results] eqn:Eres;
      try (rewrite (proj2 (py_or_dict _) Hshape); reflexivity).
    rewrite (proj1 (py_or_dict _) results eq_refl), py_get_dict, bind_Ok.
    destruct (Spec.field results "detectors") as [| | | | |ds|] eqn:Eds;
      try (rewrite (proj2 (py_or_list _) Hshape); reflexivity).
    rewrite (proj1 (py_or_list _) ds eq_refl). cbn [py_iter]. rewrite bind_Ok.
    rewrite (for_each_rows _ (Spec.detector_findings ts)); [reflexivity |].
    intros acc d Hd. apply slither_detector_shaped.
    rewrite forallb_forall in Hshape. apply Hshape. exact Hd.
  - intros d e es _ Hes. unfold Spec.detector_findings. rewrite Hes.
    rewrite map_map. reflexivity.
  - intros d _ Hes. unfold Spec.detector_findings. rewrite Hes. reflexivity.
  - reflexivity.
Qed.

(** C6, at the failing input.  An element that names no contract and
    whose [source_mapping] holds the file name [null]: the chain of the
    specification finds no contract and no file name to take a stem
    from, and ends at "Unknown".  The code hands [None] to
    [os.path.basename]:
    [TypeError] leaves [parse_slither], which has no handler around its
    loop, and no finding of the report is returned, not those of the
    detectors before this one either. *)
Theorem parse_slither_null_filename (ts : string) :
  let e := PDict [("source_mapping", PDict [("filename", PNone)])] in
  let sound :=
    PDict [("impact", PStr "Low");
           ("elements",
            PList [PDict [("source_mapping",
                           PDict [("filename", PStr "Vault.sol")])]])] in
  let detector := PDict [("impact", PStr "High"); ("elements", PList [e])] in
  let report detectors := PDict [("results", PDict [("detectors", PList detectors)])] in
  Spec.element_contract e = PStr "Unknown"
  /\ SecurityScore.slither_contract e = Raise TypeError
  /\ SecurityScore.parse_slither ts (Some (report [detector])) = Raise TypeError
  /\ SecurityScore.parse_slither ts (Some (report [sound; detector]))
     = Raise TypeError.
Proof. repeat split. Qed.

(* --------------------------------------------------------------------- *)
(** *** Severity normalisation *)

Lemma in_tuple_iff (s : string) (t : list string) :
  SecurityScore.in_tuple s t = true <-> In s t.
Proof.
  unfold SecurityScore.in_tuple. rewrite existsb_exists. split.
  - intros [x [Hx E]]. apply String.eqb_eq in E. subst x. exact Hx.
  - intros H. exists s. split; [exact H | apply String.eqb_refl].
Qed.

Lemma lower_empty (s : string) : PyStr.lower s = "" <-> s = "".
Proof. destruct s; simpl; split; congruence. Qed.

Lemma capitalize_empty (s : string) : PyStr.capitalize s = "" <-> s = "".
Proof. destruct s; simpl; split; congruence. Qed.

(** What [norm_sev] does with a token: absent or empty gives "Unknown";
    otherwise the token is stripped and lower-cased, "critical" and
    "very high" give "Critical", and every other token comes back
    capitalised (so "high", "medium", "low", "info", "informational" and
    "warning" give "High", "Medium", "Low", "Info", "Informational" and
    "Warning"). *)
Lemma norm_sev_table (raw : string) :
  SecurityScore.norm_sev PNone = Ok "Unknown"
  /\ SecurityScore.norm_sev (PStr "") = Ok "Unknown"
  /\ (raw <> "" ->
      SecurityScore.norm_sev (PStr raw)
      = Ok (let t := PyStr.lower (PyStr.strip raw) in
            if SecurityScore.in_tuple t ["critical"; "very high"] then "Critical"
            else PyStr.capitalize t)).
Proof.
  split; [reflexivity | split; [reflexivity |]].
  intros Hraw. unfold SecurityScore.norm_sev.
  destruct raw as [|c raw]; [congruence |]. cbn [truthy PyStr.is_empty negb].
  cbv zeta.
  destruct (SecurityScore.in_tuple _ ["critical"; "very high"]); [reflexivity |].
  destruct (SecurityScore.in_tuple _ ["high"]) eqn:Eh.
  { apply in_tuple_iff in Eh. destruct Eh as [<- | []]. reflexivity. }
  destruct (SecurityScore.in_tuple _ ["medium"]) eqn:Em.
  { apply in_tuple_iff in Em. destruct Em as [<- | []]. reflexivity. }
  destruct (SecurityScore.in_tuple _ ["low"; "info"; "informational"; "warning"]);
    reflexivity.
Qed.

(** A token with something besides blanks in it never normalises to the
    empty string. *)
Lemma norm_sev_nonblank (raw : string) :
  PyStr.strip raw <> "" ->
  exists s, SecurityScore.norm_sev (PStr raw) = Ok s /\ s <> "".
Proof.
  intros Hs. assert (Hraw : raw <> "") by (intros ->; apply Hs; reflexivity).
  destruct (norm_sev_table raw) as (_ & _ & H). rewrite (H Hraw).
  eexists. split; [reflexivity |]. cbv zeta.
  destruct (SecurityScore.in_tuple _ _); [discriminate |].
  rewrite capitalize_empty, lower_empty. exact Hs.
Qed.

(** C3, at the failing input.  A token of blanks only is not empty, so it
    passes the test for "Unknown"; stripped it is empty, and the empty
    string comes back.  A scanner-A detector whose impact is such a token
    gives a finding with an empty severity. *)
Theorem norm_sev_blank_token (ts : string) :
  SecurityScore.norm_sev (PStr " ") = Ok ""
  /\ SecurityScore.parse_slither ts
       (Some (PDict [("results",
                      PDict [("detectors",
                              PList [PDict [("check", PStr "reentrancy-eth");
                                            ("impact", PStr " ")]])])]))
     = Ok [ {| SecurityScore.timestamp := ts;
               SecurityScore.tool := "slither";
               SecurityScore.contract := PStr "Unknown";
               SecurityScore.issue_type := PStr "reentrancy-eth";
               SecurityScore.severity := "";
               SecurityScore.description := PStr "" |} ].
Proof. split; reflexivity. Qed.

(* --------------------------------------------------------------------- *)
(** *** The fuzzer-C parser *)

(** Every finding of [parse_echidna] has severity "Medium" and contract
    "Invariants". *)
Lemma parse_echidna_rows (json_loads : string -> option pyval) (ts : string)
    (file : option string) (rows : list SecurityScore.Finding) :
  SecurityScore.parse_echidna json_loads ts file = Ok rows ->
  forall f, In f rows ->
    SecurityScore.severity f = "Medium"
    /\ SecurityScore.contract f = PStr "Invariants".
Proof.
  unfold SecurityScore.parse_echidna.
  destruct file as [content|]; [| intros [= <-] f []].
  destruct (SecurityScore.echidna_data json_loads content) as [data|];
    [| intros [= <-] f []].
  destruct (SecurityScore.echidna_failures data) as [failures|e];
    [| discriminate].
  rewrite bind_Ok. intros [= <-] f Hf.
  apply in_map_iff in Hf. destruct Hf as [prop [<- _]]. split; reflexivity.
Qed.

(** Content that is no JSON value, and whose last non-blank line is none
    either, gives no finding; so does a file that cannot be read. *)
Lemma parse_echidna_undecodable (json_loads : string -> option pyval)
    (ts content : string) :
  (forall s, json_loads s = None) ->
  SecurityScore.parse_echidna json_loads ts (Some content) = Ok []
  /\ SecurityScore.parse_echidna json_loads ts None = Ok [].
Proof.
  intros H. split; [| reflexivity].
  unfold SecurityScore.parse_echidna, SecurityScore.echidna_data.
  rewrite H. destruct (last _) as [ln|]; [rewrite H |]; reflexivity.
Qed.

(** C7, at the failing input.  When [failedTests] holds a list instead of
    an object, [.keys()] raises [AttributeError]; the lookup stands after
    the [try], so the exception leaves [parse_echidna]. *)
Theorem parse_echidna_failed_tests_list (ts content : string) :
  let data := PDict [("failedTests", PList [PStr "echidna_balance"])] in
  SecurityScore.echidna_failures data = Raise AttributeError
  /\ SecurityScore.parse_echidna (fun _ => Some data) ts (Some content)
     = Raise AttributeError.
Proof. split; reflexivity. Qed.

(* ===================================================================== *)
(** ** Aggregate metrics: coverage *)
(* ===================================================================== *)



Lemma startswith_LF_not_LH (line : string) :
  PyStr.startswith "LF:" line = true -> PyStr.startswith "LH:" line = false.
Proof.
  destruct line as [|a [|b line]]; cbn [PyStr.startswith]; try discriminate.
  - rewrite andb_false_r. discriminate.
  - intros H. apply andb_true_iff in H. destruct H as [_ H].
    apply andb_true_iff in H. destruct H as [Hb _].
    apply Ascii.eqb_eq in Hb. subst b.
    replace (Ascii.eqb "H" "F") with false by reflexivity.
    apply andb_false_r.
Qed.

Lemma sum_Z_app (l1 l2 : list Z) :
  Spec.sum_Z (l1 ++ l2) = Spec.sum_Z l1 + Spec.sum_Z l2.
Proof.
  unfold Spec.sum_Z. induction l1 as [|x l1 IH]; cbn [fold_right app].
  - reflexivity.
  - rewrite IH. lia.
Qed.

Lemma fold_left_lcov_step (lines : list string) (lf lh : Z) :
  fold_left AggregateMetrics.lcov_step lines (lf, lh)
  = (lf + Spec.sum_Z
            (flat_map (fun line =>
                         if PyStr.startswith "LF:" line
                         then match AggregateMetrics.counter_value line with
                              | Some n => [n] | None => [] end
                         else []) lines),
     lh + Spec.sum_Z
            (flat_map (fun line =>
                         if PyStr.startswith "LH:" line
                         then match AggregateMetrics.counter_value line with
                              | Some n => [n] | None => [] end
                         else []) lines)).
Proof.
  revert lf lh. induction lines as [|line lines IH]; intros lf lh.
  - simpl. f_equal; lia.
  - cbn [fold_left flat_map]. rewrite !sum_Z_app.
    unfold AggregateMetrics.lcov_step at 2.
    destruct (PyStr.startswith "LF:" line) eqn:ELF.
    + rewrite (startswith_LF_not_LH line ELF).
      destruct (AggregateMetrics.counter_value line) as [n|]; rewrite IH;
        f_equal; unfold Spec.sum_Z; cbn [fold_right]; lia.
    + destruct (PyStr.startswith "LH:" line).
      * destruct (AggregateMetrics.counter_value line) as [n|]; rewrite IH;
          f_equal; unfold Spec.sum_Z; cbn [fold_right]; lia.
      * rewrite IH. f_equal; unfold Spec.sum_Z; cbn [fold_right]; lia.
Qed.

(** The totals of [parse_coverage_lcov] are the sums of the LF and of the
    LH values of the trace. *)
Lemma lcov_totals_sums (content : string) :
  AggregateMetrics.lcov_totals content
  = (Spec.sum_Z (Spec.counter_values "LF:" content),
     Spec.sum_Z (Spec.counter_values "LH:" content)).
Proof.
  unfold AggregateMetrics.lcov_totals. rewrite fold_left_lcov_step. reflexivity.
Qed.

(* --------------------------------------------------------------------- *)
(** *** Numerals *)

Lemma take_digits_split (s d rest : string) :
  PyFloat.take_digits s = (d, rest) ->
  s = d +:+ rest /\ PyStr.all_chars PyStr.is_digit d = true /\ Spec.stops rest.
Proof.
  revert d rest. induction s as [|c s IH]; intros d rest; cbn [PyFloat.take_digits].
  - intros [= <- <-]. repeat split.
  - destruct (PyStr.is_digit c) eqn:E.
    + destruct (PyFloat.take_digits s) as [d' rest'].
      intros [= <- <-]. destruct (IH d' rest' eq_refl) as (-> & Hd & Hr).
      repeat split; [| exact Hr]. cbn [PyStr.all_chars]. rewrite E, Hd. reflexivity.
    + intros [= <- <-]. repeat split. exact E.
Qed.

Lemma take_digits_app (d rest : string) :
  PyStr.all_chars PyStr.is_digit d = true -> Spec.stops rest ->
  PyFloat.take_digits (d +:+ rest) = (d, rest).
Proof.
  intros Hd Hr. induction d as [|c d IH].
  - change (EmptyString +:+ rest) with rest.
    destruct rest as [|c rest]; [reflexivity |].
    cbn [PyFloat.take_digits]. cbn [Spec.stops] in Hr. rewrite Hr. reflexivity.
  - change (String c d +:+ rest) with (String c (d +:+ rest)).
    cbn [PyStr.all_chars] in Hd. apply andb_true_iff in Hd. destruct Hd as [Hc Hd].
    cbn [PyFloat.take_digits]. rewrite Hc, (IH Hd). reflexivity.
Qed.

Lemma append_empty_r (s : string) : s +:+ "" = s.
Proof. induction s as [|c s IH]; [reflexivity |]. 
  change (String c s +:+ "") with (String c (s +:+ "")). rewrite IH. reflexivity.
Qed.

Lemma is_empty_false (s : string) : s <> "" -> PyStr.is_empty s = false.
Proof. destruct s; [congruence | reflexivity]. Qed.

Lemma is_empty_false_inv (s : string) : PyStr.is_empty s = false -> s <> "".
Proof. destruct s; [discriminate | discriminate]. Qed.

Lemma take_digits_all (d : string) :
  PyStr.all_chars PyStr.is_digit d = true -> PyFloat.take_digits d = (d, "").
Proof.
  intros H. pose proof (take_digits_app d "" H I) as E.
  rewrite append_empty_r in E. exact E.
Qed.

(** [float] accepts a Spec.numeral, with or without a fraction. *)
Lemma float_of_str_numeral (d1 d2 : string) :
  Spec.numeral d1 -> Spec.numeral d2 ->
  (exists x, PyFloat.float_of_str d1 = Some x)
  /\ (exists x, PyFloat.float_of_str (d1 +:+ "." +:+ d2) = Some x).
Proof.
  intros [Hn1 Hd1] [Hn2 Hd2]. unfold PyFloat.float_of_str. split.
  - rewrite (take_digits_all d1 Hd1), (is_empty_false d1 Hn1).
    eexists. reflexivity.
  - rewrite (take_digits_app d1 ("." +:+ d2) Hd1 eq_refl), (is_empty_false d1 Hn1).
    change ("." +:+ d2) with (String "."%char d2). cbv iota beta.
    rewrite (take_digits_all d2 Hd2), (is_empty_false d2 Hn2).
    eexists. reflexivity.
Qed.

(** The group of the number pattern is a Spec.numeral, with or without a
    fraction. *)
Lemma match_number_group (s g : string) :
  AggregateMetrics.match_number s = Some g ->
  exists x, PyFloat.float_of_str g = Some x.
Proof.
  unfold AggregateMetrics.match_number.
  destruct (PyFloat.take_digits s) as [d1 rest] eqn:E1.
  destruct (take_digits_split s d1 rest E1) as (_ & Hd1 & _).
  destruct (PyStr.is_empty d1) eqn:En1; [discriminate |].
  apply is_empty_false_inv in En1.
  destruct rest as [|c rest]; [discriminate |].
  destruct (Ascii.ascii_dec c "%") as [-> | Hpct].
  { intros [= <-]. apply (float_of_str_numeral d1 d1); split; assumption. }
  destruct (Ascii.ascii_dec c ".") as [-> | Hdot].
  - destruct (PyFloat.take_digits rest) as [d2 rest'] eqn:E2.
    destruct (take_digits_split rest d2 rest' E2) as (_ & Hd2 & _).
    destruct rest' as [|c' rest']; [discriminate |].
    destruct (Ascii.ascii_dec c' "%") as [-> | Hpct'].
    + destruct (PyStr.is_empty d2) eqn:En2; [discriminate |].
      apply is_empty_false_inv in En2.
      intros [= <-]. apply (float_of_str_numeral d1 d2); split; assumption.
    + destruct c' as [[] [] [] [] [] [] [] []]; try discriminate.
      congruence.
  - destruct c as [[] [] [] [] [] [] [] []]; try discriminate; congruence.
Qed.

Lemma match_lazy_group (s g : string) :
  AggregateMetrics.match_lazy s = Some g ->
  exists x, PyFloat.float_of_str g = Some x.
Proof.
  induction s as [|c s IH]; cbn [AggregateMetrics.match_lazy].
  - destruct (AggregateMetrics.match_number "") eqn:E; [| discriminate].
    intros [= <-]. apply (match_number_group _ _ E).
  - destruct (AggregateMetrics.match_number (String c s)) eqn:E.
    + intros [= <-]. apply (match_number_group _ _ E).
    + destruct (Ascii.eqb c _); [discriminate | exact IH].
Qed.

Lemma match_here_group (pat : string * AggregateMetrics.gap) (s g : string) :
  AggregateMetrics.match_here pat s = Some g ->
  exists x, PyFloat.float_of_str g = Some x.
Proof.
  unfold AggregateMetrics.match_here. destruct pat as [word gp].
  destruct (PyStr.startswith _ _); [| discriminate].
  destruct gp; [apply match_number_group | apply match_lazy_group].
Qed.

(** Whatever [re.search] captures, [float] accepts. *)
Lemma re_search_group (pat : string * AggregateMetrics.gap) (s g : string) :
  AggregateMetrics.re_search pat s = Some g ->
  exists x, PyFloat.float_of_str g = Some x.
Proof.
  induction s as [|c s IH]; cbn [AggregateMetrics.re_search].
  - destruct (AggregateMetrics.match_here pat "") eqn:E; [| discriminate].
    intros [= <-]. apply (match_here_group _ _ _ E).
  - destruct (AggregateMetrics.match_here pat (String c s)) eqn:E.
    + intros [= <-]. apply (match_here_group _ _ _ E).
    + exact IH.
Qed.

(** The first pattern that matches decides. *)
Lemma first_match_first (before after : list (string * AggregateMetrics.gap))
    (pat : string * AggregateMetrics.gap) (content g : string) :
  (forall p, In p before -> AggregateMetrics.re_search p content = None) ->
  AggregateMetrics.re_search pat content = Some g ->
  exists x, PyFloat.float_of_str g = Some x
            /\ AggregateMetrics.first_match (before ++ pat :: after) content = Some x.
Proof.
  intros Hb Hp. destruct (re_search_group pat content g Hp) as [x Hx].
  exists x. split; [exact Hx |].
  induction before as [|p before IH]; cbn [app AggregateMetrics.first_match].
  - rewrite Hp, Hx. reflexivity.
  - rewrite (Hb p (or_introl eq_refl)). apply IH.
    intros q Hq. apply Hb. right. exact Hq.
Qed.

Lemma first_match_none (pats : list (string * AggregateMetrics.gap)) (content : string) :
  (forall p, In p pats -> AggregateMetrics.re_search p content = None) ->
  AggregateMetrics.first_match pats content = None.
Proof.
  induction pats as [|p pats IH]; intros H; cbn [AggregateMetrics.first_match].
  - reflexivity.
  - rewrite (H p (or_introl eq_refl)). apply IH.
    intros q Hq. apply H. right. exact Hq.
Qed.

(* --------------------------------------------------------------------- *)
(** *** Rounding to two decimals *)

Lemma round_half_even_nearest (num den : Z) :
  0 <= num -> 0 < den ->
  0 <= PyFloat.round_half_even num den
  /\ Spec.nearest_even num den (PyFloat.round_half_even num den).
Proof.
  intros Hn Hd. unfold PyFloat.round_half_even, Spec.nearest_even.
  pose proof (Z.div_mod num den ltac:(lia)) as E.
  pose proof (Z.mod_pos_bound num den Hd) as Hr.
  pose proof (Z.div_pos num den Hn Hd) as Hq.
  set (q := num / den) in *. set (r := num mod den) in *. clearbody q r.
  destruct (2 * r ?= den) eqn:C.
  - apply Z.compare_eq in C. destruct (Z.even q) eqn:Ev.
    + split; [lia|]. right. split; [|exact Ev].
      replace (q * den - num) with (- r) by (rewrite E; ring). lia.
    + split; [lia|]. right. split.
      * replace ((q + 1) * den - num) with (den - r) by (rewrite E; ring). lia.
      * rewrite Z.add_1_r, Z.even_succ, <- Z.negb_even, Ev. reflexivity.
  - rewrite Z.compare_lt_iff in C. split; [lia|]. left.
    replace (q * den - num) with (- r) by (rewrite E; ring). lia.
  - rewrite Z.compare_gt_iff in C. split; [lia|]. left.
    replace ((q + 1) * den - num) with (den - r) by (rewrite E; ring). lia.
Qed.

(** [round2] rounds to hundredths. *)
Lemma round2_hundredths (x : spec_float) :
  Spec.rounded_to_hundredths x (PyFloat.round2 x).
Proof.
  destruct x as [s|s| |s m e]; try reflexivity.
  cbn [Spec.rounded_to_hundredths PyFloat.round2].
  destruct (0 <=? e) eqn:Ee.
  - apply Z.leb_le in Ee. exists (Zpos m * 2 ^ e * 100).
    assert (Hp : 0 < Zpos m * 2 ^ e * 100).
    { pose proof (Z.pow_pos_nonneg 2 e ltac:(lia) Ee). nia. }
    rewrite Z.max_l by lia. rewrite (Z.max_r (- e) 0) by lia.
    split; [lia|]. split.
    + left. change (2 ^ 0) with 1. 
      replace (Zpos m * 2 ^ e * 100 * 1 - Zpos m * 100 * 2 ^ e) with 0 by lia.
      reflexivity.
    + destruct (Zpos m * 2 ^ e * 100) as [|p|p] eqn:Eh; try lia.
      now destruct s.
  - apply Z.leb_gt in Ee.
    rewrite Z.max_r by lia. rewrite (Z.max_l (- e) 0) by lia.
    change (2 ^ 0) with 1. rewrite Z.mul_1_r.
    destruct (round_half_even_nearest (Zpos m * 100) (2 ^ (- e))) as [Hk Hn];
      [lia|apply Z.pow_pos_nonneg; lia|].
    exists (PyFloat.round_half_even (Zpos m * 100) (2 ^ (- e))).
    split; [exact Hk|]. split; [exact Hn|].
    destruct (PyFloat.round_half_even _ _) as [|p|p]; try lia; [reflexivity|].
    now destruct s.
Qed.

(* --------------------------------------------------------------------- *)
(** *** The patterns of the text summary *)

Lemma is_digit_not_space (c : ascii) :
  PyStr.is_digit c = true -> PyStr.isspace c = false.
Proof. destruct c as [[] [] [] [] [] [] [] []]; try reflexivity; discriminate. Qed.

(** The number pattern matches where a decimal and a percent sign stand. *)
Lemma match_number_iff (s g : string) :
  AggregateMetrics.match_number s = Some g <-> Spec.number_at s g.
Proof.
  unfold AggregateMetrics.match_number, Spec.number_at. split.
  - destruct (PyFloat.take_digits s) as [d1 rest] eqn:E1.
    destruct (take_digits_split s d1 rest E1) as (-> & Hd1 & _).
    destruct (PyStr.is_empty d1) eqn:En1; [discriminate |].
    apply is_empty_false_inv in En1.
    destruct rest as [|c rest]; [discriminate |].
    destruct (Ascii.ascii_dec c "%") as [-> | Hpct].
    { intros [= <-]. split; [left; now split|]. now exists rest. }
    destruct (Ascii.ascii_dec c ".") as [-> | Hdot].
    + destruct (PyFloat.take_digits rest) as [d2 rest'] eqn:E2.
      destruct (take_digits_split rest d2 rest' E2) as (-> & Hd2 & _).
      destruct rest' as [|c' rest']; [discriminate |].
      destruct (Ascii.ascii_dec c' "%") as [-> | Hpct'].
      * destruct (PyStr.is_empty d2) eqn:En2; [discriminate |].
        apply is_empty_false_inv in En2.
        intros [= <-]. split.
        -- right. exists d1, d2. repeat split; assumption.
        -- exists rest'. rewrite !append_assoc. reflexivity.
      * destruct c' as [[] [] [] [] [] [] [] []]; try discriminate.
        congruence.
    + destruct c as [[] [] [] [] [] [] [] []]; try discriminate; congruence.
  - intros [[[Hn Hd]|(d1 & d2 & -> & [Hn1 Hd1] & [Hn2 Hd2])] [rest ->]].
    + rewrite (take_digits_app g ("%" +:+ rest) Hd eq_refl), (is_empty_false g Hn).
      reflexivity.
    + rewrite !append_assoc.
      rewrite (take_digits_app d1 ("." +:+ d2 +:+ "%" +:+ rest) Hd1 eq_refl),
        (is_empty_false d1 Hn1).
      change ("." +:+ d2 +:+ "%" +:+ rest) with (String "."%char (d2 +:+ "%" +:+ rest)).
      cbv iota beta.
      rewrite (take_digits_app d2 ("%" +:+ rest) Hd2 eq_refl), (is_empty_false d2 Hn2).
      reflexivity.
Qed.

Lemma match_number_None (s : string) :
  AggregateMetrics.match_number s = None <-> forall g, ~ Spec.number_at s g.
Proof.
  split.
  - intros E g H. apply match_number_iff in H. congruence.
  - intros H. destruct (AggregateMetrics.match_number s) as [g|] eqn:E; [|reflexivity].
    apply match_number_iff in E. now apply H in E.
Qed.

(** The lazy gap ends at the first place of the line where the number
    matches. *)
Lemma match_lazy_iff (s g : string) :
  AggregateMetrics.match_lazy s = Some g
  <-> exists skipped tail,
        s = skipped +:+ tail /\ Spec.one_line skipped /\ Spec.number_at tail g
        /\ forall a b, skipped = a +:+ b -> b <> "" ->
                       forall g', ~ Spec.number_at (b +:+ tail) g'.
Proof.
  split.
  - induction s as [|c s IH]; cbn [AggregateMetrics.match_lazy].
    + destruct (AggregateMetrics.match_number "") as [g0|] eqn:E; [|discriminate].
      intros [= <-]. exists "", "". apply match_number_iff in E.
      split; [reflexivity|]. split; [reflexivity|]. split; [exact E|].
      intros [|x a] b Hab Hb; [|discriminate Hab].
        rewrite append_empty_l in Hab. subst b. now elim Hb.
    + destruct (AggregateMetrics.match_number (String c s)) as [g0|] eqn:E.
      * intros [= <-]. exists "", (String c s). apply match_number_iff in E.
        split; [reflexivity|]. split; [reflexivity|]. split; [exact E|].
        intros [|x a] b Hab Hb; [|discriminate Hab].
        rewrite append_empty_l in Hab. subst b. now elim Hb.
      * destruct (Ascii.eqb c "010"%char) eqn:Ec; [discriminate|].
        intros H. destruct (IH H) as (sk & tail & -> & Hline & Hnum & Hfirst).
        exists (String c sk), tail. split; [reflexivity|].
        split; [unfold Spec.one_line; cbn [PyStr.all_chars]; now rewrite Ec|].
        split; [exact Hnum|].
        intros [|x a] b Hab Hb g' Hg'.
        -- rewrite append_empty_l in Hab. subst b. apply match_number_iff in Hg'.
           rewrite append_cons in Hg'. congruence.
        -- rewrite append_cons in Hab. injection Hab as _ Hab.
           exact (Hfirst a b Hab Hb g' Hg').
  - intros (sk & tail & -> & Hline & Hnum & Hfirst).
    induction sk as [|c sk IH].
    + apply match_number_iff in Hnum. rewrite append_empty_l.
      destruct tail; cbn [AggregateMetrics.match_lazy]; now rewrite Hnum.
    + rewrite append_cons. cbn [AggregateMetrics.match_lazy].
      assert (E : AggregateMetrics.match_number (String c (sk +:+ tail)) = None).
      { apply match_number_None. intros g' Hg'.
        apply (Hfirst "" (String c sk) eq_refl ltac:(discriminate) g').
        now rewrite append_cons. }
      rewrite E. unfold Spec.one_line in Hline. cbn [PyStr.all_chars] in Hline.
      apply andb_true_iff in Hline as [Hc Hline].
      apply negb_true_iff in Hc. rewrite Hc. apply IH; [exact Hline|].
      intros a b Hab Hb. apply (Hfirst (String c a) b); [|exact Hb].
      now rewrite append_cons, Hab.
Qed.

Lemma lower_length (s : string) : String.length (PyStr.lower s) = String.length s.
Proof. induction s as [|c s IH]; [reflexivity|]. cbn. now rewrite IH. Qed.

Lemma drop_chars_app (w rest : string) :
  PyStr.drop_chars (String.length w) (w +:+ rest) = rest.
Proof. induction w as [|c w IH]; [reflexivity|]. rewrite append_cons. exact IH. Qed.

(** The word of a pattern stands at the start of [s], in any case. *)
Lemma startswith_lower_iff (word s : string) :
  PyStr.startswith (PyStr.lower word) (PyStr.lower s) = true
  <-> exists w, s = w +:+ PyStr.drop_chars (String.length word) s
                /\ PyStr.lower w = PyStr.lower word.
Proof.
  revert s. induction word as [|a word IH]; intros s.
  - cbn. split; [intros _; now exists ""|reflexivity].
  - destruct s as [|b s].
    + cbn. split; [discriminate|]. intros (w & Hs & Hw).
      destruct w; discriminate.
    + cbn [PyStr.lower PyStr.startswith String.length PyStr.drop_chars].
      rewrite andb_true_iff, Ascii.eqb_eq, IH. split.
      * intros (Hab & w & Hs & Hw). exists (String b w). rewrite append_cons.
        split; [now rewrite <- Hs|]. cbn [PyStr.lower]. now rewrite Hw, Hab.
      * intros (w & Hs & Hw). destruct w as [|x w]; [discriminate|].
        rewrite append_cons in Hs. injection Hs as <- Hs.
        cbn [PyStr.lower] in Hw. injection Hw as Hx Hw.
        split; [now rewrite Hx|]. now exists w.
Qed.

Lemma lstrip_split (s : string) :
  exists b, s = b +:+ PyStr.lstrip s /\ Spec.blank b.
Proof.
  induction s as [|c s (b & Hs & Hb)]; [now exists ""|].
  cbn [PyStr.lstrip]. destruct (PyStr.isspace c) eqn:E.
  - exists (String c b). rewrite append_cons, <- Hs. split; [reflexivity|].
    unfold Spec.blank. cbn [PyStr.all_chars]. now rewrite E.
  - now exists "".
Qed.

Lemma number_at_lstrip (tail g : string) :
  Spec.number_at tail g -> PyStr.lstrip tail = tail.
Proof.
  intros [Hd [rest ->]].
  assert (H : exists c g', g = String c g' /\ PyStr.is_digit c = true).
  { destruct Hd as [[Hn Hd]|(d1 & d2 & -> & [Hn Hd] & _)].
    - destruct g as [|c g']; [congruence|]. cbn [PyStr.all_chars] in Hd.
      apply andb_true_iff in Hd as [Hc _]. eauto.
    - destruct d1 as [|c d1]; [congruence|]. cbn [PyStr.all_chars] in Hd.
      apply andb_true_iff in Hd as [Hc _]. rewrite append_cons. eauto. }
  destruct H as (c & g' & -> & Hc). rewrite append_cons. cbn [PyStr.lstrip].
  now rewrite (is_digit_not_space c Hc).
Qed.

Lemma lstrip_blank_app (b tail : string) :
  Spec.blank b -> PyStr.lstrip (b +:+ tail) = PyStr.lstrip tail.
Proof.
  unfold Spec.blank. induction b as [|c b IH]; [reflexivity|].
  cbn [PyStr.all_chars]. intros [Hc Hb]%andb_true_iff.
  rewrite append_cons. cbn [PyStr.lstrip]. rewrite Hc. now apply IH.
Qed.

(** A pattern at the start of a text. *)
Lemma match_here_iff (pat : string * AggregateMetrics.gap) (s g : string) :
  AggregateMetrics.match_here pat s = Some g <-> Spec.matches_at pat s g.
Proof.
  destruct pat as [word gp]. unfold AggregateMetrics.match_here, Spec.matches_at.
  cbn [fst snd]. split.
  - destruct (PyStr.startswith _ _) eqn:Es; [|discriminate].
    apply startswith_lower_iff in Es as (w & Hs & Hw).
    set (rest := PyStr.drop_chars (String.length word) s) in *.
    intros H. exists w, rest. split; [exact Hs|]. split; [exact Hw|].
    destruct gp.
    + destruct (lstrip_split rest) as (b & Hb & Hblank).
      exists b, (PyStr.lstrip rest). split; [exact Hb|]. split; [exact Hblank|].
      now apply match_number_iff.
    + now apply match_lazy_iff.
  - intros (w & rest & -> & Hw & H).
    assert (Hlen : String.length word = String.length w).
    { now rewrite <- (lower_length word), <- Hw, lower_length. }
    assert (Es : PyStr.startswith (PyStr.lower word) (PyStr.lower (w +:+ rest)) = true).
    { apply startswith_lower_iff. exists w. rewrite Hlen, drop_chars_app. now split. }
    rewrite Es, Hlen, drop_chars_app. destruct gp.
    + destruct H as (b & tail & -> & Hb & Hnum).
      rewrite (lstrip_blank_app _ _ Hb), (number_at_lstrip _ _ Hnum).
      now apply match_number_iff.
    + now apply match_lazy_iff.
Qed.

(** [re.search] returns the group of the leftmost match. *)
Lemma re_search_iff (pat : string * AggregateMetrics.gap) (content g : string) :
  AggregateMetrics.re_search pat content = Some g <-> Spec.found pat content g.
Proof.
  unfold Spec.found. split.
  - induction content as [|c s IH]; cbn [AggregateMetrics.re_search].
    + destruct (AggregateMetrics.match_here pat "") as [g0|] eqn:E; [|discriminate].
      intros [= <-]. exists "", "". apply match_here_iff in E.
      split; [reflexivity|]. split; [exact E|].
      intros [|x a] b Hab Hb; [|discriminate Hab].
        rewrite append_empty_l in Hab. subst b. now elim Hb.
    + destruct (AggregateMetrics.match_here pat (String c s)) as [g0|] eqn:E.
      * intros [= <-]. exists "", (String c s). apply match_here_iff in E.
        split; [reflexivity|]. split; [exact E|].
        intros [|x a] b Hab Hb; [|discriminate Hab].
        rewrite append_empty_l in Hab. subst b. now elim Hb.
      * intros H. destruct (IH H) as (before & s' & -> & Hm & Hfirst).
        exists (String c before), s'. split; [reflexivity|]. split; [exact Hm|].
        intros [|x a] b Hab Hb g' Hg'.
        -- rewrite append_empty_l in Hab. subst b. apply match_here_iff in Hg'.
           rewrite append_cons in Hg'. congruence.
        -- rewrite append_cons in Hab. injection Hab as _ Hab.
           exact (Hfirst a b Hab Hb g' Hg').
  - intros (before & s & -> & Hm & Hfirst).
    induction before as [|c before IH].
    + apply match_here_iff in Hm. rewrite append_empty_l.
      destruct s; cbn [AggregateMetrics.re_search]; now rewrite Hm.
    + rewrite append_cons. cbn [AggregateMetrics.re_search].
      assert (E : AggregateMetrics.match_here pat (String c (before +:+ s)) = None).
      { destruct (AggregateMetrics.match_here pat _) as [g'|] eqn:E; [|reflexivity].
        apply match_here_iff in E. exfalso.
        apply (Hfirst "" (String c before) eq_refl ltac:(discriminate) g').
        now rewrite append_cons. }
      rewrite E. apply IH.
      intros a b Hab Hb. apply (Hfirst (String c a) b); [|exact Hb].
      now rewrite append_cons, Hab.
Qed.

Lemma re_search_None (pat : string * AggregateMetrics.gap) (content : string) :
  AggregateMetrics.re_search pat content = None
  <-> forall g, ~ Spec.found pat content g.
Proof.
  split.
  - intros E g H. apply re_search_iff in H. congruence.
  - intros H. destruct (AggregateMetrics.re_search pat content) as [g|] eqn:E;
      [|reflexivity].
    apply re_search_iff in E. now apply H in E.
Qed.

(** C9.  The coverage of [main] is the percentage of the LCOV trace,
    [round((LH / LF) * 100.0, 2)] over the sums of its LH and LF values,
    whenever a trace is present and its LF values sum to more than 0,
    whatever the text summary says.  The percentage is rounded to two
    decimals: it is the double nearest to [k / 100], where [k] is the
    integer nearest to the hundredths of [(LH / LF) * 100.0], ties to
    even; so 1 of 3 lines gives 33.33, 2 of 3 give 66.67, and 1 of 800
    gives 0.12.  Without a trace, or with one whose LF sum is not
    positive, the coverage is what the first pattern of the list that
    matches somewhere in the text summary captures at its leftmost
    match, and nothing when no pattern matches.  A trace with LF 80 and
    LH 76 gives 95.0, and the summary "Statements: 91%" without a trace
    gives 91.0. *)
Theorem coverage_prefers_lcov :
  (forall (lcov : string) (cov : option string),
     let total_lf := Spec.sum_Z (Spec.counter_values "LF:" lcov) in
     let total_lh := Spec.sum_Z (Spec.counter_values "LH:" lcov) in
     0 < total_lf ->
     AggregateMetrics.coverage_pct (Some lcov) cov
     = Some <$> AggregateMetrics.percent total_lh total_lf)
  /\ (forall (total_lh total_lf : Z) (q : spec_float),
        PyFloat.int_truediv total_lh total_lf = Ok q ->
        exists x,
          AggregateMetrics.percent total_lh total_lf = Ok x
          /\ Spec.rounded_to_hundredths
               (PyFloat.fmul q (PyFloat.float_of_int 100)) x)
  /\ (forall (lcov : option string) (cov : string),
        (lcov = None
         \/ exists trace, lcov = Some trace
                          /\ Spec.sum_Z (Spec.counter_values "LF:" trace) <= 0) ->
        AggregateMetrics.coverage_pct lcov (Some cov)
        = Ok (AggregateMetrics.parse_coverage_summary cov))
  /\ (forall (cov : string) before pat after g,
        Spec.ascii_text cov ->
        AggregateMetrics.patterns = before ++ pat :: after ->
        (forall p g', In p before -> ~ Spec.found p cov g') ->
        Spec.found pat cov g ->
        exists x, PyFloat.float_of_str g = Some x
                  /\ AggregateMetrics.parse_coverage_summary cov = Some x)
  /\ (forall cov : string,
        Spec.ascii_text cov ->
        (forall p g, In p AggregateMetrics.patterns -> ~ Spec.found p cov g) ->
        AggregateMetrics.parse_coverage_summary cov = None)
  /\ (forall cov : option string,
        AggregateMetrics.coverage_pct (Some Spec.trace_80_76) cov
        = Ok (Some (PyFloat.float_of_int 95)))
  /\ AggregateMetrics.coverage_pct None (Some "Statements: 91%")
     = Ok (Some (PyFloat.float_of_int 91))
  /\ AggregateMetrics.percent 1 3 = Ok (PyFloat.nearest_quotient 3333 100)
  /\ AggregateMetrics.percent 2 3 = Ok (PyFloat.nearest_quotient 6667 100)
  /\ AggregateMetrics.percent 1 800 = Ok (PyFloat.nearest_quotient 12 100)
  /\ AggregateMetrics.percent 3 800 = Ok (PyFloat.nearest_quotient 38 100)
  /\ AggregateMetrics.parse_coverage_summary
       ("lines: 80%" +:+ String "010" ("STATEMENTS:" +:+ String "009" "91.5%"))
     = Some (PyFloat.nearest_quotient 915 10)
  /\ AggregateMetrics.parse_coverage_summary "Overall coverage 87.5% of 120%"
     = Some (PyFloat.nearest_quotient 875 10)
  /\ AggregateMetrics.parse_coverage_summary "overall: 12.5.7%"
     = Some (PyFloat.nearest_quotient 57 10)
  /\ AggregateMetrics.parse_coverage_summary ("Overall" +:+ String "010" "50%")
     = None
  /\ AggregateMetrics.parse_coverage_summary "Statements: 91 %" = None.
Proof.
  split; [| split; [| split; [| split; [| split; [| split]]]]].
  - intros lcov cov total_lf total_lh Hlf.
    unfold AggregateMetrics.coverage_pct, AggregateMetrics.parse_coverage_lcov.
    rewrite lcov_totals_sums. fold total_lf total_lh.
    destruct (0 <? total_lf) eqn:E; [| apply Z.ltb_ge in E; lia].
    destruct (AggregateMetrics.percent total_lh total_lf); reflexivity.
  - intros total_lh total_lf q Hq. unfold AggregateMetrics.percent.
    rewrite Hq, bind_Ok. eexists. split; [reflexivity|]. apply round2_hundredths.
  - intros lcov cov [-> | [trace [-> Hlf]]].
    + reflexivity.
    + unfold AggregateMetrics.coverage_pct, AggregateMetrics.parse_coverage_lcov.
      rewrite lcov_totals_sums.
      destruct (0 <? _) eqn:E; [apply Z.ltb_lt in E; lia | reflexivity].
  - intros cov before pat after g _ Hpats Hb Hp.
    unfold AggregateMetrics.parse_coverage_summary. rewrite Hpats.
    apply first_match_first.
    + intros p Hin. apply re_search_None. intros g'. now apply Hb.
    + now apply re_search_iff.
  - intros cov _ H. apply first_match_none.
    intros p Hin. apply re_search_None. intros g. now apply H.
  - intros cov. vm_compute. reflexivity.
  - repeat split; vm_compute; reflexivity.
Qed.

(** The trace of scenario E has 80 lines found: it decides, also beside a
    summary that says otherwise. *)
Lemma coverage_prefers_lcov_witness :
  AggregateMetrics.coverage_pct (Some Spec.trace_80_76) (Some "Statements: 91%")
  = Some <$> AggregateMetrics.percent 76 80.
Proof.
  apply (proj1 coverage_prefers_lcov Spec.trace_80_76 (Some "Statements: 91%")).
  vm_compute. reflexivity.
Defined.

(* ===================================================================== *)
(** ** Severity labels are stable under [norm_sev] *)
(* ===================================================================== *)

Lemma isspace_char_lower (c : ascii) :
  PyStr.isspace (PyStr.char_lower c) = PyStr.isspace c.
Proof. destruct c as [[] [] [] [] [] [] [] []]; reflexivity. Qed.

Lemma isspace_char_upper (c : ascii) :
  PyStr.isspace (PyStr.char_upper c) = PyStr.isspace c.
Proof. destruct c as [[] [] [] [] [] [] [] []]; reflexivity. Qed.

Lemma char_lower_idem (c : ascii) :
  PyStr.char_lower (PyStr.char_lower c) = PyStr.char_lower c.
Proof. destruct c as [[] [] [] [] [] [] [] []]; reflexivity. Qed.

Lemma char_lower_upper (c : ascii) :
  PyStr.char_lower (PyStr.char_upper c) = PyStr.char_lower c.
Proof. destruct c as [[] [] [] [] [] [] [] []]; reflexivity. Qed.

Lemma lower_idem (s : string) : PyStr.lower (PyStr.lower s) = PyStr.lower s.
Proof.
  induction s as [|c r IH]; [reflexivity|].
  cbn [PyStr.lower]. now rewrite char_lower_idem, IH.
Qed.

Lemma lower_capitalize (s : string) :
  PyStr.lower (PyStr.capitalize s) = PyStr.lower s.
Proof.
  destruct s as [|c r]; [reflexivity|].
  cbn [PyStr.capitalize PyStr.lower]. now rewrite char_lower_upper, lower_idem.
Qed.

Lemma same_spaces_lower (s : string) : Spec.same_spaces (PyStr.lower s) s.
Proof.
  induction s as [|c r IH]; [exact I|].
  cbn [PyStr.lower Spec.same_spaces]. split; [apply isspace_char_lower | exact IH].
Qed.

Lemma same_spaces_capitalize (s : string) :
  Spec.same_spaces (PyStr.capitalize s) s.
Proof.
  destruct s as [|c r]; [exact I|].
  cbn [PyStr.capitalize Spec.same_spaces].
  split; [apply isspace_char_upper | apply same_spaces_lower].
Qed.

Lemma same_spaces_trans (s t u : string) :
  Spec.same_spaces s t -> Spec.same_spaces t u -> Spec.same_spaces s u.
Proof.
  revert t u; induction s as [|a s IH]; intros [|b t] [|c u]; cbn; try tauto.
  intros [E1 H1] [E2 H2]. split; [congruence | eauto].
Qed.

Lemma lstrip_same_spaces (s t : string) :
  Spec.same_spaces t s -> PyStr.lstrip s = s -> PyStr.lstrip t = t.
Proof.
  destruct s as [|a s], t as [|b t]; cbn [Spec.same_spaces]; try tauto.
  intros [E _]. cbn [PyStr.lstrip]. rewrite E.
  destruct (PyStr.isspace a) eqn:Ea; [|reflexivity].
  intros H. exfalso.
  assert (L : forall u, (String.length (PyStr.lstrip u) <= String.length u)%nat).
  { induction u as [|c u IHu]; cbn [PyStr.lstrip]; [lia|].
    destruct (PyStr.isspace c); cbn [String.length]; lia. }
  specialize (L s). rewrite H in L. cbn [String.length] in L. lia.
Qed.

Lemma rstrip_empty_same_spaces (s t : string) :
  Spec.same_spaces t s -> PyStr.rstrip s = "" -> PyStr.rstrip t = "".
Proof.
  revert t; induction s as [|a s IH]; intros [|b t]; cbn [Spec.same_spaces];
    try tauto.
  intros [E H]. cbn [PyStr.rstrip].
  destruct (PyStr.rstrip s) eqn:Es.
  - rewrite (IH t H eq_refl), E. now destruct (PyStr.isspace a).
  - discriminate.
Qed.

Lemma rstrip_same_spaces (s t : string) :
  Spec.same_spaces t s -> PyStr.rstrip s = s -> PyStr.rstrip t = t.
Proof.
  revert t; induction s as [|a s IH]; intros [|b t]; cbn [Spec.same_spaces];
    try tauto.
  intros [E H]. cbn [PyStr.rstrip].
  destruct (PyStr.rstrip s) as [|c r] eqn:Es.
  - rewrite (rstrip_empty_same_spaces s t H Es), E.
    destruct (PyStr.isspace a); [discriminate|].
    intros [= <-]. destruct t; [reflexivity | cbn in H; contradiction].
  - intros [= Hs]. rewrite (IH t H Hs).
    destruct t; [|reflexivity]. subst s. cbn in H; contradiction.
Qed.

Lemma lstrip_idem (s : string) : PyStr.lstrip (PyStr.lstrip s) = PyStr.lstrip s.
Proof.
  induction s as [|c r IH]; [reflexivity|].
  cbn [PyStr.lstrip]. destruct (PyStr.isspace c) eqn:E; [exact IH|].
  cbn [PyStr.lstrip]. now rewrite E.
Qed.

Lemma rstrip_idem (s : string) : PyStr.rstrip (PyStr.rstrip s) = PyStr.rstrip s.
Proof.
  induction s as [|c r IH]; [reflexivity|].
  cbn [PyStr.rstrip]. destruct (PyStr.rstrip r) as [|d r'] eqn:E.
  - destruct (PyStr.isspace c) eqn:Ec; [reflexivity|].
    cbn [PyStr.rstrip]. now rewrite Ec.
  - change (PyStr.rstrip (String c (String d r')))
      with (match PyStr.rstrip (String d r') with
            | EmptyString =>
                if PyStr.isspace c then EmptyString else String c EmptyString
            | r'' => String c r''
            end).
    now rewrite IH.
Qed.

Lemma rstrip_lstrip_fixed (s : string) :
  PyStr.rstrip s = s -> PyStr.rstrip (PyStr.lstrip s) = PyStr.lstrip s.
Proof.
  induction s as [|c r IH]; [reflexivity|].
  intros H. cbn [PyStr.lstrip]. destruct (PyStr.isspace c) eqn:Ec; [|exact H].
  apply IH. cbn [PyStr.rstrip] in H. rewrite Ec in H.
  destruct (PyStr.rstrip r) as [|d r'] eqn:E; [discriminate|].
  now injection H.
Qed.

Lemma strip_fixed (s : string) :
  PyStr.lstrip (PyStr.strip s) = PyStr.strip s
  /\ PyStr.rstrip (PyStr.strip s) = PyStr.strip s.
Proof.
  unfold PyStr.strip. split; [apply lstrip_idem|].
  apply rstrip_lstrip_fixed, rstrip_idem.
Qed.

Lemma strip_same_spaces (s t : string) :
  Spec.same_spaces t (PyStr.strip s) -> PyStr.strip t = t.
Proof.
  intros H. destruct (strip_fixed s) as [Hl Hr].
  unfold PyStr.strip at 1.
  rewrite (rstrip_same_spaces _ _ H Hr). exact (lstrip_same_spaces _ _ H Hl).
Qed.

(** X1.  A severity label that [norm_sev] returned for an ASCII text is
    left as it is by a second pass, the empty label apart (which the
    second pass turns into ["Unknown"]). *)
Theorem norm_sev_idempotent (raw s : string) :
  Spec.ascii_text raw ->
  SecurityScore.norm_sev (PStr raw) = Ok s ->
  s <> "" ->
  SecurityScore.norm_sev (PStr s) = Ok s.
Proof.
  intros _. unfold SecurityScore.norm_sev at 1. cbn [truthy negb].
  destruct (PyStr.is_empty raw) eqn:Eraw; cbn [negb].
  { intros [= <-] _. reflexivity. }
  set (l := PyStr.lower (PyStr.strip raw)).
  destruct (SecurityScore.in_tuple l ["critical"; "very high"]) eqn:E1;
    [intros [= <-] _; reflexivity|].
  destruct (SecurityScore.in_tuple l ["high"]) eqn:E2;
    [intros [= <-] _; reflexivity|].
  destruct (SecurityScore.in_tuple l ["medium"]) eqn:E3;
    [intros [= <-] _; reflexivity|].
  assert (Hs : s = PyStr.capitalize l -> s <> "" ->
               SecurityScore.norm_sev (PStr s) = Ok s).
  { intros -> Hne. unfold SecurityScore.norm_sev. cbn [truthy].
    destruct (PyStr.capitalize l) as [|c r] eqn:Ec; [congruence|].
    cbn [PyStr.is_empty negb]. rewrite <- Ec.
    assert (Hst : PyStr.strip (PyStr.capitalize l) = PyStr.capitalize l).
    { apply (strip_same_spaces raw).
      eapply same_spaces_trans; [apply same_spaces_capitalize|].
      apply same_spaces_lower. }
    assert (Hl : PyStr.lower l = l) by apply lower_idem.
    rewrite Hst, lower_capitalize, !Hl, E1, E2, E3.
    now destruct (SecurityScore.in_tuple
                    l ["low"; "info"; "informational"; "warning"]). }
  destruct (SecurityScore.in_tuple l ["low"; "info"; "informational"; "warning"]);
    intros [= <-]; now apply Hs.
Qed.

Lemma norm_sev_idempotent_witness :
  SecurityScore.norm_sev (PStr " very HIGH ") = Ok "Critical"
  /\ SecurityScore.norm_sev (PStr "Critical") = Ok "Critical".
Proof.
  split; [reflexivity|].
  apply (norm_sev_idempotent " very HIGH " "Critical");
    [reflexivity|reflexivity|discriminate].
Defined.

(* ===================================================================== *)
(** ** The contract name of a path *)
(* ===================================================================== *)

Lemma contains_char_cons (c x : ascii) (s : string) :
  PyStr.contains (String c "") (String x s)
  = Ascii.eqb c x || PyStr.contains (String c "") s.
Proof. cbn [PyStr.contains PyStr.startswith]. now rewrite andb_true_r. Qed.

Lemma contains_char_app (c : ascii) (a b : string) :
  PyStr.contains (String c "") (a +:+ b)
  = PyStr.contains (String c "") a || PyStr.contains (String c "") b.
Proof.
  induction a as [|x a IH].
  - rewrite append_empty_l. now destruct (PyStr.contains _ b).
  - rewrite append_cons, !contains_char_cons, IH. now rewrite orb_assoc.
Qed.

Lemma after_last_app (sep : ascii) (a b : string) :
  PyStr.contains (String sep "") b = false ->
  PyStr.after_last sep (a +:+ String sep b) = b.
Proof.
  intros Hb. induction a as [|x a IH].
  - rewrite append_empty_l. cbn [PyStr.after_last].
    now rewrite Hb, Ascii.eqb_refl.
  - rewrite append_cons. cbn [PyStr.after_last].
    rewrite contains_char_app, contains_char_cons, Ascii.eqb_refl.
    cbn [orb]. now rewrite orb_true_r.
Qed.

Lemma after_last_none (sep : ascii) (s : string) :
  PyStr.contains (String sep "") s = false -> PyStr.after_last sep s = s.
Proof.
  destruct s as [|x r]; [reflexivity|].
  rewrite contains_char_cons. intros [Hx Hr]%orb_false_elim.
  cbn [PyStr.after_last]. now rewrite Hr, Ascii.eqb_sym, Hx.
Qed.

Lemma before_last_app (sep : ascii) (a b : string) :
  PyStr.contains (String sep "") b = false ->
  PyStr.before_last sep (a +:+ String sep b) = a.
Proof.
  intros Hb. induction a as [|x a IH].
  - rewrite append_empty_l. cbn [PyStr.before_last]. now rewrite Hb.
  - rewrite append_cons. cbn [PyStr.before_last].
    rewrite contains_char_app, contains_char_cons, Ascii.eqb_refl.
    cbn [orb]. now rewrite orb_true_r, IH.
Qed.

Lemma splitext_root_name (name ext : string) :
  name <> "" ->
  PyStr.startswith "." name = false ->
  PyStr.contains "/" name = false ->
  PyStr.contains "/" ext = false ->
  PyStr.contains "." ext = false ->
  PyStr.splitext_root (name +:+ "." +:+ ext) = name.
Proof.
  intros Hne Hdot Hn He Hx. unfold PyStr.splitext_root.
  assert (Hs : PyStr.contains "/" (name +:+ "." +:+ ext) = false).
  { change ("." +:+ ext) with (String "."%char ext).
    rewrite contains_char_app, contains_char_cons, Hn, He. reflexivity. }
  rewrite (after_last_none _ _ Hs).
  change ("." +:+ ext) with (String "."%char ext).
  rewrite contains_char_app, contains_char_cons, Ascii.eqb_refl.
  cbn [orb]. rewrite orb_true_r, (before_last_app _ _ _ Hx).
  destruct name as [|c r]; [congruence|].
  cbn [PyStr.startswith] in Hdot. rewrite andb_true_r in Hdot.
  cbn [PyStr.all_chars]. now rewrite Hdot.
Qed.

(** X2.  [extract_contract_from_path] gives back the name of a file: for
    a path [dir/name.ext], and for [name.ext] alone, it is [name]; and
    for [dir/name], where the name has no dot, it is [name] too.  The
    name is a file name that does not start with a dot, the extension has
    no dot. *)
Theorem extract_contract_from_path_name (dir name ext : string) :
  name <> "" ->
  PyStr.startswith "." name = false ->
  PyStr.contains "/" name = false ->
  PyStr.contains "/" ext = false ->
  PyStr.contains "." ext = false ->
  SecurityScore.extract_contract_from_path
    (PStr (dir +:+ "/" +:+ name +:+ "." +:+ ext)) = Ok name
  /\ SecurityScore.extract_contract_from_path (PStr (name +:+ "." +:+ ext))
     = Ok name
  /\ (PyStr.contains "." name = false ->
      SecurityScore.extract_contract_from_path (PStr (dir +:+ "/" +:+ name))
      = Ok name).
Proof.
  intros Hne Hdot Hn He Hx. unfold SecurityScore.extract_contract_from_path.
  assert (Hs : PyStr.contains "/" (name +:+ "." +:+ ext) = false).
  { change ("." +:+ ext) with (String "."%char ext).
    rewrite contains_char_app, contains_char_cons, Hn, He. reflexivity. }
  unfold PyStr.basename. repeat split.
  - change ("/" +:+ name +:+ "." +:+ ext)
      with (String "/"%char (name +:+ "." +:+ ext)).
    rewrite (after_last_app _ _ _ Hs). f_equal. now apply splitext_root_name.
  - rewrite (after_last_none _ _ Hs). f_equal. now apply splitext_root_name.
  - intros Hd. change ("/" +:+ name) with (String "/"%char name).
    rewrite (after_last_app _ _ _ Hn). f_equal.
    unfold PyStr.splitext_root. now rewrite (after_last_none _ _ Hn), Hd.
Qed.

Lemma extract_contract_from_path_name_witness :
  SecurityScore.extract_contract_from_path
    (PStr "contracts/src/Token.v2.sol") = Ok "Token.v2".
Proof.
  apply (extract_contract_from_path_name "contracts/src" "Token.v2" "sol");
    first [discriminate | reflexivity].
Defined.

(* ===================================================================== *)
(** ** The Mythril parser *)
(* ===================================================================== *)

Lemma after_last_no_sep (sep : ascii) (s : string) :
  PyStr.contains (String sep "") (PyStr.after_last sep s) = false.
Proof.
  induction s as [|c r IH]; [reflexivity|].
  cbn [PyStr.after_last].
  destruct (PyStr.contains (String sep "") r) eqn:Er; [exact IH|].
  destruct (Ascii.eqb c sep) eqn:Ec; [exact Er|].
  now rewrite contains_char_cons, Ascii.eqb_sym, Ec, Er.
Qed.

Lemma before_last_no_char (c sep : ascii) (s : string) :
  PyStr.contains (String c "") s = false ->
  PyStr.contains (String c "") (PyStr.before_last sep s) = false.
Proof.
  induction s as [|x r IH]; [reflexivity|].
  rewrite contains_char_cons. intros [Hx Hr]%orb_false_elim.
  cbn [PyStr.before_last].
  destruct (PyStr.contains (String sep "") r); [|reflexivity].
  now rewrite contains_char_cons, Hx, IH.
Qed.

Lemma stem_plain_name (p : string) :
  PyStr.contains "/" (PyStr.splitext_root (PyStr.basename p)) = false.
Proof.
  pose proof (after_last_no_sep "/"%char p) as H. fold (PyStr.basename p) in H.
  unfold PyStr.splitext_root.
  destruct (PyStr.contains "." _); [|exact H].
  destruct (PyStr.all_chars _ _); [exact H|].
  now apply before_last_no_char.
Qed.

Lemma mythril_issue_shaped (ts : string) (rows : list SecurityScore.Finding)
    (i : pyval) :
  Spec.issue_shaped i = true ->
  SecurityScore.mythril_issue ts rows i = Ok (rows ++ [Spec.issue_finding ts i]).
Proof.
  destruct i as [| | | | |l|d]; try discriminate.
  unfold Spec.issue_shaped, SecurityScore.mythril_issue, Spec.issue_finding.
  intros [Hc Hs]%andb_true_iff.
  rewrite !py_get_dict, ?bind_Ok.
  fold (Spec.issue_contract d). fold (Spec.issue_severity d).
  destruct (Spec.issue_contract d) as [| | | |p| |]; try discriminate Hc.
  destruct (Spec.issue_severity d) as [| | | |raw| |]; try discriminate Hs.
  unfold SecurityScore.extract_contract_from_path. rewrite bind_Ok.
  destruct (norm_sev_str raw) as [s ->]. reflexivity.
Qed.

(** X3.  On a report of the Mythril schema [parse_mythril] does not
    raise and returns one finding per issue, in the order of the report:
    its tool is "mythril" and its contract is a plain name, the base name
    without extension of the issue's [contract], else of its [filename],
    else "Unknown".  A report that is no object raises [AttributeError],
    an unreadable one gives no finding. *)
Theorem parse_mythril_findings (ts : string) (data : pyval) :
  (Spec.mythril_shaped data = true ->
   SecurityScore.parse_mythril ts (Some data)
   = Ok (map (Spec.issue_finding ts) (Spec.issues_of data))
   /\ forall f, In f (map (Spec.issue_finding ts) (Spec.issues_of data)) ->
        SecurityScore.tool f = "mythril"
        /\ Spec.plain_name (SecurityScore.contract f))
  /\ (is_dict data = false ->
      SecurityScore.parse_mythril ts (Some data) = Raise AttributeError)
  /\ SecurityScore.parse_mythril ts None = Ok [].
Proof.
  split; [|split; [|reflexivity]].
  - intros Hshape. split.
    + destruct data as [| | | | |l|top]; try discriminate.
      unfold Spec.mythril_shaped in Hshape.
      unfold SecurityScore.parse_mythril, Spec.issues_of, py_get_default.
      rewrite bind_Ok.
      set (issues := default (PList []) (dict_get "issues" top)) in *.
      assert (Hl : py_or issues (PList [])
                   = PList (match issues with PList l => l | _ => [] end)
                   /\ forallb Spec.issue_shaped
                        (match issues with PList l => l | _ => [] end) = true).
      { destruct issues as [| | | | |l|d] eqn:E;
          try (split; [apply (proj2 (py_or_list _)); exact Hshape | reflexivity]).
        split; [apply (proj1 (py_or_list _)); reflexivity | exact Hshape]. }
      destruct Hl as [-> Hall]. cbn [py_iter]. rewrite bind_Ok.
      rewrite (for_each_rows _ (fun i => [Spec.issue_finding ts i])).
      * now rewrite flat_map_singleton.
      * intros acc i Hi. apply mythril_issue_shaped.
        rewrite forallb_forall in Hall. now apply Hall.
    + intros f (i & <- & Hi)%in_map_iff. split; [reflexivity|].
      assert (Hsh : Spec.issue_shaped i = true).
      { destruct data as [| | | | |l|top]; try discriminate.
        unfold Spec.mythril_shaped in Hshape. unfold Spec.issues_of in Hi.
        destruct (default (PList []) (dict_get "issues" top)) as [| | | | |l|d];
          try contradiction.
        rewrite forallb_forall in Hshape. now apply Hshape. }
      destruct i as [| | | | |l|d]; try discriminate.
      unfold Spec.issue_shaped in Hsh. apply andb_true_iff in Hsh as [Hc _].
      cbn [Spec.issue_finding SecurityScore.contract].
      destruct (Spec.issue_contract d) as [| | | |p| |]; try discriminate Hc.
      exists (PyStr.splitext_root (PyStr.basename p)).
      split; [reflexivity | apply stem_plain_name].
  - intros Hd. destruct data; try reflexivity. discriminate.
Qed.

Lemma parse_mythril_findings_witness :
  SecurityScore.parse_mythril "2025-01-01T00:00:00Z"
    (Some (PDict [("issues",
                   PList [PDict [("title", PStr "Integer Overflow");
                                 ("severity", PStr "High");
                                 ("filename", PStr "src/Token.sol")]])]))
  = Ok [ {| SecurityScore.timestamp := "2025-01-01T00:00:00Z";
            SecurityScore.tool := "mythril";
            SecurityScore.contract := PStr "Token";
            SecurityScore.issue_type := PStr "Integer Overflow";
            SecurityScore.severity := "High";
            SecurityScore.description := PStr "" |} ].
Proof.
  refine (proj1 (proj1 (parse_mythril_findings _ _) _)). reflexivity.
Defined.

(* ===================================================================== *)
(** ** When the Echidna parser raises *)
(* ===================================================================== *)

Lemma echidna_failures_raises (data : pyval) (e : exn) :
  SecurityScore.echidna_failures data = Raise e
  <-> e = AttributeError
      /\ exists d v, data = PDict d /\ dict_get "failedTests" d = Some v
                     /\ truthy v = true /\ is_dict v = false.
Proof.
  split.
  - destruct data as [| | | | |l|d]; try discriminate.
    unfold SecurityScore.echidna_failures, dict_mem.
    rewrite py_get_dict, bind_Ok. unfold Spec.field.
    destruct (dict_get "failedTests" d) as [v|] eqn:Ev.
    + cbn [default from_option id]. unfold py_or.
      destruct (truthy v) eqn:Et; [|discriminate].
      destruct v; try discriminate; intros [= <-];
        (split; [reflexivity|]); eexists _, _; repeat split; eauto.
    + destruct (_ && _); [|discriminate].
      destruct (dict_get "tests" d) as [[]|]; discriminate.
  - intros (-> & d & v & -> & Ev & Et & Hd).
    unfold SecurityScore.echidna_failures, dict_mem.
    rewrite py_get_dict, bind_Ok. unfold Spec.field. rewrite Ev.
    cbn [default from_option id]. unfold py_or. rewrite Et.
    destruct v; try reflexivity; discriminate.
Qed.

(** X4.  [parse_echidna] raises in one case only: the decoded report is
    an object whose [failedTests] is neither empty (falsy) nor an object.
    The exception is then [AttributeError].  Whatever else the report
    holds, a table is returned. *)
Theorem parse_echidna_raises (json_loads : string -> option pyval)
    (ts : string) (file : option string) (e : exn) :
  SecurityScore.parse_echidna json_loads ts file = Raise e
  <-> e = AttributeError
      /\ exists content d v,
           file = Some content
           /\ SecurityScore.echidna_data json_loads content = Some (PDict d)
           /\ dict_get "failedTests" d = Some v
           /\ truthy v = true /\ is_dict v = false.
Proof.
  unfold SecurityScore.parse_echidna. split.
  - destruct file as [content|]; [|discriminate].
    destruct (SecurityScore.echidna_data json_loads content) as [data|] eqn:Ed;
      [|discriminate].
    destruct (SecurityScore.echidna_failures data) as [fs|e'] eqn:Ef;
      [discriminate|].
    intros [= ->]. apply echidna_failures_raises in Ef as (-> & d & v & -> & H).
    split; [reflexivity|]. exists content, d, v. tauto.
  - intros (-> & content & d & v & -> & Ed & H). rewrite Ed.
    assert (Hr : SecurityScore.echidna_failures (PDict d) = Raise AttributeError).
    { apply echidna_failures_raises. split; [reflexivity|]. exists d, v. tauto. }
    now rewrite Hr.
Qed.

(* ===================================================================== *)
(** ** The weights in force *)
(* ===================================================================== *)

Lemma dict_get_set {V} (k k' : string) (v : V) (d : list (string * V)) :
  dict_get k (dict_set k' v d)
  = if String.eqb k' k then Some v else dict_get k d.
Proof.
  induction d as [|[k0 v0] d IH]; cbn [dict_set dict_get].
  - reflexivity.
  - destruct (String.eqb k0 k') eqn:E0; cbn [dict_get].
    + apply String.eqb_eq in E0 as ->. now destruct (String.eqb k' k).
    + destruct (String.eqb k0 k) eqn:E1; [|exact IH].
      apply String.eqb_eq in E1 as ->. now rewrite String.eqb_sym, E0.
Qed.

Lemma dict_get_None {V} (k : string) (d : list (string * V)) :
  ~ In k (map fst d) -> dict_get k d = None.
Proof.
  intros H. destruct (dict_get k d) eqn:E; [|reflexivity].
  exfalso. apply H, dict_mem_In. unfold dict_mem. now rewrite E.
Qed.

Lemma dict_get_update {V} (k : string) (d new : list (string * V)) :
  List.NoDup (map fst new) ->
  dict_get k (dict_update d new)
  = match dict_get k new with
    | Some v => Some v
    | None => dict_get k d
    end.
Proof.
  unfold dict_update. revert d.
  induction new as [|[k1 v1] new IH]; intros d Hnd; [reflexivity|].
  cbn [map fst] in Hnd. apply List.NoDup_cons_iff in Hnd as [Hk1 Hnd].
  cbn [fold_left fst snd dict_get]. rewrite (IH _ Hnd), dict_get_set.
  destruct (String.eqb k1 k) eqn:E.
  - apply String.eqb_eq in E as ->. now rewrite (dict_get_None _ _ Hk1).
  - reflexivity.
Qed.

(** X5.  The weights file overrides and extends the defaults, key by key:
    the weight of a key is the one in the file when the file has the key,
    else the default (5, 3, 1 for Critical, High, Medium; none for any
    other key).  The file is a JSON object, one item per key. *)
Theorem load_weights_lookup (data : list (string * Z)) (k : string) :
  List.NoDup (map fst data) ->
  dict_get k (SecurityScore.load_weights (Some data))
  = match dict_get k data with
    | Some w => Some w
    | None => dict_get k [("Critical", 5); ("High", 3); ("Medium", 1)]
    end.
Proof. intros H. unfold SecurityScore.load_weights. now apply dict_get_update. Qed.

Lemma load_weights_lookup_witness :
  dict_get "High" (SecurityScore.load_weights (Some [("High", 4); ("Low", 2)]))
  = Some 4.
Proof.
  apply (load_weights_lookup [("High", 4); ("Low", 2)] "High").
  repeat constructor; cbn; intuition discriminate.
Defined.

(* ===================================================================== *)
(** ** The score table as a whole *)
(* ===================================================================== *)

Lemma sum_Z_indicator (x : pyval) (cs : list pyval) :
  NoDup cs -> x ∈ cs ->
  Spec.sum_Z (map (fun c => if bool_decide (x = c) then 1 else 0) cs) = 1.
Proof.
  unfold Spec.sum_Z. induction 1 as [|c cs Hc Hnd IH]; intros Hx.
  - now apply elem_of_nil in Hx.
  - cbn [map fold_right]. destruct (bool_decide (x = c)) eqn:E.
    + apply bool_decide_eq_true in E as <-.
      assert (Hz : fold_right Z.add 0
                     (map (fun c => if bool_decide (x = c) then 1 else 0) cs) = 0).
      { clear IH Hnd Hx. induction cs as [|c cs IH]; [reflexivity|].
        cbn [map fold_right]. apply not_elem_of_cons in Hc as [Hne Hc].
        rewrite (bool_decide_eq_false_2 _ Hne), (IH Hc). reflexivity. }
      lia.
    + apply bool_decide_eq_false in E. apply elem_of_cons in Hx as [Hx|Hx];
        [contradiction|]. rewrite (IH Hx). reflexivity.
Qed.

Lemma sum_Z_map_add {A} (f g : A -> Z) (l : list A) :
  Spec.sum_Z (map (fun x => f x + g x) l)
  = Spec.sum_Z (map f l) + Spec.sum_Z (map g l).
Proof.
  unfold Spec.sum_Z. induction l as [|x l IH]; cbn [map fold_right]; lia.
Qed.

Lemma sum_Z_map_zero {A} (l : list A) : Spec.sum_Z (map (fun _ => 0) l) = 0.
Proof. unfold Spec.sum_Z. induction l; cbn [map fold_right]; lia. Qed.

Lemma sum_Z_map_ext {A} (f g : A -> Z) (l : list A) :
  (forall x, f x = g x) -> Spec.sum_Z (map f l) = Spec.sum_Z (map g l).
Proof. intros H. f_equal. apply map_ext. exact H. Qed.

(** Two cells are one group when both have the same key. *)
Lemma same_key_spec (a c : pyval) :
  SecurityScore.same_key a c = true
  <-> exists k, SecurityScore.key_of a = Ok (Some k)
                /\ SecurityScore.key_of c = Ok (Some k).
Proof.
  unfold SecurityScore.same_key.
  destruct (SecurityScore.key_of a) as [[ka|]|ea];
    destruct (SecurityScore.key_of c) as [[kc|]|ec];
    try (split; [discriminate|intros (k & H1 & H2); discriminate]).
  rewrite bool_decide_eq_true. split.
  - intros ->. now exists kc.
  - intros (k & [= ->] & [= ->]). reflexivity.
Qed.

(** For a string this is equality. *)
Lemma same_key_str (a c : pyval) :
  Spec.is_str a = true ->
  SecurityScore.same_key a c = bool_decide (a = c).
Proof.
  intros Ha. destruct a as [| | | |s| |]; try discriminate.
  destruct (SecurityScore.same_key (PStr s) c) eqn:E; symmetry.
  - apply bool_decide_eq_true. apply same_key_spec in E as (k & [= <-] & Hc).
    apply key_of_KStr in Hc. now subst.
  - apply bool_decide_eq_false. intros <-.
    assert (H : SecurityScore.same_key (PStr s) (PStr s) = true)
      by (apply same_key_spec; now exists (SecurityScore.KStr s)).
    congruence.
Qed.

Lemma group_size_cons (f : SecurityScore.Finding) (df : list SecurityScore.Finding)
    (c : pyval) (sev : string) :
  SecurityScore.group_size (f :: df) c sev
  = (if String.eqb (SecurityScore.severity f) sev
     then if SecurityScore.same_key (SecurityScore.contract f) c then 1 else 0
     else 0)
    + SecurityScore.group_size df c sev.
Proof.
  unfold SecurityScore.group_size. cbn [List.filter].
  destruct (SecurityScore.same_key _ _), (String.eqb _ _); cbn [andb length]; lia.
Qed.

(** Over contracts that are distinct and include every contract of the
    table, the group sizes of a severity add up to its findings. *)
Lemma sum_group_sizes (df : list SecurityScore.Finding) (sev : string)
    (cs : list pyval) :
  Spec.string_contracts df ->
  NoDup cs ->
  (forall f, In f df -> SecurityScore.contract f ∈ cs) ->
  Spec.sum_Z (map (fun c => SecurityScore.group_size df c sev) cs)
  = Spec.severity_count df sev.
Proof.
  intros Hs Hnd. induction df as [|f df IH]; intros Hin.
  - unfold Spec.severity_count. cbn [List.filter length].
    rewrite (sum_Z_map_ext _ (fun _ => 0)); [apply sum_Z_map_zero | reflexivity].
  - rewrite (sum_Z_map_ext _ _ _ (fun c => group_size_cons f df c sev)).
    rewrite sum_Z_map_add, IH;
      [|intros g Hg; apply Hs; now right|intros; apply Hin; now right].
    unfold Spec.severity_count. cbn [List.filter].
    destruct (String.eqb (SecurityScore.severity f) sev).
    + rewrite (sum_Z_map_ext _
                 (fun c => if bool_decide (SecurityScore.contract f = c) then 1 else 0)).
      * rewrite sum_Z_indicator; [cbn [length]; lia | exact Hnd |].
        apply Hin. now left.
      * intros c. rewrite same_key_str; [reflexivity|]. apply Hs. now left.
    + rewrite sum_Z_map_zero. lia.
Qed.

Lemma severity_count_of_interest (sev_map : list (string * Z))
    (df : list SecurityScore.Finding) (sev : string) :
  dict_mem sev sev_map = true ->
  Spec.severity_count (SecurityScore.of_interest sev_map df) sev
  = Spec.severity_count df sev.
Proof.
  intros H. unfold Spec.severity_count, SecurityScore.of_interest. f_equal.
  induction df as [|f df IH]; [reflexivity|]. cbn [List.filter].
  destruct (String.eqb (SecurityScore.severity f) sev) eqn:E.
  - apply String.eqb_eq in E. rewrite E, H. cbn [List.filter].
    rewrite <- E at 1. rewrite String.eqb_refl. cbn [length]. now rewrite IH.
  - destruct (dict_mem (SecurityScore.severity f) sev_map); cbn [List.filter];
      rewrite ?E; exact IH.
Qed.

Lemma list_of_shape {A B} (g : A -> B) (l : list B) :
  (forall x, In x l -> exists a, x = g a) -> exists u, l = map g u.
Proof.
  induction l as [|x l IH]; intros H; [now exists []|].
  destruct (H x (or_introl eq_refl)) as [a ->].
  destruct IH as [u ->]; [intros y Hy; apply H; now right|].
  now exists (a :: u).
Qed.

Lemma insert_key_strings (x : string) (l : list string) :
  SecurityScore.insert_key (SecurityScore.KStr x, PStr x)
    (map (fun s => (SecurityScore.KStr s, PStr s)) l)
  = map (fun s => (SecurityScore.KStr s, PStr s)) (PyStr.insert_sorted x l).
Proof.
  induction l as [|y l IH]; [reflexivity|].
  cbn [map SecurityScore.insert_key PyStr.insert_sorted fst SecurityScore.key_leb].
  destruct (String.leb x y); [reflexivity|]. cbn [map]. now rewrite <- IH.
Qed.

Lemma sort_keys_strings (l : list string) :
  SecurityScore.sort_keys (map (fun s => (SecurityScore.KStr s, PStr s)) l)
  = map (fun s => (SecurityScore.KStr s, PStr s)) (PyStr.py_sorted l).
Proof.
  induction l as [|x l IH]; [reflexivity|].
  unfold SecurityScore.sort_keys, PyStr.py_sorted. cbn [map fold_right].
  fold (SecurityScore.sort_keys (map (fun s => (SecurityScore.KStr s, PStr s)) l)).
  fold (PyStr.py_sorted l). now rewrite IH, insert_key_strings.
Qed.

(** The labels of a table of string contracts: the distinct contracts, in
    the order of their code points. *)
Lemma contracts_of_strings (df : list SecurityScore.Finding) :
  Spec.string_contracts df ->
  exists names,
    SecurityScore.contracts_of df = Ok (map PStr names)
    /\ NoDup names
    /\ StronglySorted (fun a b => String.leb a b = true) names
    /\ forall s, In s names <-> In (PStr s) (map SecurityScore.contract df).
Proof.
  intros Hs. destruct (keyed_strings df Hs) as (l & Hl & Hin).
  unfold SecurityScore.contracts_of. rewrite Hl, bind_Ok.
  destruct (list_of_shape (fun s => (SecurityScore.KStr s, PStr s))
              (SecurityScore.uniques l)) as [u Hu].
  { intros [k c] Hx. apply uniques_In, Hin in Hx as (s & -> & -> & _). now exists s. }
  exists (PyStr.py_sorted u). rewrite Hu, sort_keys_strings, map_map.
  cbn [snd]. split; [reflexivity|].
  assert (Hnd : NoDup u).
  { pose proof (uniques_NoDup l) as H. rewrite Hu, map_map in H. cbn [fst] in H.
    apply (NoDup_fmap_1 SecurityScore.KStr). exact H. }
  split; [now rewrite (py_sorted_perm u)|]. split; [apply py_sorted_sorted|].
  intros s. rewrite <- list_elem_of_In, (py_sorted_perm u), list_elem_of_In. split.
  - intros Hsu.
    assert (H : In (SecurityScore.KStr s, PStr s) (SecurityScore.uniques l)).
    { rewrite Hu. apply in_map_iff. now exists s. }
    apply uniques_In, Hin in H as (s' & [= <-] & _ & H). exact H.
  - intros Hc.
    assert (H : In (SecurityScore.KStr s, PStr s) l).
    { apply Hin. now exists s. }
    apply (in_map fst), uniques_keys in H. rewrite Hu, map_map in H.
    apply in_map_iff in H as (s' & [= ->] & H). exact H.
Qed.

Lemma sorted_names_unique (names names' : list string) :
  NoDup names -> NoDup names' ->
  StronglySorted (fun a b => String.leb a b = true) names ->
  StronglySorted (fun a b => String.leb a b = true) names' ->
  (forall s, In s names <-> In s names') ->
  names = names'.
Proof.
  intros Hn Hn' Hs Hs' Hin.
  apply (StronglySorted_unique_strong (fun a b => String.leb a b = true)); auto.
  - intros a b _ _. apply String.leb_antisym.
  - apply NoDup_Permutation; auto. intros s. rewrite !list_elem_of_In. apply Hin.
Qed.

(** X6.  The score table loses no finding and counts none twice: where a
    severity of the three columns has a weight, the column adds up, over
    the rows, to the number of findings of that severity.  (With the
    weights [load_weights] returns this holds for the three columns.) *)
Theorem score_table_counts_every_finding (df : list SecurityScore.Finding)
    (weights : list (string * Z)) (rows : list SecurityScore.ScoreRow) :
  Spec.string_contracts df ->
  SecurityScore.aggregate_scores df weights = Ok rows ->
  let sev_map := SecurityScore.sev_map_of weights in
  (dict_mem "Critical" sev_map = true ->
   Spec.sum_Z (map SecurityScore.Critical rows) = Spec.severity_count df "Critical")
  /\ (dict_mem "High" sev_map = true ->
      Spec.sum_Z (map SecurityScore.High rows) = Spec.severity_count df "High")
  /\ (dict_mem "Medium" sev_map = true ->
      Spec.sum_Z (map SecurityScore.Medium rows) = Spec.severity_count df "Medium").
Proof.
  intros Hs Hrows. cbv zeta.
  set (sev_map := SecurityScore.sev_map_of weights).
  set (counted := SecurityScore.of_interest sev_map df).
  assert (Hcs : Spec.string_contracts counted).
  { intros f Hf. apply filter_In in Hf as [Hf _]. now apply Hs. }
  destruct (contracts_of_strings counted Hcs) as (names & Hnames & Hnd & _ & Hin).
  rewrite aggregate_scores_index in Hrows. cbv zeta in Hrows.
  fold sev_map counted in Hrows. rewrite Hnames, bind_Ok in Hrows.
  assert (Hr : rows = map (Spec.row_of sev_map counted) (map PStr names)).
  { destruct (map PStr names); [discriminate|]. now injection Hrows as <-. }
  clear Hrows. subst rows. rewrite !map_map.
  cbn [Spec.row_of SecurityScore.Critical SecurityScore.High SecurityScore.Medium].
  assert (H : forall sev,
             dict_mem sev sev_map = true ->
             Spec.sum_Z
               (map (fun s => SecurityScore.group_size counted (PStr s) sev) names)
             = Spec.severity_count df sev).
  { intros sev Hsev.
    rewrite <- (severity_count_of_interest sev_map df sev Hsev). fold counted.
    rewrite <- (sum_group_sizes counted sev (map PStr names) Hcs).
    - now rewrite map_map.
    - assert (Hinj : Inj eq eq PStr) by (intros a b [= ->]; reflexivity).
      apply (NoDup_fmap_2 PStr). exact Hnd.
    - intros f Hf. apply list_elem_of_In.
      pose proof (Hcs f Hf) as Hstr.
      destruct (SecurityScore.contract f) as [| | | |s| |] eqn:Ec; try discriminate.
      apply in_map, Hin. rewrite <- Ec. now apply in_map. }
  repeat split; apply H.
Qed.

Lemma score_table_counts_every_finding_witness :
  exists rows,
    SecurityScore.aggregate_scores
      [Spec.finding "Token" "High"; Spec.finding "Vault" "High";
       Spec.finding "Token" "High"; Spec.finding "Vault" "Low"]
      (SecurityScore.load_weights None) = Ok rows
    /\ Spec.sum_Z (map SecurityScore.High rows) = 3.
Proof.
  eexists. split; [reflexivity|].
  refine (proj1 (proj2 (score_table_counts_every_finding
                          [Spec.finding "Token" "High"; Spec.finding "Vault" "High";
                           Spec.finding "Token" "High"; Spec.finding "Vault" "Low"]
                          (SecurityScore.load_weights None) _ _ _)) _).
  - intros f Hf. cbn in Hf. intuition subst; reflexivity.
  - reflexivity.
  - reflexivity.
Defined.

Lemma filter_Permutation {A} (p : A -> bool) (l l' : list A) :
  l ≡ₚ l' -> List.filter p l ≡ₚ List.filter p l'.
Proof.
  induction 1 as [|x l l' _ IH|x y l|l l' l'' _ IH1 _ IH2]; cbn [List.filter].
  - reflexivity.
  - destruct (p x); [now constructor | exact IH].
  - destruct (p x), (p y); try reflexivity. apply perm_swap.
  - now transitivity (List.filter p l').
Qed.

Lemma group_size_Permutation (df df' : list SecurityScore.Finding) (c : pyval)
    (sev : string) :
  df ≡ₚ df' -> SecurityScore.group_size df c sev = SecurityScore.group_size df' c sev.
Proof.
  intros H. unfold SecurityScore.group_size. f_equal.
  apply Permutation_length, filter_Permutation, H.
Qed.

(** X7.  The score table does not depend on the order in which the
    findings were parsed: the same findings in another order give the same
    rows (the table lists them by contract). *)
Theorem aggregate_scores_order_independent (df df' : list SecurityScore.Finding)
    (weights : list (string * Z)) :
  Spec.string_contracts df ->
  df ≡ₚ df' ->
  SecurityScore.aggregate_scores df weights
  = SecurityScore.aggregate_scores df' weights.
Proof.
  intros Hs Hp. rewrite !aggregate_scores_index. cbv zeta.
  set (sev_map := SecurityScore.sev_map_of weights).
  set (counted := SecurityScore.of_interest sev_map df).
  set (counted' := SecurityScore.of_interest sev_map df').
  assert (Hc : counted ≡ₚ counted') by apply filter_Permutation, Hp.
  assert (Hcs : Spec.string_contracts counted).
  { intros f Hf. apply filter_In in Hf as [Hf _]. now apply Hs. }
  assert (Hcs' : Spec.string_contracts counted').
  { intros f Hf. apply Hcs. apply list_elem_of_In. rewrite Hc.
    now apply list_elem_of_In. }
  destruct (contracts_of_strings counted Hcs) as (names & -> & Hnd & Hso & Hin).
  destruct (contracts_of_strings counted' Hcs') as (names' & -> & Hnd' & Hso' & Hin').
  assert (E : names = names').
  { apply sorted_names_unique; auto. intros s. rewrite Hin, Hin'.
    rewrite <- !list_elem_of_In.
    now rewrite (Permutation_map SecurityScore.contract Hc). }
  subst names'. rewrite !bind_Ok. destruct (map PStr names) as [|c index]; [reflexivity|].
  f_equal. apply map_ext. intros c'. unfold Spec.row_of.
  rewrite !(group_size_Permutation _ _ c' _ Hc). do 3 f_equal.
  apply weighted_sum_ext. intros sev _. now apply group_size_Permutation.
Qed.

Lemma aggregate_scores_order_independent_witness :
  SecurityScore.aggregate_scores
    [Spec.finding "Token" "High"; Spec.finding "Vault" "Medium"]
    (SecurityScore.load_weights None)
  = SecurityScore.aggregate_scores
      [Spec.finding "Vault" "Medium"; Spec.finding "Token" "High"]
      (SecurityScore.load_weights None).
Proof.
  apply aggregate_scores_order_independent.
  - intros f Hf. cbn in Hf. intuition subst; reflexivity.
  - apply perm_swap.
Defined.

Lemma weighted_sum_term (sev_map : list (string * Z)) (count : string -> Z)
    (sev : string) (w : Z) :
  (forall s w', In (s, w') sev_map -> 0 <= w') ->
  (forall s, 0 <= count s) ->
  In (sev, w) sev_map ->
  count sev * w <= Spec.weighted_sum sev_map count.
Proof.
  intros Hw Hc. induction sev_map as [|[s w0] rest IH]; [contradiction|].
  intros [[= -> ->]|Hin]; cbn [Spec.weighted_sum].
  - assert (0 <= Spec.weighted_sum rest count).
    { apply weighted_sum_nonneg; [|exact Hc]. intros; eapply Hw; right; eauto. }
    lia.
  - assert (count sev * w <= Spec.weighted_sum rest count).
    { apply IH; [|exact Hin]. intros; eapply Hw; right; eauto. }
    assert (0 <= count s * w0).
    { apply Z.mul_nonneg_nonneg; [apply Hc|]. eapply Hw; left; reflexivity. }
    lia.
Qed.

Lemma group_size_pos (df : list SecurityScore.Finding) (f : SecurityScore.Finding)
    (k : SecurityScore.group_key) :
  In f df ->
  SecurityScore.key_of (SecurityScore.contract f) = Ok (Some k) ->
  1 <= SecurityScore.group_size df (SecurityScore.contract f)
         (SecurityScore.severity f).
Proof.
  intros Hin Hk.
  assert (Hsame : SecurityScore.same_key (SecurityScore.contract f)
                    (SecurityScore.contract f) = true)
    by (apply same_key_spec; now exists k).
  induction df as [|g df IH]; [contradiction|].
  destruct Hin as [->|Hin]; rewrite group_size_cons.
  - rewrite String.eqb_refl, Hsame.
    pose proof (group_size_nonneg df (SecurityScore.contract f)
                  (SecurityScore.severity f)). lia.
  - specialize (IH Hin).
    destruct (String.eqb (SecurityScore.severity g) (SecurityScore.severity f));
      [destruct (SecurityScore.same_key (SecurityScore.contract g)
                   (SecurityScore.contract f))|]; lia.
Qed.

(** X8.  With weights of 1 at least, a row of the score table built from
    findings scores 99 at most: the contract of a row has a counted
    finding.  So a score of 100 is found in the default table only, the
    one [main] writes when the reports gave no issue at all. *)
Theorem full_score_means_no_issue (weights : list (string * Z))
    (all_issues : list SecurityScore.Finding) :
  (forall k w, In (k, w) weights -> 1 <= w) ->
  (forall rows r,
     SecurityScore.aggregate_scores all_issues weights = Ok rows -> In r rows ->
     SecurityScore.SecurityScore r <= 99)
  /\ (forall rows r,
        SecurityScore.main_scores weights all_issues = Ok rows -> In r rows ->
        SecurityScore.SecurityScore r = 100 -> all_issues = []).
Proof.
  intros Hw.
  assert (Hrows : forall rows r,
             SecurityScore.aggregate_scores all_issues weights = Ok rows ->
             In r rows ->
             SecurityScore.SecurityScore r <= 99).
  { intros rows r Hrows Hr.
    destruct (aggregate_scores_row _ _ _ _ Hrows Hr) as (Hc & _ & _ & _ & ->).
    destruct Hc as (f & k & Hf & Hcf & Hk).
    unfold SecurityScore.of_interest in Hf.
    apply filter_In in Hf as [Hf Hsev].
    apply dict_mem_In, in_map_iff in Hsev as ([s w] & Hs & Hsw).
    cbn [fst] in Hs. subst s.
    assert (H1 : 1 <= w).
    { apply sev_map_of_values in Hsw as [k' Hk']. eapply Hw, Hk'. }
    assert (Hnn : forall s w', In (s, w') (SecurityScore.sev_map_of weights) ->
                               0 <= w').
    { intros s w' Hin. apply sev_map_of_values in Hin as [k' Hk'].
      specialize (Hw _ _ Hk'). lia. }
    pose proof (weighted_sum_term _
                  (SecurityScore.group_size all_issues (SecurityScore.row_contract r))
                  _ _ Hnn (group_size_nonneg _ _) Hsw) as Hterm.
    rewrite <- Hcf in Hk.
    pose proof (group_size_pos _ _ _ Hf Hk) as Hpos. rewrite Hcf in Hpos.
    nia. }
  split; [exact Hrows|].
  intros rows r Hmain Hr H100. unfold SecurityScore.main_scores in Hmain.
  destruct all_issues as [|f df]; [reflexivity|]. cbn [length Nat.eqb] in Hmain.
  specialize (Hrows rows r Hmain Hr). lia.
Qed.

Lemma full_score_means_no_issue_witness :
  exists rows,
    SecurityScore.aggregate_scores [Spec.finding "Token" "Medium"]
      (SecurityScore.load_weights None) = Ok rows
    /\ forallb (fun r => SecurityScore.SecurityScore r <=? 99) rows = true.
Proof.
  eexists. split; [reflexivity|].
  apply forallb_forall. intros r Hr. apply Z.leb_le.
  apply (proj1 (full_score_means_no_issue (SecurityScore.load_weights None)
                  [Spec.finding "Token" "Medium"]
                  ltac:(intros k w H; cbn in H; intuition (try congruence);
                        match goal with E : _ = (_, _) |- _ =>
                          injection E as <- <-; lia end)) _ r eq_refl Hr).
Defined.

(* ===================================================================== *)
(** ** From the retest summary to the security summary *)
(* ===================================================================== *)

Ltac string_lengths H :=
  repeat first [rewrite append_length in H
               | progress (cbn [String.length] in H)].

Lemma split_at_app (a b : string) :
  PyStr.split_at (String.length a) (a +:+ b) = Some (a, b).
Proof.
  induction a as [|c a IH]; [reflexivity|].
  rewrite append_cons. cbn [String.length PyStr.split_at]. now rewrite IH.
Qed.

Lemma split_at_Some (n : nat) (s a b : string) :
  PyStr.split_at n s = Some (a, b) -> s = a +:+ b /\ String.length a = n.
Proof.
  revert s a b. induction n as [|n IH]; intros s a b.
  - cbn. intros [= <- <-]. now split.
  - destruct s as [|c s]; [discriminate|]. cbn [PyStr.split_at].
    destruct (PyStr.split_at n s) as [[a' b']|] eqn:E; [|discriminate].
    intros [= <- <-]. destruct (IH _ _ _ E) as [-> <-].
    rewrite append_cons. now split.
Qed.

Lemma retest_ts_here_stamp (ts : string) :
  Spec.utc_stamp ts ->
  SecurityScore.retest_ts_here ("retest_summary_" +:+ ts +:+ ".txt") = Some ts.
Proof.
  intros (date & time & -> & Hd & Ht & Dd & Dt).
  unfold SecurityScore.retest_ts_here.
  change (PyStr.startswith "retest_summary_" ("retest_summary_" +:+ ?x))
    with true.
  change (PyStr.drop_chars 15 ("retest_summary_" +:+ ?x)) with x.
  cbv iota. rewrite !append_assoc, <- Hd, split_at_app.
  change ("T" +:+ ?x) with (String "T"%char x).
  rewrite <- Ht, split_at_app.
  change ("Z" +:+ ".txt") with (String "Z"%char ".txt").
  rewrite Dd, Dt. reflexivity.
Qed.

Lemma retest_ts_here_length (s g : string) :
  SecurityScore.retest_ts_here s = Some g ->
  String.length s = 35%nat
  \/ (s = "retest_summary_" +:+ g +:+ ".txt" +:+ String "010"%char ""
      /\ String.length g = 16%nat).
Proof.
  unfold SecurityScore.retest_ts_here.
  destruct (PyStr.startswith "retest_summary_" s) eqn:Es; [|discriminate].
  apply startswith_iff in Es as [post ->].
  change (PyStr.drop_chars 15 ("retest_summary_" +:+ post)) with post.
  destruct (PyStr.split_at 8 post) as [[date [|t r]]|] eqn:E1; try discriminate.
  destruct (Ascii.eqb t "T"%char) eqn:ET;
    [apply Ascii.eqb_eq in ET as -> | ].
  2: { destruct t as [[] [] [] [] [] [] [] []]; try discriminate ET;
       discriminate. }
  destruct (PyStr.split_at 6 r) as [[time [|z tail]]|] eqn:E2; try discriminate.
  destruct (Ascii.eqb z "Z"%char) eqn:EZ;
    [apply Ascii.eqb_eq in EZ as -> | ].
  2: { destruct z as [[] [] [] [] [] [] [] []]; try discriminate EZ;
       discriminate. }
  apply split_at_Some in E1 as [-> Hd]. apply split_at_Some in E2 as [-> Ht].
  destruct (_ && _ && _) eqn:Ec; [|discriminate]. intros [= <-].
  apply andb_true_iff in Ec as [_ Etail].
  apply orb_true_iff in Etail as [Etail|Etail]; apply String.eqb_eq in Etail as ->.
  - left. repeat first [rewrite append_length | progress cbn [String.length]]. lia.
  - right. split; [now rewrite !append_assoc|].
    repeat first [rewrite append_length | progress cbn [String.length]]. lia.
Qed.

Lemma retest_ts_search_prefix (pre ts : string) :
  Spec.utc_stamp ts ->
  SecurityScore.retest_ts_search (pre +:+ "retest_summary_" +:+ ts +:+ ".txt")
  = Some ts.
Proof.
  intros Hts. induction pre as [|c pre IH].
  - rewrite append_empty_l.
    destruct ("retest_summary_" +:+ ts +:+ ".txt") eqn:E;
      cbn [SecurityScore.retest_ts_search]; rewrite <- E;
      now rewrite retest_ts_here_stamp.
  - rewrite append_cons. cbn [SecurityScore.retest_ts_search].
    destruct (SecurityScore.retest_ts_here _) as [g|] eqn:Eh; [|exact IH].
    exfalso. apply retest_ts_here_length in Eh as [Hl|[Hs Hg]].
    + destruct Hts as (date & time & -> & Hd & Ht & _).
      string_lengths Hl. lia.
    + assert (Hpre : pre = "").
      { apply (f_equal String.length) in Hs.
        destruct Hts as (date & time & -> & Hd & Ht & _).
        string_lengths Hs.
        destruct pre; [reflexivity|]. cbn [String.length] in Hs. lia. }
      subst pre. rewrite append_empty_l in Hs. cbn in Hs. discriminate Hs.
Qed.

(** X9.  What [retest_manager.py] writes, [security_score.py] reads back:
    the pattern that [main] of the latter applies to the path of a retest
    summary finds the timestamp [TS] under which [write_summary] of the
    former stored it, whatever the results folder. *)
Theorem retest_summary_timestamp_read_back (TS results_dir : string) :
  Spec.utc_stamp TS ->
  SecurityScore.retest_ts_search (RetestManager.summary_path TS results_dir)
  = Some TS.
Proof.
  intros Hts. unfold RetestManager.summary_path, PyStr.join.
  change (PyStr.startswith "/" ("retest_summary_" +:+ ?x)) with false.
  cbv iota.
  destruct (PyStr.is_empty results_dir || PyStr.endswith "/" results_dir).
  - now apply retest_ts_search_prefix.
  - rewrite <- (append_assoc results_dir "/").
    now apply retest_ts_search_prefix.
Qed.

Lemma retest_summary_timestamp_read_back_witness :
  SecurityScore.retest_ts_search
    (RetestManager.summary_path "20250101T093000Z"
       "/repo/results/shipmentsegmentacceptanceresults")
  = Some "20250101T093000Z".
Proof.
  apply retest_summary_timestamp_read_back.
  exists "20250101", "093000". repeat split; reflexivity.
Defined.

Lemma string_compare_app_l (p x y : string) :
  String.compare (p +:+ x) (p +:+ y) = String.compare x y.
Proof.
  induction p as [|c p IH]; [reflexivity|].
  rewrite !append_cons. cbn [String.compare].
  assert (Hc : Ascii.compare c c = Eq).
  { pose proof (Ascii.compare_antisym c c) as H.
    destruct (Ascii.compare c c); (reflexivity || discriminate). }
  now rewrite Hc.
Qed.

Lemma string_compare_app_r (a b s : string) :
  String.length a = String.length b ->
  String.compare (a +:+ s) (b +:+ s) = String.compare a b.
Proof.
  revert b. induction a as [|x a IH]; intros [|y b]; try discriminate.
  - intros _. rewrite append_empty_l. apply string_compare_refl.
  - intros [= H]. rewrite !append_cons. cbn [String.compare].
    now rewrite (IH _ H).
Qed.

Lemma last_sorted_greatest (l : list string) (m : string) :
  StronglySorted (fun a b => String.leb a b = true) l ->
  last l = Some m ->
  forall x, In x l -> String.leb x m = true.
Proof.
  induction 1 as [|y l Hs IH Hy]; [discriminate|].
  intros Hlast x Hx. destruct l as [|z l].
  - cbn in Hlast. injection Hlast as <-. destruct Hx as [<-|[]].
    unfold String.leb. now rewrite string_compare_refl.
  - change (last (y :: z :: l)) with (last (z :: l)) in Hlast.
    destruct Hx as [<-|Hx]; [|now apply IH].
    rewrite Forall_forall in Hy. apply Hy, last_Some_elem_of, Hlast.
Qed.

(** The last item of [sorted(l)] is an item of [l] no other exceeds. *)
Lemma last_py_sorted (l : list string) :
  l <> [] ->
  exists m, last (PyStr.py_sorted l) = Some m /\ In m l
            /\ forall x, In x l -> String.leb x m = true.
Proof.
  intros Hne. destruct (last (PyStr.py_sorted l)) as [m|] eqn:E.
  - exists m. split; [reflexivity|].
    pose proof (py_sorted_perm l) as Hp. split.
    + apply list_elem_of_In. rewrite <- Hp. now apply last_Some_elem_of.
    + intros x Hx. apply (last_sorted_greatest _ _ (py_sorted_sorted l) E).
      apply list_elem_of_In. rewrite Hp. now apply list_elem_of_In.
  - apply last_None in E. pose proof (py_sorted_perm l) as Hp.
    rewrite E in Hp. apply Permutation_nil_l in Hp. congruence.
Qed.

Lemma summary_path_prefix (results_dir : string) :
  exists pre, forall TS,
    RetestManager.summary_path TS results_dir
    = pre +:+ "retest_summary_" +:+ TS +:+ ".txt".
Proof.
  unfold RetestManager.summary_path, PyStr.join.
  destruct (PyStr.is_empty results_dir || PyStr.endswith "/" results_dir).
  - exists results_dir. reflexivity.
  - exists (results_dir +:+ "/"). intros TS.
    change (PyStr.startswith "/" ("retest_summary_" +:+ ?x)) with false.
    cbv iota. now rewrite append_assoc.
Qed.

Lemma utc_stamp_length (ts : string) :
  Spec.utc_stamp ts -> String.length ts = 16%nat.
Proof.
  intros (date & time & -> & Hd & Ht & _).
  repeat first [rewrite append_length | progress cbn [String.length]]. lia.
Qed.

(** X10.  The security summary reports the latest retest.  When the
    summaries under the results folder are those [write_summary] stored
    for the timestamps [stamps], in whatever order the glob lists them,
    "Last Auto Retest" is the greatest of the timestamps (the latest one,
    for timestamps of this shape) and "ReTest Count" is their number.
    Without a summary they are "N/A" and 0. *)
Theorem retest_metadata_latest (results_dir : string) (stamps : list string) :
  (forall ts, In ts stamps -> Spec.utc_stamp ts) ->
  let matches := map (fun ts => RetestManager.summary_path ts results_dir) stamps in
  (stamps <> [] ->
   exists latest,
     SecurityScore.retest_metadata matches = (latest, length stamps)
     /\ In latest stamps
     /\ forall ts, In ts stamps -> String.leb ts latest = true)
  /\ (stamps = [] -> SecurityScore.retest_metadata matches = ("N/A", 0%nat)).
Proof.
  intros Hst matches. split; [|intros ->; reflexivity].
  intros Hne.
  destruct (summary_path_prefix results_dir) as [pre Hpre].
  assert (Hm : matches <> []) by (destruct stamps; [congruence|discriminate]).
  destruct (last_py_sorted matches Hm) as (m & Hlast & Hin & Hmax).
  apply in_map_iff in Hin as (latest & <- & Hl).
  exists latest. split; [|split; [exact Hl|]].
  - unfold SecurityScore.retest_metadata. fold matches. rewrite Hlast, Hpre.
    rewrite (retest_ts_search_prefix pre latest (Hst _ Hl)).
    f_equal. rewrite (Permutation_length (py_sorted_perm matches)).
    apply length_map.
  - intros ts Hts.
    specialize (Hmax (RetestManager.summary_path ts results_dir)
                  (in_map _ _ _ Hts)).
    rewrite !Hpre in Hmax. unfold String.leb in *.
    rewrite string_compare_app_l, string_compare_app_l in Hmax.
    rewrite string_compare_app_r in Hmax; [exact Hmax|].
    now rewrite !utc_stamp_length by (now apply Hst).
Qed.

Lemma retest_metadata_latest_witness :
  exists latest,
    SecurityScore.retest_metadata
      [RetestManager.summary_path "20250301T120000Z" "/repo/results/x";
       RetestManager.summary_path "20250101T093000Z" "/repo/results/x"]
    = (latest, 2%nat)
    /\ String.leb "20250101T093000Z" latest = true.
Proof.
  assert (H : forall ts,
             In ts ["20250301T120000Z"; "20250101T093000Z"] -> Spec.utc_stamp ts).
  { intros ts [<-|[<-|[]]];
      [exists "20250301", "120000" | exists "20250101", "093000"];
      repeat split; reflexivity. }
  destruct (proj1 (retest_metadata_latest "/repo/results/x" _ H)
              ltac:(discriminate))
    as (latest & E & _ & Hmax).
  exists latest. split; [exact E|]. apply Hmax. right. left. reflexivity.
Defined.

(* ===================================================================== *)
(** ** The metrics summary and its readers *)
(* ===================================================================== *)

Lemma summary_rows_contracts {F : Type} (float_of : string -> option F)
    (mean_of median_of min_of max_of : list F -> F) (generated_at : string)
    (latest_baseline latest_improved : option (list csv_row))
    (coverage : option spec_float) (rows : list csv_row) :
  Spec.contract_column rows
  = map (fun r => Some (AggregateMetrics.contract r))
        (AggregateMetrics.summary_rows F float_of mean_of median_of min_of max_of
           generated_at latest_baseline latest_improved coverage) ->
  exists b i,
    rows = [b; i]
    /\ csv_get_default b "contract" "" = Some "ShipmentSegmentAcceptance (Baseline)"
    /\ csv_get_default i "contract" "" = Some "ShipmentSegmentAcceptanceImproved".
Proof.
  unfold AggregateMetrics.summary_rows, Spec.contract_column.
  cbn [map AggregateMetrics.contract].
  destruct rows as [|b [|i [|? ?]]]; try discriminate.
  cbn [map]. intros [= Hb Hi]. now exists b, i.
Qed.

(** X11.  The security summary never finds the metrics that
    [aggregate_metrics.py] writes.  [aggregate_metrics.py] labels its two
    rows "ShipmentSegmentAcceptance (Baseline)" and
    "ShipmentSegmentAcceptanceImproved"; [main] of [security_score.py]
    looks the rows up by "ProductRegistry (Baseline)" and
    "ProductRegistryImproved".  So whatever was measured, both lookups
    return the "N/A" default for the median TTE and the coverage. *)
Theorem security_summary_metrics_not_found {F : Type}
    (float_of : string -> option F)
    (mean_of median_of min_of max_of : list F -> F) (generated_at : string)
    (latest_baseline latest_improved : option (list csv_row))
    (coverage : option spec_float) (rows : list csv_row) :
  Spec.contract_column rows
  = map (fun r => Some (AggregateMetrics.contract r))
        (AggregateMetrics.summary_rows F float_of mean_of median_of min_of max_of
           generated_at latest_baseline latest_improved coverage) ->
  let metrics := SecurityScore.read_metrics_summary (Some rows) in
  SecurityScore.get_metric metrics "ProductRegistry (Baseline)"
  = Ok Spec.not_available
  /\ SecurityScore.get_metric metrics "ProductRegistryImproved"
     = Ok Spec.not_available.
Proof.
  intros H. apply summary_rows_contracts in H as (b & i & -> & Hb & Hi).
  cbv zeta. unfold SecurityScore.read_metrics_summary.
  cbn [fold_left SecurityScore.metrics_set]. rewrite Hb, Hi.
  cbn [SecurityScore.metrics_set].
  rewrite bool_decide_eq_false_2 by discriminate.
  split; reflexivity.
Qed.

Lemma security_summary_metrics_not_found_witness :
  SecurityScore.get_metric
    (SecurityScore.read_metrics_summary
       (Some [[("generated_at", Some "2025-01-01T09:30Z");
               ("contract", Some "ShipmentSegmentAcceptance (Baseline)");
               ("median_tte_s", Some "1.5"); ("coverage_pct", Some "95.0");
               ("notes", Some "Baseline vulnerable")];
              [("generated_at", Some "2025-01-01T09:30Z");
               ("contract", Some "ShipmentSegmentAcceptanceImproved");
               ("median_tte_s", Some "4.5"); ("coverage_pct", Some "95.0");
               ("notes", Some "Improved reported failures")]]))
    "ProductRegistry (Baseline)"
  = Ok Spec.not_available.
Proof.
  refine (proj1 (security_summary_metrics_not_found
                   (F := Z) (fun _ => None) (fun _ => 0) (fun _ => 0)
                   (fun _ => 0) (fun _ => 0) "2025-01-01T09:30Z" None None None
                   _ _)).
  reflexivity.
Defined.

(** X12.  [plot_metrics.py] does find both rows of the summary that
    [aggregate_metrics.py] writes: with [matplotlib] at hand [main] does
    not stop with status 3, and goes on with the first row as the
    baseline and the second as the improved contract. *)
Theorem plot_metrics_finds_both_rows {F : Type}
    (float_of : string -> option F)
    (mean_of median_of min_of max_of : list F -> F) (generated_at : string)
    (latest_baseline latest_improved : option (list csv_row))
    (coverage : option spec_float) (rows : list csv_row) :
  Spec.contract_column rows
  = map (fun r => Some (AggregateMetrics.contract r))
        (AggregateMetrics.summary_rows F float_of mean_of median_of min_of max_of
           generated_at latest_baseline latest_improved coverage) ->
  exists baseline improved,
    rows = [baseline; improved]
    /\ PlotMetrics.select_rows true (Some rows) = Ok (inr (baseline, improved)).
Proof.
  intros H. apply summary_rows_contracts in H as (b & i & -> & Hb & Hi).
  exists b, i. split; [reflexivity|].
  unfold PlotMetrics.select_rows. cbn [negb PlotMetrics.first_row_with].
  rewrite Hb, Hi.
  assert (Hne : forall (r : csv_row) s,
             csv_get_default r "contract" "" = Some (String "S" s) ->
             PlotMetrics.found (Some r) = true).
  { intros [|kv r] s; [discriminate | reflexivity]. }
  change (PyStr.contains "Baseline" "ShipmentSegmentAcceptance (Baseline)")
    with true.
  change (PyStr.contains "Improved" "ShipmentSegmentAcceptance (Baseline)")
    with false.
  change (PyStr.contains "Improved" "ShipmentSegmentAcceptanceImproved")
    with true.
  cbv iota. rewrite !bind_Ok, (Hne _ _ Hb), (Hne _ _ Hi). reflexivity.
Qed.

Lemma plot_metrics_finds_both_rows_witness :
  exists baseline improved,
    PlotMetrics.select_rows true
      (Some [[("contract", Some "ShipmentSegmentAcceptance (Baseline)")];
             [("contract", Some "ShipmentSegmentAcceptanceImproved")]])
    = Ok (inr (baseline, improved)).
Proof.
  destruct (plot_metrics_finds_both_rows
              (F := Z) (fun _ => None) (fun _ => 0) (fun _ => 0)
              (fun _ => 0) (fun _ => 0) "2025-01-01T09:30Z" None None None
              [[("contract", Some "ShipmentSegmentAcceptance (Baseline)")];
               [("contract", Some "ShipmentSegmentAcceptanceImproved")]]
              eq_refl)
    as (b & i & _ & H).
  exists b, i. exact H.
Defined.

Lemma tte_step_eq {F : Type} (float_of : string -> option F) (field : string)
    (row : csv_row) (t p f : Z) (ds : list F) :
  AggregateMetrics.tte_step F float_of field (t, p, f, ds) row
  = (t + 1,
     p + (if String.eqb (Spec.status_of row) "PASS" then 1 else 0),
     f + (if String.eqb (Spec.status_of row) "FAIL" then 1 else 0),
     ds ++ Spec.durations_of float_of field [row]).
Proof.
  unfold AggregateMetrics.tte_step, Spec.durations_of. cbv zeta.
  cbn [omap list_omap]. fold (Spec.status_of row).
  set (x := float_of (PyStr.strip (cell_or_empty (csv_get row field)))).
  destruct (String.eqb (Spec.status_of row) "PASS") eqn:EP.
  - apply String.eqb_eq in EP. rewrite EP.
    change (String.eqb "PASS" "FAIL") with false. cbv iota.
    destruct x; cbn; rewrite ?app_nil_r, ?Z.add_0_r; reflexivity.
  - destruct (String.eqb (Spec.status_of row) "FAIL");
      destruct x; cbn; rewrite ?app_nil_r, ?Z.add_0_r; reflexivity.
Qed.

Lemma count_status_cons (s : string) (row : csv_row) (rows : list csv_row) :
  Spec.count_status s (row :: rows)
  = (if String.eqb (Spec.status_of row) s then 1 else 0)
    + Spec.count_status s rows.
Proof.
  unfold Spec.count_status. cbn [List.filter].
  destruct (String.eqb (Spec.status_of row) s); cbn [length]; lia.
Qed.

Lemma tte_fold {F : Type} (float_of : string -> option F) (field : string)
    (rows : list csv_row) (t p f : Z) (ds : list F) :
  fold_left (AggregateMetrics.tte_step F float_of field) rows (t, p, f, ds)
  = (t + Z.of_nat (length rows),
     p + Spec.count_status "PASS" rows,
     f + Spec.count_status "FAIL" rows,
     ds ++ Spec.durations_of float_of field rows).
Proof.
  revert t p f ds. induction rows as [|row rows IH]; intros t p f ds.
  - unfold Spec.count_status, Spec.durations_of. cbn.
    now rewrite !Z.add_0_r, app_nil_r.
  - cbn [fold_left]. rewrite tte_step_eq, IH, !count_status_cons.
    assert (Hd : Spec.durations_of float_of field (row :: rows)
                 = Spec.durations_of float_of field [row]
                   ++ Spec.durations_of float_of field rows).
    { unfold Spec.durations_of. cbn [omap list_omap].
      now destruct (float_of _). }
    rewrite Hd. cbn [length]. rewrite Nat2Z.inj_succ, <- app_assoc.
    repeat match goal with |- (_, _) = (_, _) => f_equal end; lia.
Qed.

Lemma count_status_disjoint (rows : list csv_row) :
  Spec.count_status "PASS" rows + Spec.count_status "FAIL" rows
  <= Z.of_nat (length rows).
Proof.
  induction rows as [|row rows IH]; [reflexivity|].
  rewrite !count_status_cons. cbn [length]. rewrite Nat2Z.inj_succ.
  destruct (String.eqb (Spec.status_of row) "PASS") eqn:EP.
  - apply String.eqb_eq in EP. rewrite EP.
    change (String.eqb "PASS" "FAIL") with false. lia.
  - destruct (String.eqb _ "FAIL"); lia.
Qed.

Lemma parse_tte_generic_fails {F : Type} (float_of : string -> option F)
    (mean_of median_of min_of max_of : list F -> F)
    (rows : list csv_row) (duration_field : string) :
  AggregateMetrics.fails
    (AggregateMetrics.parse_tte_generic F float_of mean_of median_of min_of max_of
       rows duration_field)
  = Spec.count_status "FAIL" rows.
Proof.
  unfold AggregateMetrics.parse_tte_generic. rewrite tte_fold, !Z.add_0_l.
  reflexivity.
Qed.

(** X13.  [parse_tte_generic] counts every row of the CSV file as a
    trial; [passes] and [fails] are the rows whose status, trimmed and
    upper-cased, is PASS and FAIL, so together they never exceed the
    trials; and the four statistics are [None] exactly when no duration
    of the file parses as a number. *)
Theorem parse_tte_generic_counts {F : Type} (float_of : string -> option F)
    (mean_of median_of min_of max_of : list F -> F)
    (rows : list csv_row) (duration_field : string) :
  let stats :=
    AggregateMetrics.parse_tte_generic F float_of mean_of median_of min_of max_of
      rows duration_field in
  let durations := Spec.durations_of float_of duration_field rows in
  AggregateMetrics.trials stats = Z.of_nat (length rows)
  /\ AggregateMetrics.passes stats = Spec.count_status "PASS" rows
  /\ AggregateMetrics.fails stats = Spec.count_status "FAIL" rows
  /\ AggregateMetrics.passes stats + AggregateMetrics.fails stats
     <= AggregateMetrics.trials stats
  /\ (durations = [] ->
      AggregateMetrics.mean stats = None /\ AggregateMetrics.median stats = None
      /\ AggregateMetrics.min_v stats = None /\ AggregateMetrics.max_v stats = None)
  /\ (durations <> [] ->
      AggregateMetrics.mean stats = Some (mean_of durations)
      /\ AggregateMetrics.median stats = Some (median_of durations)
      /\ AggregateMetrics.min_v stats = Some (min_of durations)
      /\ AggregateMetrics.max_v stats = Some (max_of durations)).
Proof.
  cbv zeta. unfold AggregateMetrics.parse_tte_generic.
  rewrite tte_fold, !Z.add_0_l, app_nil_l.
  cbn [AggregateMetrics.trials AggregateMetrics.passes AggregateMetrics.fails
       AggregateMetrics.mean AggregateMetrics.median AggregateMetrics.min_v
       AggregateMetrics.max_v].
  repeat split; try apply count_status_disjoint;
    destruct (Spec.durations_of float_of duration_field rows);
    congruence.
Qed.

(** X14.  The note on the improved contract in [metrics_summary.csv]
    rests on the failed trials alone: it reads "Improved secure" when the
    newest improved CSV file has no trial with status FAIL, so also when
    the file has no trial at all or when there is no such file; otherwise
    it reads "Improved reported failures".  The baseline is always noted
    "Baseline vulnerable". *)
Theorem improved_note_from_failed_trials {F : Type}
    (float_of : string -> option F)
    (mean_of median_of min_of max_of : list F -> F) (generated_at : string)
    (latest_baseline latest_improved : option (list csv_row))
    (coverage : option spec_float) :
  exists baseline improved,
    AggregateMetrics.summary_rows F float_of mean_of median_of min_of max_of
      generated_at latest_baseline latest_improved coverage
    = [baseline; improved]
    /\ AggregateMetrics.notes baseline = "Baseline vulnerable"
    /\ (Spec.failed_trials latest_improved = [] ->
        AggregateMetrics.notes improved = "Improved secure – no overwrite detected")
    /\ (Spec.failed_trials latest_improved <> [] ->
        AggregateMetrics.notes improved = "Improved reported failures").
Proof.
  unfold AggregateMetrics.summary_rows. eexists _, _.
  split; [reflexivity|]. cbn [AggregateMetrics.notes].
  split; [reflexivity|].
  assert (Hf : AggregateMetrics.fails
                 (AggregateMetrics.tte_or_initial F
                    (AggregateMetrics.parse_improved_tte F float_of mean_of
                       median_of min_of max_of) latest_improved)
               = Z.of_nat (length (Spec.failed_trials latest_improved))).
  { destruct latest_improved as [rows|]; [|reflexivity].
    unfold AggregateMetrics.tte_or_initial, AggregateMetrics.parse_improved_tte.
    apply (parse_tte_generic_fails float_of). }
  rewrite Hf.
  destruct (Spec.failed_trials latest_improved); cbn [length];
    split; intros H; try congruence; try reflexivity.
Qed.

(* ===================================================================== *)
(** ** The retest manager: folders, commands and plan *)
(* ===================================================================== *)

Lemma isabs_join (a b : string) :
  PyStr.isabs a = true -> PyStr.isabs (PyStr.join a b) = true.
Proof.
  unfold PyStr.isabs, PyStr.join. intros Ha.
  destruct (PyStr.startswith "/" b) eqn:Eb; [exact Eb|].
  apply startswith_iff in Ha as [post ->].
  now destruct (_ || _).
Qed.

Lemma given_Some (s t : string) :
  RetestManager.given (Some s) = Some t <-> s = t /\ t <> "".
Proof.
  unfold RetestManager.given. destruct s as [|c s]; cbn [PyStr.is_empty].
  - split; [discriminate | intros [<- H]; congruence].
  - split; [intros [= <-]; now split | intros [<- _]; reflexivity].
Qed.

(** X15.  [resolve_results_dir] under an absolute [ROOT]: the folder it
    returns is an absolute path, whatever the arguments; a contract of
    the table maps to its folder under [ROOT/results]; a missing or empty
    contract stands for "BatchRegistry"; and an [--outdir] that is not
    empty overrides the contract, an absolute one being returned as it
    is, wherever it lies. *)
Theorem resolve_results_dir_absolute (ROOT : string) :
  PyStr.isabs ROOT = true ->
  (forall contract outdir,
     PyStr.isabs (RetestManager.resolve_results_dir ROOT contract outdir) = true)
  /\ (forall contract folder,
        dict_get contract RetestManager.CONTRACT_TO_DIR = Some folder ->
        RetestManager.resolve_results_dir ROOT (Some contract) None
        = PyStr.join (PyStr.join ROOT "results") folder)
  /\ RetestManager.resolve_results_dir ROOT None None
     = RetestManager.resolve_results_dir ROOT (Some "BatchRegistry") None
  /\ RetestManager.resolve_results_dir ROOT (Some "") None
     = RetestManager.resolve_results_dir ROOT (Some "BatchRegistry") None
  /\ (forall contract contract' outdir,
        outdir <> "" ->
        RetestManager.resolve_results_dir ROOT contract (Some outdir)
        = RetestManager.resolve_results_dir ROOT contract' (Some outdir))
  /\ (forall contract outdir,
        PyStr.isabs outdir = true ->
        RetestManager.resolve_results_dir ROOT contract (Some outdir) = outdir).
Proof.
  intros HR. repeat split.
  - intros contract outdir. unfold RetestManager.resolve_results_dir.
    destruct (RetestManager.given outdir) as [path|].
    + destruct (PyStr.isabs path) eqn:E; cbn [negb]; [exact E|].
      now apply isabs_join.
    + cbv zeta.
      set (folder := default _ (dict_get _ RetestManager.CONTRACT_TO_DIR)).
      destruct (PyStr.isabs folder) eqn:E; [exact E|].
      apply isabs_join, isabs_join, HR.
  - intros contract folder Hf. unfold RetestManager.resolve_results_dir.
    cbn [RetestManager.given].
    assert (Hc : PyStr.is_empty contract = false /\ PyStr.isabs folder = false).
    { unfold RetestManager.CONTRACT_TO_DIR in Hf. cbn [dict_get] in Hf.
      repeat match type of Hf with
             | (if String.eqb ?k contract then _ else _) = _ =>
                 destruct (String.eqb k contract) eqn:E;
                 [apply String.eqb_eq in E as <-; injection Hf as <-;
                  split; reflexivity | clear E]
             end.
      discriminate. }
    destruct Hc as [-> Hab]. cbn [default from_option id].
    rewrite Hf. cbn [default from_option id]. now rewrite Hab.
  - intros contract contract' outdir Hne.
    unfold RetestManager.resolve_results_dir.
    destruct outdir; [congruence | reflexivity].
  - intros contract outdir Ho. unfold RetestManager.resolve_results_dir.
    destruct outdir as [|c o]; [discriminate|].
    cbn [RetestManager.given PyStr.is_empty]. now rewrite Ho.
Qed.

Lemma resolve_results_dir_absolute_witness :
  RetestManager.resolve_results_dir "/repo" (Some "ShipmentSegmentAcceptance") None
  = "/repo/results/shipmentsegmentacceptanceresults"
  /\ PyStr.isabs
       (RetestManager.resolve_results_dir "/repo" (Some "Vault") (Some "out"))
     = true.
Proof.
  destruct (resolve_results_dir_absolute "/repo" eq_refl) as (Habs & Htab & _).
  split; [|apply Habs].
  exact (Htab "ShipmentSegmentAcceptance" "shipmentsegmentacceptanceresults"
              eq_refl).
Defined.

(** X16.  A run of the retest manager always ends with exit status 0,
    whatever the reports hold and whatever the commands return, even when
    every command fails or cannot be started.  The commands it runs are
    those of the actions that the plan it wrote recommends, one command
    per action and in the same order; each is recorded with its own
    return code (1 when it could not be started); and the summary is
    stored in the folder the plan names. *)
Theorem retest_main_runs_the_plan (json_dumps : pyval -> string)
    (shell : string -> option Z) (ROOT TS contract : string)
    (outdir : option string) (paths : list RetestManager.report_file) :
  exists run,
    RetestManager.main json_dumps shell ROOT TS contract outdir paths = Ok run
    /\ RetestManager.exit_status run = 0
    /\ RetestManager.write_retest_plan TS
         (RetestManager.resolve_results_dir ROOT (Some contract) outdir)
         (Spec.buckets (Spec.names_in json_dumps "CRITICAL" paths)
                       (Spec.names_in json_dumps "MEDIUM" paths)
                       (Spec.names_in json_dumps "MINOR" paths))
       = Ok (RetestManager.retest_plan run)
    /\ map fst (RetestManager.executed run)
       = map Spec.command_of
           (RetestManager.recommended_actions (RetestManager.retest_plan run))
    /\ (forall cmd rc, In (cmd, rc) (RetestManager.executed run) ->
          rc = default 1 (shell cmd))
    /\ RetestManager.summ_path run
       = RetestManager.summary_path TS
           (RetestManager.results_dir (RetestManager.retest_plan run)).
Proof.
  unfold RetestManager.main.
  rewrite analyze_reports_buckets, bind_Ok, write_retest_plan_buckets, bind_Ok.
  unfold RetestManager.subscript.
  destruct (buckets_lookup (Spec.names_in json_dumps "CRITICAL" paths)
              (Spec.names_in json_dumps "MEDIUM" paths)
              (Spec.names_in json_dumps "MINOR" paths)) as (-> & -> & _).
  rewrite bind_Ok.
  assert (Hrc : forall cmds cmd rc,
             In (cmd, rc) (zip cmds (map (RetestManager.run_cmd shell) cmds)) ->
             rc = default 1 (shell cmd)).
  { induction cmds as [|c cmds IH]; cbn; [tauto|].
    intros cmd rc [[= <- <-]|H]; [|now apply IH].
    unfold RetestManager.run_cmd. now destruct (shell c). }
  destruct (RetestManager.nonempty (Spec.names_in json_dumps "CRITICAL" paths)).
  - rewrite bind_Ok. eexists. split; [reflexivity|].
    cbn [RetestManager.exit_status RetestManager.retest_plan
         RetestManager.executed RetestManager.summ_path
         RetestManager.recommended_actions RetestManager.results_dir].
    repeat split. apply Hrc.
  - rewrite bind_Ok.
    destruct (RetestManager.nonempty (Spec.names_in json_dumps "MEDIUM" paths));
      rewrite bind_Ok; (eexists; split; [reflexivity|]);
      cbn [RetestManager.exit_status RetestManager.retest_plan
           RetestManager.executed RetestManager.summ_path
           RetestManager.recommended_actions RetestManager.results_dir];
      repeat split; apply Hrc.
Qed.

(* ===================================================================== *)
(** ** The newest file *)
(* ===================================================================== *)

Lemma max_by_mtime_spec {T : Type} (getmtime : string -> T) (gt : T -> T -> bool)
    (rest : list string) (first : string) :
  (forall a, gt a a = false) ->
  (forall a b c, gt a b = true -> gt b c = true -> gt a c = true) ->
  let best := AggregateMetrics.max_by_mtime getmtime gt first rest in
  In best (first :: rest)
  /\ (best = first \/ gt (getmtime best) (getmtime first) = true)
  /\ forall p, In p rest -> gt (getmtime p) (getmtime best) = false.
Proof.
  intros Hirr Htr. cbv zeta.
  assert (Hno : forall x y : string,
             x = y \/ gt (getmtime x) (getmtime y) = true ->
             gt (getmtime y) (getmtime x) = false).
  { intros x y [->|H]; [apply Hirr|].
    destruct (gt (getmtime y) (getmtime x)) eqn:E; [|reflexivity].
    pose proof (Htr _ _ _ H E) as Hxx. now rewrite Hirr in Hxx. }
  revert first. induction rest as [|q rest IH]; intros first.
  - unfold AggregateMetrics.max_by_mtime. cbn [fold_left].
    split; [now left|]. split; [now left|]. intros p [].
  - unfold AggregateMetrics.max_by_mtime. cbn [fold_left].
    fold (AggregateMetrics.max_by_mtime getmtime gt
            (if gt (getmtime q) (getmtime first) then q else first) rest).
    destruct (gt (getmtime q) (getmtime first)) eqn:E.
    + destruct (IH q) as (Hin & Hq & Hrest).
      set (best := AggregateMetrics.max_by_mtime getmtime gt q rest) in *.
      split; [right; exact Hin|]. split.
      * right. destruct Hq as [->|Hq]; [exact E | exact (Htr _ _ _ Hq E)].
      * intros p [<-|Hp]; [now apply Hno | now apply Hrest].
    + destruct (IH first) as (Hin & Hf & Hrest).
      set (best := AggregateMetrics.max_by_mtime getmtime gt first rest) in *.
      split; [destruct Hin as [Hin|Hin]; [now left | right; now right]|].
      split; [exact Hf|].
      intros p [<-|Hp]; [|now apply Hrest].
      destruct Hf as [->|Hf]; [exact E|].
      destruct (gt (getmtime q) (getmtime best)) eqn:Eb; [|reflexivity].
      pose proof (Htr _ _ _ Eb Hf). congruence.
Qed.

(** X17.  [latest_file] returns [None] exactly when the glob matches
    nothing; otherwise it returns one of the matched paths, and no
    matched path has a later modification time.  ([>] on the times is
    irreflexive and transitive, as it is on floats.) *)
Theorem latest_file_is_newest {T : Type} (getmtime : string -> T)
    (gt : T -> T -> bool) (paths : list string) :
  (forall a, gt a a = false) ->
  (forall a b c, gt a b = true -> gt b c = true -> gt a c = true) ->
  (AggregateMetrics.latest_file getmtime gt paths = None <-> paths = [])
  /\ forall latest,
       AggregateMetrics.latest_file getmtime gt paths = Some latest ->
       In latest paths
       /\ forall p, In p paths -> gt (getmtime p) (getmtime latest) = false.
Proof.
  intros Hirr Htr. split.
  - destruct paths; cbn; split; congruence.
  - intros latest. destruct paths as [|first rest]; [discriminate|].
    cbn [AggregateMetrics.latest_file]. intros [= <-].
    destruct (max_by_mtime_spec getmtime gt rest first Hirr Htr)
      as (Hin & Hf & Hrest).
    split; [exact Hin|]. intros p [Hp|Hp]; [subst p|now apply Hrest].
    destruct Hf as [->|Hf]; [apply Hirr|].
    destruct (gt (getmtime first) _) eqn:E; [|reflexivity].
    pose proof (Htr _ _ _ Hf E) as Hxx. now rewrite Hirr in Hxx.
Qed.

Lemma latest_file_is_newest_witness :
  exists latest,
    AggregateMetrics.latest_file
      (fun p => Z.of_nat (String.length p)) Z.gtb
      ["coverage_1.txt"; "coverage_10.txt"; "coverage_2.txt"] = Some latest
    /\ Z.gtb (Z.of_nat (String.length "coverage_2.txt"))
             (Z.of_nat (String.length latest)) = false.
Proof.
  assert (Hirr : forall a, Z.gtb a a = false)
    by (intros a; rewrite Z.gtb_ltb; apply Z.ltb_irrefl).
  assert (Htr : forall a b c, Z.gtb a b = true -> Z.gtb b c = true ->
                              Z.gtb a c = true)
    by (intros a b c; rewrite !Z.gtb_ltb, !Z.ltb_lt; lia).
  destruct (latest_file_is_newest (fun p => Z.of_nat (String.length p)) Z.gtb
              ["coverage_1.txt"; "coverage_10.txt"; "coverage_2.txt"]
              Hirr Htr) as [_ H].
  eexists. split; [reflexivity|].
  destruct (H _ eq_refl) as [_ Hmax].
  apply (Hmax "coverage_2.txt"). right. right. left. reflexivity.
Defined.

(* ===================================================================== *)
(** ** Coverage: texts without a percentage, and merged traces *)
(* ===================================================================== *)

Lemma match_number_percent (s g : string) :
  AggregateMetrics.match_number s = Some g -> PyStr.contains "%" s = true.
Proof.
  unfold AggregateMetrics.match_number.
  destruct (PyFloat.take_digits s) as [d1 rest] eqn:E1.
  apply take_digits_split in E1 as (-> & _ & _).
  destruct (PyStr.is_empty d1); [discriminate|].
  destruct rest as [|c rest]; [discriminate|].
  rewrite contains_char_app, contains_char_cons.
  destruct (Ascii.eqb "%" c) eqn:Ec; [now rewrite orb_true_r|].
  destruct (Ascii.eqb "." c) eqn:Ed.
  - apply Ascii.eqb_eq in Ed as <-.
    destruct (PyFloat.take_digits rest) as [d2 rest'] eqn:E2.
    apply take_digits_split in E2 as (-> & _ & _).
    destruct rest' as [|c' rest']; [discriminate|].
    rewrite contains_char_app, contains_char_cons.
    destruct (Ascii.eqb "%" c') eqn:Ec'; [now rewrite !orb_true_r|].
    destruct c' as [[] [] [] [] [] [] [] []]; try discriminate Ec'; discriminate.
  - destruct c as [[] [] [] [] [] [] [] []];
      try discriminate Ec; try discriminate Ed; discriminate.
Qed.

Lemma match_lazy_percent (s g : string) :
  AggregateMetrics.match_lazy s = Some g -> PyStr.contains "%" s = true.
Proof.
  induction s as [|c s IH].
  - cbn [AggregateMetrics.match_lazy].
    destruct (AggregateMetrics.match_number "") eqn:E; [|discriminate].
    intros _. now apply match_number_percent in E.
  - cbn [AggregateMetrics.match_lazy].
    destruct (AggregateMetrics.match_number (String c s)) eqn:E.
    + intros _. now apply match_number_percent in E.
    + destruct (Ascii.eqb c "010"); [discriminate|]. intros H.
      rewrite contains_char_cons, (IH H). apply orb_true_r.
Qed.

Lemma lstrip_contains (c : ascii) (s : string) :
  PyStr.contains (String c "") (PyStr.lstrip s) = true ->
  PyStr.contains (String c "") s = true.
Proof.
  induction s as [|x s IH]; [trivial|]. cbn [PyStr.lstrip].
  destruct (PyStr.isspace x); [|trivial].
  intros H. rewrite contains_char_cons, (IH H). apply orb_true_r.
Qed.

Lemma drop_chars_contains (c : ascii) (n : nat) (s : string) :
  PyStr.contains (String c "") (PyStr.drop_chars n s) = true ->
  PyStr.contains (String c "") s = true.
Proof.
  revert s. induction n as [|n IH]; intros s; [trivial|].
  destruct s as [|x s]; [trivial|]. cbn [PyStr.drop_chars].
  intros H. rewrite contains_char_cons, (IH _ H). apply orb_true_r.
Qed.

Lemma match_here_percent (pat : string * AggregateMetrics.gap) (s g : string) :
  AggregateMetrics.match_here pat s = Some g -> PyStr.contains "%" s = true.
Proof.
  destruct pat as [word gap]. unfold AggregateMetrics.match_here.
  destruct (PyStr.startswith _ _); [|discriminate].
  destruct gap; intros H.
  - apply match_number_percent, lstrip_contains, drop_chars_contains in H.
    exact H.
  - apply match_lazy_percent, drop_chars_contains in H. exact H.
Qed.

Lemma re_search_percent (pat : string * AggregateMetrics.gap) (s g : string) :
  AggregateMetrics.re_search pat s = Some g -> PyStr.contains "%" s = true.
Proof.
  induction s as [|c s IH]; cbn [AggregateMetrics.re_search].
  - destruct (AggregateMetrics.match_here pat "") eqn:E; [|discriminate].
    intros _. now apply match_here_percent in E.
  - destruct (AggregateMetrics.match_here pat (String c s)) eqn:E.
    + intros _. now apply match_here_percent in E.
    + intros H. rewrite contains_char_cons, (IH H). apply orb_true_r.
Qed.

(** X18.  A coverage summary without a percent sign gives no coverage:
    [parse_coverage_summary] returns [None], whatever words and numbers
    the text holds. *)
Theorem parse_coverage_summary_needs_percent (content : string) :
  PyStr.contains "%" content = false ->
  AggregateMetrics.parse_coverage_summary content = None.
Proof.
  intros H. unfold AggregateMetrics.parse_coverage_summary.
  apply first_match_none. intros p _.
  destruct (AggregateMetrics.re_search p content) as [g|] eqn:E; [|reflexivity].
  apply re_search_percent in E. congruence.
Qed.

Lemma parse_coverage_summary_needs_percent_witness :
  AggregateMetrics.parse_coverage_summary "Statements: 91 percent" = None.
Proof. apply parse_coverage_summary_needs_percent. reflexivity. Defined.

Lemma file_lines_go_app (cur a b : string) :
  AggregateMetrics.file_lines_go cur (a +:+ String "010" b)
  = AggregateMetrics.file_lines_go cur (a +:+ String "010" "")
    ++ AggregateMetrics.file_lines b.
Proof.
  revert cur. induction a as [|c a IH]; intros cur.
  - rewrite !append_empty_l. reflexivity.
  - rewrite !append_cons. cbn [AggregateMetrics.file_lines_go].
    destruct (Ascii.eqb c "010"); rewrite IH; reflexivity.
Qed.

(** X19.  Line coverage adds up over merged traces: when an LCOV trace
    that ends with a newline is followed by another, the totals of lines
    found and of lines hit are the sums of the totals of the two. *)
Theorem lcov_totals_additive (a b : string) :
  let first := a +:+ String "010" "" in
  AggregateMetrics.lcov_totals (first +:+ b)
  = (fst (AggregateMetrics.lcov_totals first) + fst (AggregateMetrics.lcov_totals b),
     snd (AggregateMetrics.lcov_totals first) + snd (AggregateMetrics.lcov_totals b)).
Proof.
  cbv zeta. rewrite append_assoc.
  change (String "010" "" +:+ b) with (String "010"%char b).
  unfold AggregateMetrics.lcov_totals, AggregateMetrics.file_lines.
  rewrite file_lines_go_app, fold_left_app.
  fold (AggregateMetrics.file_lines (a +:+ String "010" "")).
  destruct (fold_left AggregateMetrics.lcov_step
              (AggregateMetrics.file_lines (a +:+ String "010" "")) (0, 0))
    as [lf lh].
  rewrite !fold_left_lcov_step. cbn [fst snd]. f_equal; lia.
Qed.

(* ===================================================================== *)
(** ** More text never lowers the triage bucket *)
(* ===================================================================== *)

Lemma has_keyword_context (keywords : list string) (pre msg post : string) :
  Spec.has_keyword keywords msg ->
  Spec.has_keyword keywords (pre +:+ msg +:+ post).
Proof.
  intros (k & Hk & a & b & E). exists k. split; [exact Hk|].
  exists (PyStr.lower pre +:+ a), (b +:+ PyStr.lower post).
  rewrite !lower_app, E, !append_assoc. reflexivity.
Qed.

(** X20.  Text around a message never lowers its triage bucket: a
    message that [classify_issue] files under CRITICAL stays CRITICAL
    inside any longer text, and one under MEDIUM becomes MEDIUM or
    CRITICAL.  (So a report is at least as severe as any of its parts.) *)
Theorem classify_issue_monotone (pre msg post : string) :
  Spec.rank (RetestManager.classify_issue msg)
  <= Spec.rank (RetestManager.classify_issue (pre +:+ msg +:+ post)).
Proof.
  unfold RetestManager.classify_issue.
  destruct (RetestManager.any_in RetestManager.CRITICAL_KEYWORDS
              (PyStr.lower msg)) eqn:Ec.
  - apply any_in_lower_iff, (has_keyword_context _ pre msg post),
      any_in_lower_iff in Ec. rewrite Ec. reflexivity.
  - destruct (RetestManager.any_in RetestManager.MEDIUM_KEYWORDS
                (PyStr.lower msg)) eqn:Em.
    + apply any_in_lower_iff, (has_keyword_context _ pre msg post),
        any_in_lower_iff in Em. rewrite Em.
      destruct (RetestManager.any_in RetestManager.CRITICAL_KEYWORDS
                  (PyStr.lower (pre +:+ msg +:+ post)));
        vm_compute; discriminate.
    + destruct (RetestManager.any_in RetestManager.CRITICAL_KEYWORDS
                  (PyStr.lower (pre +:+ msg +:+ post)));
        [vm_compute; discriminate|].
      destruct (RetestManager.any_in RetestManager.MEDIUM_KEYWORDS
                  (PyStr.lower (pre +:+ msg +:+ post)));
        vm_compute; discriminate.
Qed.

(* ===================================================================== *)
(** ** Reading the score table *)
(* ===================================================================== *)

Lemma get_score_filter (scores : list SecurityScore.ScoreRow) (name : string) :
  (forall r, In r scores -> Spec.is_str (SecurityScore.row_contract r) = true) ->
  SecurityScore.get_score scores name
  = Ok match List.filter (Spec.matches_name name) scores with
       | [] => "N/A"
       | r :: _ => PyStr.str_of_int (SecurityScore.SecurityScore r)
       end.
Proof.
  intros Hs. unfold SecurityScore.get_score.
  assert (Hall : forallb
                   (fun r => match SecurityScore.row_contract r with
                             | PStr _ => true | _ => false end) scores = true).
  { apply forallb_forall. intros r Hr. specialize (Hs r Hr).
    now destruct (SecurityScore.row_contract r). }
  rewrite Hall. fold (Spec.matches_name name).
  now destruct (List.filter _ _).
Qed.

(** X21.  The lookup of the baseline score also takes rows of the
    improved contract.  [get_score] keeps the rows whose contract
    contains the name, whatever the case of the letters, and
    "ProductRegistry" is contained in "ProductRegistryImproved".  So when
    the table (of contracts with ASCII names) has no row of its own for
    the baseline, the summary shows under "Baseline" the very score it
    shows under "Improved". *)
Theorem get_score_baseline_takes_improved (scores : list SecurityScore.ScoreRow) :
  Spec.ascii_contracts scores ->
  (forall r, In r scores ->
     Spec.matches_name "ProductRegistryImproved" r = true ->
     Spec.matches_name "ProductRegistry" r = true)
  /\ ((forall r, In r scores ->
         Spec.matches_name "ProductRegistry" r = true ->
         Spec.matches_name "ProductRegistryImproved" r = true) ->
      SecurityScore.get_score scores "ProductRegistry"
      = SecurityScore.get_score scores "ProductRegistryImproved").
Proof.
  intros Ha.
  assert (Hs : forall r, In r scores ->
                         Spec.is_str (SecurityScore.row_contract r) = true).
  { intros r Hr. destruct (Ha r Hr) as (c & -> & _). reflexivity. }
  assert (Hsub : forall r, Spec.matches_name "ProductRegistryImproved" r = true ->
                           Spec.matches_name "ProductRegistry" r = true).
  { intros r. unfold Spec.matches_name.
    destruct (SecurityScore.row_contract r) as [| | | |c| |]; try discriminate.
    intros (a & b & E)%contains_iff. apply contains_iff.
    exists a, ("IMPROVED" +:+ b). rewrite E. reflexivity. }
  split; [intros r _; apply Hsub|].
  intros Hnone. rewrite !get_score_filter by exact Hs.
  replace (List.filter (Spec.matches_name "ProductRegistry") scores)
    with (List.filter (Spec.matches_name "ProductRegistryImproved") scores);
    [reflexivity|].
  symmetry. apply filter_ext_in. intros r Hr.
  destruct (Spec.matches_name "ProductRegistry" r) eqn:E1.
  - symmetry. now apply Hnone.
  - destruct (Spec.matches_name "ProductRegistryImproved" r) eqn:E2;
      [|reflexivity].
    apply Hsub in E2. congruence.
Qed.

Lemma get_score_baseline_takes_improved_witness :
  exists scores,
    SecurityScore.aggregate_scores
      [Spec.finding "ProductRegistryImproved" "High"]
      (SecurityScore.load_weights None) = Ok scores
    /\ SecurityScore.get_score scores "ProductRegistry" = Ok "97"
    /\ SecurityScore.get_score scores "ProductRegistryImproved" = Ok "97".
Proof.
  set (row := {| SecurityScore.row_contract := PStr "ProductRegistryImproved";
                 SecurityScore.Critical := 0; SecurityScore.High := 1;
                 SecurityScore.Medium := 0; SecurityScore.SecurityScore := 97 |}).
  exists [row]. split; [reflexivity|].
  assert (Hs : Spec.ascii_contracts [row]).
  { intros r [<-|[]]. exists "ProductRegistryImproved". split; reflexivity. }
  destruct (get_score_baseline_takes_improved [row] Hs) as [_ H].
  rewrite H; [split; reflexivity|].
  intros r [<-|[]] _. reflexivity.
Defined.

Lemma score_rows_fold (rows : list csv_row) (b i : option csv_row) :
  Spec.contract_cells rows ->
  for_each
    (fun (acc : option csv_row * option csv_row) r =>
       match csv_get_default r "contract" "" with
       | Some name =>
           if PyStr.contains "Improved" name then Ok (fst acc, Some r)
           else Ok (Some r, snd acc)
       | None => Raise TypeError
       end)
    rows (b, i)
  = Ok (match last (List.filter (fun r => negb (Spec.names_improved r)) rows) with
        | Some r => Some r
        | None => b
        end,
        match last (List.filter Spec.names_improved rows) with
        | Some r => Some r
        | None => i
        end).
Proof.
  revert b i. induction rows as [|r rows IH]; intros b i Hc; [reflexivity|].
  cbn [for_each List.filter].
  assert (Hr : csv_get_default r "contract" "" <> None) by (apply Hc; now left).
  assert (Hrest : Spec.contract_cells rows) by (intros x Hx; apply Hc; now right).
  assert (Hn : Spec.names_improved r
               = PyStr.contains "Improved"
                   (cell_or_empty (csv_get_default r "contract" "")))
    by reflexivity.
  rewrite Hn. clear Hn.
  destruct (csv_get_default r "contract" "") as [name|]; [|congruence].
  cbn [cell_or_empty].
  destruct (PyStr.contains "Improved" name); cbn [negb fst snd];
    rewrite bind_Ok, (IH _ _ Hrest), last_cons; do 2 f_equal.
  - now destruct (last (List.filter Spec.names_improved rows)).
  - now destruct (last (List.filter (fun r0 => negb (Spec.names_improved r0))
                          rows)).
Qed.

(** X22.  The security score chart shows one bar per kind, taken from
    the last rows of [security_scores.csv]: the improved bar is the last
    row whose contract contains "Improved", the baseline bar the last row
    whose contract does not; rows before them of the same kind are not
    shown.  A row without its [contract] cell raises [TypeError]. *)
Theorem score_chart_takes_last_rows (rows_scores : list csv_row) :
  (Spec.contract_cells rows_scores ->
   PlotMetrics.score_rows rows_scores
   = Ok (last (List.filter (fun r => negb (Spec.names_improved r)) rows_scores),
         last (List.filter Spec.names_improved rows_scores)))
  /\ (forall row rest,
        rows_scores = row :: rest ->
        csv_get_default row "contract" "" = None ->
        PlotMetrics.score_rows rows_scores = Raise TypeError).
Proof.
  split.
  - intros Hc. unfold PlotMetrics.score_rows. rewrite (score_rows_fold _ _ _ Hc).
    f_equal. f_equal; now destruct (last _).
  - intros row rest -> Hn. unfold PlotMetrics.score_rows. cbn [for_each].
    now rewrite Hn.
Qed.

Lemma score_chart_takes_last_rows_witness :
  PlotMetrics.score_rows
    [[("contract", Some "Vault"); ("SecurityScore", Some "90")];
     [("contract", Some "Token"); ("SecurityScore", Some "97")];
     [("contract", Some "TokenImproved"); ("SecurityScore", Some "100")]]
  = Ok (Some [("contract", Some "Token"); ("SecurityScore", Some "97")],
        Some [("contract", Some "TokenImproved"); ("SecurityScore", Some "100")]).
Proof.
  refine (proj1 (score_chart_takes_last_rows _) _).
  intros row [<-|[<-|[<-|[]]]]; discriminate.
Defined.

(* ===================================================================== *)
(** ** Invariants of the Slither findings and of the retest plan *)
(* ===================================================================== *)

Lemma for_each_invariant {A S : Type} (P : S -> Prop) (step : S -> A -> result S)
    (xs : list A) (acc r : S) :
  (forall acc x acc', In x xs -> P acc -> step acc x = Ok acc' -> P acc') ->
  P acc -> for_each step xs acc = Ok r -> P r.
Proof.
  revert acc. induction xs as [|x xs IH]; intros acc Hstep Hacc.
  - cbn. now intros [= <-].
  - cbn [for_each]. destruct (step acc x) as [acc'|e] eqn:E; [|discriminate].
    rewrite bind_Ok. apply IH.
    + intros a y a' Hy. apply Hstep. now right.
    + eapply Hstep; [now left | exact Hacc | exact E].
Qed.

Lemma slither_contract_truthy (e c : pyval) :
  SecurityScore.slither_contract e = Ok c -> truthy c = true.
Proof.
  unfold SecurityScore.slither_contract.
  destruct (py_get e "source_mapping") as [sm|]; [|discriminate].
  rewrite bind_Ok.
  destruct (py_get (py_or sm (PDict [])) "contract") as [c1|]; [|discriminate].
  rewrite bind_Ok. destruct (truthy c1) eqn:E1; [now intros [= <-]|].
  destruct (py_get e "contract") as [c2|]; [|discriminate].
  rewrite bind_Ok. destruct (truthy c2) eqn:E2; [now intros [= <-]|].
  destruct (py_get_default _ "filename" _) as [fn|]; [|discriminate].
  rewrite bind_Ok.
  destruct (SecurityScore.extract_contract_from_path fn) as [name|];
    [|discriminate].
  rewrite bind_Ok. intros [= <-]. unfold py_or.
  now destruct (truthy (PStr name)) eqn:E.
Qed.

Lemma slither_detector_labelled (ts : string)
    (rows rows' : list SecurityScore.Finding) (d : pyval) :
  (forall f, In f rows ->
     SecurityScore.tool f = "slither" /\ truthy (SecurityScore.contract f) = true) ->
  SecurityScore.slither_detector ts rows d = Ok rows' ->
  forall f, In f rows' ->
    SecurityScore.tool f = "slither" /\ truthy (SecurityScore.contract f) = true.
Proof.
  intros Hrows. unfold SecurityScore.slither_detector.
  repeat (match goal with
          | |- (py_get ?v ?k ≫= _) = _ -> _ =>
              destruct (py_get v k); [rewrite bind_Ok | discriminate]
          end).
  cbv zeta.
  match goal with |- (if truthy ?els then _ else _) = _ -> _ =>
    destruct (truthy els) end.
  - match goal with |- (py_iter ?els ≫= _) = _ -> _ =>
      destruct (py_iter els) as [es|]; [rewrite bind_Ok | discriminate] end.
    intros H.
    refine (for_each_invariant
              (fun rows => forall f, In f rows ->
                 SecurityScore.tool f = "slither"
                 /\ truthy (SecurityScore.contract f) = true)
              _ es rows rows' _ Hrows H).
    clear H. intros acc e acc' _ Hacc. cbv beta.
    destruct (SecurityScore.slither_contract e) as [c|] eqn:Ec; [|discriminate].
    rewrite bind_Ok.
    match goal with |- (SecurityScore.norm_sev ?s ≫= _) = _ -> _ =>
      destruct (SecurityScore.norm_sev s); [rewrite bind_Ok | discriminate] end.
    intros [= <-] f [Hf|[<-|[]]]%in_app_or; [now apply Hacc|].
    split; [reflexivity | exact (slither_contract_truthy _ _ Ec)].
  - match goal with |- (SecurityScore.norm_sev ?s ≫= _) = _ -> _ =>
      destruct (SecurityScore.norm_sev s); [rewrite bind_Ok | discriminate] end.
    intros [= <-] f [Hf|[<-|[]]]%in_app_or; [now apply Hrows|].
    split; reflexivity.
Qed.

(** X23.  Whatever the report, a table that [parse_slither] returns has
    no finding without a contract: every row is labelled "slither" and
    its contract is a non-empty (truthy) value, "Unknown" where the report
    names none.  So no Slither finding is lost when the score table
    groups the rows by contract. *)
Theorem parse_slither_contract_never_empty (ts : string) (file : option pyval)
    (rows : list SecurityScore.Finding) :
  SecurityScore.parse_slither ts file = Ok rows ->
  forall f, In f rows ->
    SecurityScore.tool f = "slither" /\ truthy (SecurityScore.contract f) = true.
Proof.
  unfold SecurityScore.parse_slither. destruct file as [data|].
  - destruct (py_get data "results") as [results|]; [|discriminate].
    rewrite bind_Ok.
    destruct (py_get (py_or results (PDict [])) "detectors") as [detectors|];
      [|discriminate].
    rewrite bind_Ok.
    destruct (py_iter (py_or detectors (PList []))) as [ds|]; [|discriminate].
    rewrite bind_Ok. intros H.
    refine (for_each_invariant
              (fun rows => forall f, In f rows ->
                 SecurityScore.tool f = "slither"
                 /\ truthy (SecurityScore.contract f) = true)
              _ ds [] rows _ _ H); [|intros f Hf; exfalso; exact Hf].
    intros acc d acc' _ Hacc Hd. exact (slither_detector_labelled _ _ _ _ Hacc Hd).
  - intros [= <-] f Hf. exfalso. exact Hf.
Qed.

Lemma parse_slither_contract_never_empty_witness :
  forallb (fun f => truthy (SecurityScore.contract f))
    [ {| SecurityScore.timestamp := "2025-01-01T00:00:00Z";
         SecurityScore.tool := "slither";
         SecurityScore.contract := PStr "Token";
         SecurityScore.issue_type := PStr "Slither finding";
         SecurityScore.severity := "High";
         SecurityScore.description := PStr "" |} ] = true.
Proof.
  apply forallb_forall. intros f Hf.
  exact (proj2 (parse_slither_contract_never_empty "2025-01-01T00:00:00Z"
                  (Some Spec.scenario_a) _ eq_refl f Hf)).
Defined.

Lemma names_in_Permutation (json_dumps : pyval -> string) (bucket : string)
    (paths paths' : list RetestManager.report_file) :
  paths ≡ₚ paths' ->
  Spec.names_in json_dumps bucket paths ≡ₚ Spec.names_in json_dumps bucket paths'.
Proof.
  intros H. unfold Spec.names_in.
  apply Permutation_map, filter_Permutation, H.
Qed.

Lemma nonempty_Permutation (l l' : list string) :
  l ≡ₚ l' -> RetestManager.nonempty l = RetestManager.nonempty l'.
Proof.
  intros H. destruct l as [|x l], l' as [|y l']; try reflexivity.
  - now apply Permutation_nil_l in H.
  - symmetry in H. now apply Permutation_nil_l in H.
Qed.

(** X24.  The retest plan does not depend on the order in which the glob
    lists the reports: the same report files in another order give the
    same recommended actions and the same count per bucket. *)
Theorem retest_plan_order_independent (json_dumps : pyval -> string)
    (TS dir : string) (paths paths' : list RetestManager.report_file) :
  paths ≡ₚ paths' ->
  exists summary summary' plan plan',
    RetestManager.analyze_reports json_dumps paths = Ok summary
    /\ RetestManager.analyze_reports json_dumps paths' = Ok summary'
    /\ RetestManager.write_retest_plan TS dir summary = Ok plan
    /\ RetestManager.write_retest_plan TS dir summary' = Ok plan'
    /\ RetestManager.recommended_actions plan
       = RetestManager.recommended_actions plan'
    /\ RetestManager.severity_counts plan = RetestManager.severity_counts plan'.
Proof.
  intros Hp. do 4 eexists.
  rewrite !analyze_reports_buckets, !write_retest_plan_buckets.
  do 4 (split; [reflexivity|]).
  cbn [RetestManager.recommended_actions RetestManager.severity_counts].
  pose proof (names_in_Permutation json_dumps "CRITICAL" _ _ Hp) as Hc.
  pose proof (names_in_Permutation json_dumps "MEDIUM" _ _ Hp) as Hm.
  pose proof (names_in_Permutation json_dumps "MINOR" _ _ Hp) as Hn.
  split.
  - now rewrite (nonempty_Permutation _ _ Hc), (nonempty_Permutation _ _ Hm).
  - unfold Spec.buckets. rewrite !fmap_insert, !fmap_empty.
    now rewrite (Permutation_length Hc), (Permutation_length Hm),
      (Permutation_length Hn).
Qed.

Lemma retest_plan_order_independent_witness :
  exists plan plan',
    (summary ← RetestManager.analyze_reports (fun _ => "pragma")
                 [ {| RetestManager.path := "a.json";
                      RetestManager.loaded := Some PNone |};
                   {| RetestManager.path := "b.json";
                      RetestManager.loaded := None |} ];
     RetestManager.write_retest_plan "20250101T000000Z" "results" summary)
    = Ok plan
    /\ (summary ← RetestManager.analyze_reports (fun _ => "pragma")
                    [ {| RetestManager.path := "b.json";
                         RetestManager.loaded := None |};
                      {| RetestManager.path := "a.json";
                         RetestManager.loaded := Some PNone |} ];
        RetestManager.write_retest_plan "20250101T000000Z" "results" summary)
       = Ok plan'
    /\ RetestManager.recommended_actions plan
       = RetestManager.recommended_actions plan'.
Proof.
  destruct (retest_plan_order_independent (fun _ => "pragma")
              "20250101T000000Z" "results" _ _
              (perm_swap _ _ []
               : [ {| RetestManager.path := "a.json";
                      RetestManager.loaded := Some PNone |};
                   {| RetestManager.path := "b.json";
                      RetestManager.loaded := None |} ]
                 ≡ₚ [ {| RetestManager.path := "b.json";
                         RetestManager.loaded := None |};
                      {| RetestManager.path := "a.json";
                         RetestManager.loaded := Some PNone |} ]))
    as (s & s' & plan & plan' & E1 & E2 & E3 & E4 & Ha & _).
  exists plan, plan'. rewrite E1, E2, !bind_Ok. auto.
Defined.

Lemma names_in_cons_cases (json_dumps : pyval -> string) (bucket : string)
    (p : RetestManager.report_file) (paths : list RetestManager.report_file) :
  Spec.names_in json_dumps bucket (p :: paths)
  = (if String.eqb (Spec.bucket_of json_dumps p) bucket
     then [PyStr.basename (RetestManager.path p)] else [])
    ++ Spec.names_in json_dumps bucket paths.
Proof.
  unfold Spec.names_in. cbn [List.filter].
  now destruct (String.eqb (Spec.bucket_of json_dumps p) bucket).
Qed.

(** X25.  [analyze_reports] files every report exactly once: the three
    buckets of the summary hold, between them, the base names of all the
    report files, each as often as it occurs among the paths.  So the
    counts of the plan add up to the number of reports. *)
Theorem triage_files_every_report_once (json_dumps : pyval -> string)
    (paths : list RetestManager.report_file) :
  exists summary critical medium minor,
    RetestManager.analyze_reports json_dumps paths = Ok summary
    /\ summary !! "CRITICAL" = Some critical
    /\ summary !! "MEDIUM" = Some medium
    /\ summary !! "MINOR" = Some minor
    /\ critical ++ medium ++ minor
       ≡ₚ map (fun p => PyStr.basename (RetestManager.path p)) paths
    /\ (length critical + length medium + length minor = length paths)%nat.
Proof.
  rewrite analyze_reports_buckets. do 4 eexists. split; [reflexivity|].
  destruct (buckets_lookup (Spec.names_in json_dumps "CRITICAL" paths)
              (Spec.names_in json_dumps "MEDIUM" paths)
              (Spec.names_in json_dumps "MINOR" paths)) as (Hc & Hm & Hn).
  do 3 (split; [eassumption|]).
  assert (Hp : Spec.names_in json_dumps "CRITICAL" paths
               ++ Spec.names_in json_dumps "MEDIUM" paths
               ++ Spec.names_in json_dumps "MINOR" paths
               ≡ₚ map (fun p => PyStr.basename (RetestManager.path p)) paths).
  { clear Hc Hm Hn. induction paths as [|p paths IH]; [reflexivity|].
    rewrite !names_in_cons_cases. cbn [map].
    destruct (bucket_of_cases json_dumps p) as [E|[E|E]]; rewrite E;
      cbn [String.eqb Ascii.eqb Bool.eqb app]; rewrite <- IH.
    - reflexivity.
    - symmetry. apply Permutation_middle.
    - symmetry. rewrite app_assoc.
      rewrite (Permutation_middle
                 (Spec.names_in json_dumps "CRITICAL" paths
                  ++ Spec.names_in json_dumps "MEDIUM" paths)).
      now rewrite <- app_assoc. }
  split; [exact Hp|].
  apply Permutation_length in Hp. rewrite !length_app, length_map in Hp. lia.
Qed.

(* ===================================================================== *)
(** ** Echidna failures and the scores of the contracts *)
(* ===================================================================== *)

Lemma group_size_other_contract (df : list SecurityScore.Finding) (c : pyval)
    (sev : string) :
  (forall f, In f df ->
             SecurityScore.same_key (SecurityScore.contract f) c = false) ->
  SecurityScore.group_size df c sev = 0.
Proof.
  intros H. induction df as [|f df IH]; [reflexivity|].
  rewrite group_size_cons, IH by (intros g Hg; apply H; now right).
  rewrite (H f (or_introl eq_refl)).
  now destruct (String.eqb _ _).
Qed.

Lemma of_interest_app (sev_map : list (string * Z))
    (df1 df2 : list SecurityScore.Finding) :
  SecurityScore.of_interest sev_map (df1 ++ df2)
  = SecurityScore.of_interest sev_map df1 ++ SecurityScore.of_interest sev_map df2.
Proof. apply List.filter_app. Qed.

Lemma row_of_other_findings (sev_map : list (string * Z))
    (df rows : list SecurityScore.Finding) (c : pyval) :
  (forall f, In f rows ->
             SecurityScore.same_key (SecurityScore.contract f) c = false) ->
  Spec.row_of sev_map (df ++ rows) c = Spec.row_of sev_map df c.
Proof.
  intros H. unfold Spec.row_of.
  rewrite !group_size_app, !(group_size_other_contract rows c _ H), !Z.add_0_r.
  do 3 f_equal. apply weighted_sum_ext. intros sev _.
  now rewrite group_size_app, (group_size_other_contract rows c _ H), Z.add_0_r.
Qed.

(** The first cells of the keys of two lists on end: those of the first
    list, then those of the second whose key is new. *)
Lemma uniques_app_In (l l' : list (SecurityScore.group_key * pyval))
    (x : SecurityScore.group_key * pyval) :
  In x (SecurityScore.uniques (l ++ l'))
  <-> In x (SecurityScore.uniques l)
      \/ (~ In (fst x) (map fst l) /\ In x (SecurityScore.uniques l')).
Proof.
  induction l as [|[k0 c0] r IH].
  - cbn [app SecurityScore.uniques map In]. tauto.
  - change (((k0, c0) :: r) ++ l') with ((k0, c0) :: (r ++ l')).
    rewrite !uniques_cons_In, IH. cbn [map In fst].
    intuition congruence.
Qed.

(** The rows of the table, when it is built. *)
Lemma aggregate_scores_In (df : list SecurityScore.Finding)
    (weights : list (string * Z)) (r : SecurityScore.ScoreRow) :
  let sev_map := SecurityScore.sev_map_of weights in
  let counted := SecurityScore.of_interest sev_map df in
  (exists rows, SecurityScore.aggregate_scores df weights = Ok rows /\ In r rows)
  <-> exists l,
        SecurityScore.keyed (map SecurityScore.contract counted) = Ok l
        /\ (exists k, In (k, SecurityScore.row_contract r) (SecurityScore.uniques l))
        /\ r = Spec.row_of sev_map counted (SecurityScore.row_contract r).
Proof.
  cbv zeta. split.
  - intros (rows & Hrows & Hr).
    apply aggregate_scores_Ok in Hrows as (l & Hl & _ & ->).
    apply in_map_iff in Hr as (c & <- & Hc). exists l.
    split; [exact Hl|]. split; [|reflexivity].
    cbn [Spec.row_of SecurityScore.row_contract].
    now apply contracts_of_In.
  - intros (l & Hl & Hk & Hr).
    exists (map (Spec.row_of (SecurityScore.sev_map_of weights)
                   (SecurityScore.of_interest (SecurityScore.sev_map_of weights) df))
                (map snd (SecurityScore.sort_keys (SecurityScore.uniques l)))).
    split.
    + apply aggregate_scores_Ok. exists l. split; [exact Hl|]. split; [|reflexivity].
      destruct Hk as (k & Hk). intros E. rewrite E in Hk. exact Hk.
    + rewrite Hr. apply in_map, contracts_of_In, Hk.
Qed.

(** X26.  Echidna failures never touch the score of a contract.
    [parse_echidna] books every failed property on the contract
    "Invariants"; so adding the findings of an Echidna report to the
    issues leaves the row of every other contract in the score table as
    it was: same counts, same score. *)
Theorem echidna_failures_leave_contract_scores
    (json_loads : string -> option pyval) (ts : string) (file : option string)
    (failures : list SecurityScore.Finding)
    (df : list SecurityScore.Finding) (weights : list (string * Z))
    (r : SecurityScore.ScoreRow) :
  SecurityScore.parse_echidna json_loads ts file = Ok failures ->
  SecurityScore.row_contract r <> PStr "Invariants" ->
  (exists rows,
     SecurityScore.aggregate_scores (df ++ failures) weights = Ok rows /\ In r rows)
  <-> (exists rows,
         SecurityScore.aggregate_scores df weights = Ok rows /\ In r rows).
Proof.
  intros Hp Hr. rewrite !aggregate_scores_In. cbv zeta. rewrite of_interest_app.
  set (sev_map := SecurityScore.sev_map_of weights).
  set (counted := SecurityScore.of_interest sev_map df).
  set (extra := SecurityScore.of_interest sev_map failures).
  set (c := SecurityScore.row_contract r) in *.
  assert (Hinv : forall f, In f extra -> SecurityScore.contract f = PStr "Invariants").
  { intros f Hf. unfold extra, SecurityScore.of_interest in Hf.
    apply filter_In in Hf as [Hf _].
    now destruct (parse_echidna_rows _ _ _ _ Hp f Hf) as [_ ->]. }
  assert (Hother : forall f, In f extra ->
                     SecurityScore.same_key (SecurityScore.contract f) c = false).
  { intros f Hf. rewrite (Hinv f Hf), same_key_str by reflexivity.
    apply bool_decide_eq_false. congruence. }
  destruct (keyed_strings extra) as (le & Hle & Hin).
  { intros f Hf. now rewrite (Hinv f Hf). }
  assert (Hle' : forall k, ~ In (k, c) (SecurityScore.uniques le)).
  { intros k Hk. apply uniques_In, Hin in Hk as (s & _ & Hc & Hcell).
    apply in_map_iff in Hcell as (f & Hf & Hfin). rewrite (Hinv f Hfin) in Hf.
    congruence. }
  rewrite (row_of_other_findings sev_map counted extra c Hother).
  rewrite map_app, keyed_app, Hle. split.
  - intros (l & Hl & (k & Hk) & Hrow).
    destruct (SecurityScore.keyed (map SecurityScore.contract counted)) as [l1|e];
      [|discriminate].
    rewrite !bind_Ok in Hl. injection Hl as <-.
    exists l1. split; [reflexivity|]. split; [|exact Hrow].
    apply uniques_app_In in Hk as [Hk|[_ Hk]]; [now exists k|].
    now apply Hle' in Hk.
  - intros (l1 & -> & (k & Hk) & Hrow). rewrite !bind_Ok.
    exists (l1 ++ le). split; [reflexivity|]. split; [|exact Hrow].
    exists k. apply uniques_app_In. now left.
Qed.

Lemma echidna_failures_leave_contract_scores_witness :
  let data :=
    PDict [("failedTests", PDict [("echidna_no_overwrite", PBool false)])] in
  let token :=
    {| SecurityScore.row_contract := PStr "Token";
       SecurityScore.Critical := 0; SecurityScore.High := 1;
       SecurityScore.Medium := 0; SecurityScore.SecurityScore := 97 |} in
  exists rows,
    SecurityScore.aggregate_scores
      ([Spec.finding "Token" "High"]
       ++ [SecurityScore.echidna_row "2025-01-01T00:00:00Z"
             "echidna_no_overwrite"])
      (SecurityScore.load_weights None) = Ok rows
    /\ In token rows.
Proof.
  cbv zeta.
  apply (echidna_failures_leave_contract_scores
           (fun _ => Some (PDict [("failedTests",
                                   PDict [("echidna_no_overwrite", PBool false)])]))
           "2025-01-01T00:00:00Z" (Some "{}")).
  - reflexivity.
  - discriminate.
  - eexists. split; [reflexivity|]. left. reflexivity.
Defined.
